(** * tax-credit: evaluation framework ([tax_credit/eval_framework.py])

    A shallow embedding of the evaluation pipeline of tax-credit and the
    properties of it that its specification states.

    Conventions of the embedding.
    - Python [str] is [string]; ids and taxonomy strings are ASCII.
    - Python [float] is [Q]: arithmetic is exact, and equality of computed
      numbers is [Qeq] ([==]).  A pandas cell that may hold NaN is
      [option Q], [None] being NaN.
    - Python [set] of strings is [gset string]; [dict] is [gmap].
    - An exception is a value of [exn]; code that may raise returns
      [result]; code that also reads or writes files, or prints, runs in
      the monad [M] over a [World].
    - The sparse table library (biom) is modelled by [Table] with the
      operations the module calls on it. *)

From Stdlib Require Import QArith Qabs Lqa Lia Ascii String Sorted.
From stdpp Require Import base gmap sets list strings pretty.

Close Scope Q_scope.
Local Open Scope string_scope.

(** ** Exceptions and results *)

Inductive exn : Type :=
  | AssertionError (msg : string)
  | KeyError (msg : string)
  | ValueError (msg : string)
  | TypeError (msg : string)
  | TableException (msg : string)
  | UnknownIDError (id : string)
  | IndexError
  | AttributeError
  | ZeroDivisionError
  | IOError (path : string).

Inductive result (A : Type) : Type :=
  | Ok (a : A)
  | Raise (e : exn).
Arguments Ok {A} a.
Arguments Raise {A} e.

#[global] Instance result_ret : MRet result := λ A a, Ok a.
#[global] Instance result_bind : MBind result := λ A B f m,
  match m with
  | Ok a => f a
  | Raise e => Raise e
  end.

Definition is_Ok {A} (r : result A) : Prop := ∃ a, r = Ok a.

(** ** Strings: the [str] methods the module uses *)

(** [str.isspace] on one ASCII character: TAB, LF, VT, FF, CR, the four
    separators 0x1c-0x1f and the space. *)
Definition is_space (c : ascii) : bool :=
  let n := nat_of_ascii c in
  ((9 <=? n)%nat && (n <=? 13)%nat) || ((28 <=? n)%nat && (n <=? 32)%nat).

Definition is_empty_string (s : string) : bool :=
  match s with
  | EmptyString => true
  | String _ _ => false
  end.

(** [sep.join(parts)] *)
Fixpoint str_join (sep : string) (parts : list string) : string :=
  match parts with
  | [] => ""
  | [p] => p
  | p :: rest => p ++ sep ++ str_join sep rest
  end.

(** [s.split()]: the maximal runs of characters that are not whitespace.
    [word] is the run being read. *)
Fixpoint str_split_whitespace_from (word : string) (s : string) : list string :=
  match s with
  | EmptyString => if is_empty_string word then [] else [word]
  | String c rest =>
      if is_space c then
        if is_empty_string word then str_split_whitespace_from "" rest
        else word :: str_split_whitespace_from "" rest
      else str_split_whitespace_from (word ++ String c "") rest
  end.

Definition str_split_whitespace (s : string) : list string :=
  str_split_whitespace_from "" s.

(** [s.split(sep)] for a one-character separator: empty fields are kept,
    and the result is never empty. *)
Fixpoint str_split_from (sep : ascii) (field : string) (s : string) : list string :=
  match s with
  | EmptyString => [field]
  | String c rest =>
      if Ascii.eqb c sep then field :: str_split_from sep "" rest
      else str_split_from sep (field ++ String c "") rest
  end.

Definition str_split (sep : ascii) (s : string) : list string :=
  str_split_from sep "" s.

(** [s.lstrip()], [s.rstrip()] and [s.strip()] *)
Fixpoint str_lstrip (s : string) : string :=
  match s with
  | EmptyString => ""
  | String c rest => if is_space c then str_lstrip rest else s
  end.

Fixpoint str_rstrip (s : string) : string :=
  match s with
  | EmptyString => ""
  | String c rest =>
      let rest' := str_rstrip rest in
      if is_space c && is_empty_string rest' then "" else String c rest'
  end.

Definition str_strip (s : string) : string := str_rstrip (str_lstrip s).

(** [s.startswith(prefix)] *)
Definition str_startswith (s prefix : string) : bool := String.prefix prefix s.

(** The characters of [s] that satisfy [keep], in order. *)
Fixpoint str_filter (keep : ascii → bool) (s : string) : string :=
  match s with
  | EmptyString => ""
  | String c rest =>
      if keep c then String c (str_filter keep rest) else str_filter keep rest
  end.

Fixpoint str_forall (P : ascii → bool) (s : string) : bool :=
  match s with
  | EmptyString => true
  | String c rest => P c && str_forall P rest
  end.

(** ["".join(s.split())], the idiom of [get_observed_observation_ids] *)
Definition remove_whitespace (s : string) : string :=
  str_join "" (str_split_whitespace s).

(** ** Numbers *)

Definition Qlt_bool (x y : Q) : bool := negb (Qle_bool y x).

(** [x / y] on floats; Python raises on a zero divisor. *)
Definition py_div (x y : Q) : result Q :=
  if Qeq_bool y 0 then Raise ZeroDivisionError else Ok (x / y)%Q.

Definition Q_of_nat (n : nat) : Q := inject_Z (Z.of_nat n).

(** ** Sparse count tables *)

(** The value of one metadata key of an observation: nothing, a
    delimited string, or a sequence of rank strings. *)
Inductive md_value : Type :=
  | MdNone
  | MdStr (s : string)
  | MdList (ranks : list string).

(** One row of a table: id, metadata (a dict, or [None]) and the counts,
    one per sample, in the order of the table's sample ids. *)
Record Observation : Type := mkObservation {
  obs_id : string;
  obs_metadata : option (gmap string md_value);
  obs_data : list Q
}.

Record Table : Type := mkTable {
  observations : list Observation;
  sample_ids : list string
}.

(** [table.ids(axis="observation")] *)
Definition observation_ids (table : Table) : list string :=
  obs_id <$> observations table.

Fixpoint index_of (id : string) (ids : list string) : option nat :=
  match ids with
  | [] => None
  | x :: rest => if String.eqb x id then Some 0 else S <$> index_of id rest
  end.

(** [table.index(id, axis=...)] *)
Definition index_observation (table : Table) (id : string) : result nat :=
  match index_of id (observation_ids table) with
  | Some i => Ok i
  | None => Raise (UnknownIDError id)
  end.

Definition index_sample (table : Table) (id : string) : result nat :=
  match index_of id (sample_ids table) with
  | Some j => Ok j
  | None => Raise (UnknownIDError id)
  end.

(** [table[i, j]]; a cell that is not stored is zero. *)
Definition table_get (table : Table) (i j : nat) : Q :=
  match observations table !! i with
  | Some o => default 0%Q (obs_data o !! j)
  | None => 0%Q
  end.

(** [table.get_value_by_ids(obs_id, samp_id)] *)
Definition get_value_by_ids (table : Table) (obs_id samp_id : string) : result Q :=
  i ← index_observation table obs_id;
  j ← index_sample table samp_id;
  Ok (table_get table i j).

(** [table.is_empty()] *)
Definition is_empty (table : Table) : bool :=
  match observations table, sample_ids table with
  | _ :: _, _ :: _ => false
  | _, _ => true
  end.

(** ** Metric engine *)

(** The first statement of [get_observed_observation_ids]: [sample_id]
    defaults to the first sample id of the table. *)
Definition default_sample_id (table : Table) (sample_id : option string) : result string :=
  match sample_id with
  | Some s => Ok s
  | None =>
      match sample_ids table with
      | s :: _ => Ok s
      | [] => Raise IndexError
      end
  end.

(** The loop of [get_observed_observation_ids] over the observation ids
    still to visit; [acc] is the list [result] built so far. *)
Fixpoint observed_loop (table : Table) (sample_id : string) (ws_strip : bool)
    (ids : list string) (acc : list string) : result (list string) :=
  match ids with
  | [] => Ok acc
  | observation_id :: rest =>
      v ← get_value_by_ids table observation_id sample_id;
      if Qlt_bool 0 v then
        let observation_id :=
          if ws_strip then remove_whitespace observation_id else observation_id in
        observed_loop table sample_id ws_strip rest (acc ++ [observation_id])
      else observed_loop table sample_id ws_strip rest acc
  end.

Definition get_observed_observation_ids (table : Table)
    (sample_id : option string) (ws_strip : bool) : result (gset string) :=
  sample_id ← default_sample_id table sample_id;
  acc ← observed_loop table sample_id ws_strip (observation_ids table) [];
  Ok (list_to_set acc).

Definition compute_prf (actual_table expected_table : Table)
    (actual_sample_id expected_sample_id : option string) : result (Q * Q * Q) :=
  actual_obs_ids ← get_observed_observation_ids actual_table actual_sample_id true;
  expected_obs_ids ← get_observed_observation_ids expected_table expected_sample_id true;
  let tp := size (actual_obs_ids ∩ expected_obs_ids) in
  let fp := size (actual_obs_ids ∖ expected_obs_ids) in
  let fn := size (expected_obs_ids ∖ actual_obs_ids) in
  if (0 <? tp)%nat then
    p ← py_div (Q_of_nat tp) (Q_of_nat (tp + fp));
    r ← py_div (Q_of_nat tp) (Q_of_nat (tp + fn));
    f ← py_div (2 * p * r)%Q (p + r)%Q;
    Ok (p, r, f)
  else Ok (0%Q, 0%Q, 0%Q).

(** [list(actual_obs_ids | expected_obs_ids)] fixes an iteration order of
    the set; [elements] is the order of the embedding. *)
Definition set_to_list (X : gset string) : list string := elements X.

(** One iteration of the loop of [get_actual_and_expected_vectors]: the
    count of [obs_id] in column [sample_idx], or 0.0 when the table does
    not know the id. *)
Definition value_or_zero (table : Table) (sample_idx : nat) (obs_id : string) : Q :=
  match index_observation table obs_id with
  | Ok obs_idx => table_get table obs_idx sample_idx
  | Raise _ => 0%Q
  end.

Definition sample_index (table : Table) (sample_id : option string) : result nat :=
  match sample_id with
  | None => Ok 0%nat
  | Some s => index_sample table s
  end.

Definition get_actual_and_expected_vectors (actual_table expected_table : Table)
    (actual_sample_id expected_sample_id : option string) : result (list Q * list Q) :=
  actual_obs_ids ← get_observed_observation_ids actual_table actual_sample_id false;
  expected_obs_ids ← get_observed_observation_ids expected_table expected_sample_id false;
  let all_obs_ids := set_to_list (actual_obs_ids ∪ expected_obs_ids) in
  actual_sample_idx ← sample_index actual_table actual_sample_id;
  expected_sample_idx ← sample_index expected_table expected_sample_id;
  let actual_vector := value_or_zero actual_table actual_sample_idx <$> all_obs_ids in
  let expected_vector := value_or_zero expected_table expected_sample_idx <$> all_obs_ids in
  Ok (actual_vector, expected_vector).

(** ** Table loader: collapsing and filtering *)

(** [l[:k]] *)
Definition py_slice_to {A} (k : Z) (l : list A) : list A :=
  if (0 <=? k)%Z then take (Z.to_nat k) l
  else take (length l - Z.to_nat (- k)) l.

(** What biom hands to a function that it calls on an observation
    ([table.filter], [table.collapse]): a table keeps no metadata at all
    when none of its observations has any, and the function gets [None];
    otherwise it gets a [defaultdict(lambda: None)] holding the metadata
    of the observation, which is empty for an observation without
    metadata. *)
Definition has_metadata (o : Observation) : bool :=
  match obs_metadata o with
  | Some _ => true
  | None => false
  end.

Definition handed_metadata (table : Table) (o : Observation)
    : option (gmap string md_value) :=
  if existsb has_metadata (observations table)
  then Some (default ∅ (obs_metadata o))
  else None.

(** [md[md_key]] on what biom hands over: a key that the defaultdict
    lacks reads as [None]. *)
Definition md_getitem (md : option (gmap string md_value)) (md_key : string) : result md_value :=
  match md with
  | None => Raise (TypeError "'NoneType' object is not subscriptable")
  | Some d => Ok (default MdNone (d !! md_key))
  end.

(** The defaultdict after [md[md_key]] has been read: a key that was
    missing is now stored, with [None]. *)
Definition md_read (md : option (gmap string md_value)) (md_key : string)
    : option (gmap string md_value) :=
  (λ d, match d !! md_key with
        | Some _ => d
        | None => <[md_key := MdNone]> d
        end) <$> md.

(** The two comprehensions of the collapser: [split] exists on a string
    only; on a sequence the [AttributeError] branch strips its elements,
    and [None] cannot be iterated. *)
Definition taxonomy_levels (v : md_value) : result (list string) :=
  match v with
  | MdStr s => Ok (str_strip <$> str_split ";" s)
  | MdList ranks => Ok (str_strip <$> ranks)
  | MdNone => Raise (TypeError "'NoneType' object is not iterable")
  end.

(** The function [f] that [get_taxonomy_collapser level md_key] returns *)
Definition get_taxonomy_collapser (level : Z) (md_key : string)
    (id_ : string) (md : option (gmap string md_value)) : result string :=
  v ← md_getitem md md_key;
  levels ← taxonomy_levels v;
  Ok (str_join ";" (py_slice_to (level + 1) levels)).

(** [len(x)] and [';'.join(x)] on a metadata value: a string is the
    sequence of its characters. *)
Definition characters (s : string) : list string :=
  (λ c, String c "") <$> list_ascii_of_string s.

Definition md_len (v : md_value) : result nat :=
  match v with
  | MdStr s => Ok (String.length s)
  | MdList ranks => Ok (length ranks)
  | MdNone => Raise (TypeError "object of type 'NoneType' has no len()")
  end.

Definition md_join (sep : string) (v : md_value) : result string :=
  match v with
  | MdStr s => Ok (str_join sep (characters s))
  | MdList ranks => Ok (str_join sep ranks)
  | MdNone => Raise (TypeError "can only join an iterable")
  end.

Definition is_MdNone (v : md_value) : bool :=
  match v with
  | MdNone => true
  | _ => false
  end.

Definition Qsum (l : list Q) : Q := foldr Qplus 0%Q l.

(** [_taxa_to_keep] of [filter_table]: the allowlist joined with [';'],
    or [None] when no allowlist is given. *)
Definition joined_taxa_to_keep (taxa_to_keep : option (list string)) : option string :=
  str_join ";" <$> taxa_to_keep.

(** The three conditions of the predicate [f] of [filter_table], each
    with the exceptions its evaluation can raise.  With a level,
    [enough_levels] reads [metadata[md_key]], so that [md_key in metadata]
    holds when [allowed_taxa] is computed. *)
Definition enough_levels (taxonomy_level : option Z) (md_key : string)
    (metadata : option (gmap string md_value)) : result bool :=
  match taxonomy_level with
  | None => Ok true
  | Some level =>
      v ← md_getitem metadata md_key;
      if is_MdNone v then Ok false
      else
        v' ← md_getitem metadata md_key;
        n ← md_len v';
        Ok (level + 1 <=? Z.of_nat n)%Z
  end.

Definition allowed_taxa (_taxa_to_keep : option string) (md_key : string)
    (id_ : string) (metadata : option (gmap string md_value)) : result bool :=
  match _taxa_to_keep with
  | None => Ok true
  | Some prefix =>
      if str_startswith id_ prefix then Ok true
      else
        match metadata with
        | None => Ok false
        | Some d =>
            match d !! md_key with
            | None => Ok false
            | Some v =>
                joined ← md_join ";" v;
                Ok (str_startswith joined prefix)
            end
        end
  end.

Definition filter_predicate (min_count : Q) (taxonomy_level : option Z)
    (_taxa_to_keep : option string) (md_key : string)
    (data_vector : list Q) (id_ : string)
    (metadata : option (gmap string md_value)) : result bool :=
  enough ← enough_levels taxonomy_level md_key metadata;
  let metadata :=
    match taxonomy_level with
    | Some _ => md_read metadata md_key
    | None => metadata
    end in
  allowed ← allowed_taxa _taxa_to_keep md_key id_ metadata;
  let sufficient_count := Qle_bool min_count (Qsum data_vector) in
  Ok (sufficient_count && allowed && enough).

(** [table.filter(f, axis='observation', inplace=False)]: the predicate
    is called on every observation in order, with its counts, its id and
    the metadata that biom hands over; the observations on which it holds
    are kept, and an exception of the predicate leaves the call. *)
Fixpoint filter_observations (f : Observation → result bool)
    (obs : list Observation) : result (list Observation) :=
  match obs with
  | [] => Ok []
  | o :: rest =>
      keep ← f o;
      rest' ← filter_observations f rest;
      Ok (if keep : bool then o :: rest' else rest')
  end.

Definition table_filter (f : list Q → string → option (gmap string md_value) → result bool)
    (table : Table) : result Table :=
  obs ← filter_observations
           (λ o, f (obs_data o) (obs_id o) (handed_metadata table o))
           (observations table);
  Ok (mkTable obs (sample_ids table)).

Definition filter_table (table : Table) (min_count : Q) (taxonomy_level : option Z)
    (taxa_to_keep : option (list string)) (md_key : string) : result Table :=
  let _taxa_to_keep := joined_taxa_to_keep taxa_to_keep in
  table_filter (filter_predicate min_count taxonomy_level _taxa_to_keep md_key) table.

(** ** Results tables *)

(** A cell of a numeric column; [None] is NaN. *)
Definition number : Type := option Q.

(** A decoded parameter character or token *)
Inductive pyval : Type :=
  | PyFloat (x : Q)
  | PyStr (s : string).

(** One row of the results table: the thirteen columns of
    [compute_mock_results] and the parameter columns merged onto them. *)
Record Row : Type := mkRow {
  Dataset : string;
  Level : Z;
  SampleID : string;
  Reference : string;
  Method : string;
  Parameters : string;
  Precision : number;
  Recall : number;
  F_measure : number;
  Pearson_r : number;
  Pearson_p : number;
  Spearman_r : number;
  Spearman_p : number;
  param_columns : gmap string (list pyval)
}.

(** ** The world: files and standard output *)

(** A path is the list of its components; [join] appends components and
    [split] takes the last one off. *)
Definition path_join (dir : list string) (names : list string) : list string :=
  dir ++ names.

Definition path_split (p : list string) : list string * string :=
  (removelast p, default "" (last p)).

Definition path_to_string (p : list string) : string := str_join "/" p.

Inductive File : Type :=
  | Directory
  | BiomFile (table : Table)
  | TsvFile (df : list Row)
  | OtherFile (content : string).

Record World : Type := mkWorld {
  fs : gmap (list string) File;
  stdout : list string
}.

(** Computations that may raise, read and write files, and print *)
Definition M (A : Type) : Type := World → result A * World.

#[global] Instance M_ret : MRet M := λ A a w, (Ok a, w).
#[global] Instance M_bind : MBind M := λ A B f m w,
  match m w with
  | (Ok a, w') => f a w'
  | (Raise e, w') => (Raise e, w')
  end.

Definition raise {A} (e : exn) : M A := λ w, (Raise e, w).

Definition lift {A} (r : result A) : M A := λ w, (r, w).

Definition print (line : string) : M unit :=
  λ w, (Ok (), mkWorld (fs w) (stdout w ++ [line])).

(** [try: m except e: handler e] *)
Definition try_except {A} (m : M A) (handler : exn → M A) : M A := λ w,
  match m w with
  | (Raise e, w') => handler e w'
  | r => r
  end.

(** A [for] loop that threads the variables [s] it assigns. *)
Fixpoint for_each {A S} (xs : list A) (body : A → S → M S) (s : S) : M S :=
  match xs with
  | [] => mret s
  | x :: rest => s' ← body x s; for_each rest body s'
  end.

(** [os.path.exists]: a stored path, or a directory above one *)
Definition exists_in (w : World) (p : list string) : bool :=
  bool_decide (Exists (λ q, p `prefix_of` q) (elements (dom (fs w)))).

Definition path_exists (p : list string) : M bool := λ w, (Ok (exists_in w p), w).

(** [biom.load_table]: a [ValueError] on a file that is not a table *)
Definition load_table (table_fp : list string) : M Table := λ w,
  match fs w !! table_fp with
  | Some (BiomFile table) => (Ok table, w)
  | Some _ => (Raise (ValueError "not a BIOM table"), w)
  | None => (Raise (IOError (path_to_string table_fp)), w)
  end.

(** [pd.DataFrame.from_csv(fp, sep='\t')] *)
Definition from_csv (fp : list string) : M (list Row) := λ w,
  match fs w !! fp with
  | Some (TsvFile df) => (Ok df, w)
  | Some _ => (Raise (ValueError "not a delimited table"), w)
  | None => (Raise (IOError (path_to_string fp)), w)
  end.

(** [df.to_csv(fp, sep='\t')]: the file is opened for writing, which
    fails when its directory does not exist.  A file of delimited text is
    modelled by the table that is written to it. *)
Definition directory_exists (w : World) (fp : list string) : bool :=
  match removelast fp with
  | [] => true
  | dir => exists_in w dir
  end.

Definition to_csv (df : list Row) (fp : list string) : M unit := λ w,
  if directory_exists w fp
  then (Ok (), mkWorld (<[fp := TsvFile df]> (fs w)) (stdout w))
  else (Raise (IOError (path_to_string fp)), w).

(** [glob(join(start_dir, pattern...))]: the stored paths below
    [start_dir] whose components match the pattern, one by one. *)
Fixpoint components_match (pattern : list (string → bool)) (names : list string) : bool :=
  match pattern, names with
  | [], [] => true
  | m :: pattern', n :: names' => m n && components_match pattern' names'
  | _, _ => false
  end.

Definition strip_dir (dir p : list string) : option (list string) :=
  if bool_decide (dir `prefix_of` p) then Some (drop (length dir) p) else None.

Definition glob_match (start_dir : list string) (pattern : list (string → bool))
    (p : list string) : bool :=
  match strip_dir start_dir p with
  | Some names => components_match pattern names
  | None => false
  end.

Definition glob (start_dir : list string) (pattern : list (string → bool)) : M (list (list string)) := λ w,
  (Ok (filter (λ p, glob_match start_dir pattern p = true) (elements (dom (fs w)))), w).

(** The wildcard [*] of a glob matches every name that is not hidden. *)
Definition star (name : string) : bool := negb (str_startswith name ".").

Definition str_endswith (s suffix : string) : bool :=
  bool_decide (list_ascii_of_string suffix `suffix_of` list_ascii_of_string s).

(** [table*biom] *)
Definition table_star_biom (name : string) : bool :=
  str_startswith name "table" &&
  str_endswith (String.substring 5 (String.length name - 5) name) "biom".

(** ** The collaborators that are not modelled: collapsing and
    normalising a table, the correlation statistics, and [shuffle] *)

Class Collaborators : Type := {
  table_collapse :
    (string → option (gmap string md_value) → result string) → Table → result Table;
  table_norm : Table → Table;
  pearsonr : list Q → list Q → result (number * number);
  spearmanr : list Q → list Q → result (number * number);
  shuffle : list (string * string * string * string * list string) →
            list (string * string * string * string * list string)
}.

Section Pipeline.
Context `{Collaborators}.

(** ** Table loader *)

Definition mount_observations (table_fp : list string) (min_count : Q)
    (taxonomy_level : Z) (taxa_to_keep : option (list string)) (md_key : string)
    (normalize clean_obs_ids filter_obs : bool) : M Table :=
  table ← try_except (load_table table_fp) (λ e,
    match e with
    | ValueError _ =>
        raise (ValueError ("Couldn't parse BIOM table: " ++ path_to_string table_fp))
    | _ => raise e
    end);
  table ←
    (if filter_obs && Qlt_bool 0 min_count && bool_decide (is_Some taxa_to_keep) then
       table ← try_except
         (lift (filter_table table min_count (Some taxonomy_level) taxa_to_keep md_key))
         (λ e,
           match e with
           | TableException _ => mret table
           | TypeError _ =>
               _ ← print ("Missing taxonomic information in table " ++ path_to_string table_fp);
               mret table
           | _ => raise e
           end);
       if is_empty table then
         raise (ValueError ("Table is empty after filtering at " ++ path_to_string table_fp))
       else mret table
     else mret table);
  let collapse_taxonomy := get_taxonomy_collapser taxonomy_level md_key in
  table ← try_except (lift (table_collapse collapse_taxonomy table)) (λ e,
    match e with
    | TableException _ =>
        raise (TableException ("Failure to collapse taxonomy for table at: " ++ path_to_string table_fp))
    | TypeError _ =>
        raise (TypeError ("Failure to collapse taxonomy in: " ++ path_to_string table_fp))
    | _ => raise e
    end);
  mret (if normalize then table_norm table else table).

(** ** Result locator *)

Definition find_and_process_result_tables (start_dir : list string)
    : M (list (string * string * string * string * list string)) :=
  table_fps ← glob start_dir [star; star; star; star; table_star_biom];
  mret ((λ table_fp,
    let '(param_dir, _) := path_split table_fp in
    let '(method_dir, param_id) := path_split param_dir in
    let '(reference_dir, method_id) := path_split method_dir in
    let '(dataset_dir, reference_id) := path_split reference_dir in
    let '(_, dataset_id) := path_split dataset_dir in
    (dataset_id, reference_id, method_id, param_id, table_fp)) <$> table_fps).

Definition find_and_process_expected_tables (start_dir : list string) (level : Z)
    : M (list (string * string * list string)) :=
  let filename := "table.L" ++ pretty level ++ "-taxa.biom" in
  table_fps ← glob start_dir [star; star; String.eqb "expected"; String.eqb filename];
  mret ((λ table_fp,
    let '(expected_dir, _) := path_split table_fp in
    let '(reference_dir, _) := path_split expected_dir in
    let '(dataset_dir, reference_id) := path_split reference_dir in
    let '(_, dataset_id) := path_split dataset_dir in
    (dataset_id, reference_id, table_fp)) <$> table_fps).

(** [results[dataset_id][reference_id] = processed_table] on a
    [defaultdict(dict)] *)
Definition lookup_insert (results : gmap string (gmap string (list string)))
    (entry : string * string * list string) : gmap string (gmap string (list string)) :=
  let '(dataset_id, reference_id, processed_table) := entry in
  <[dataset_id := <[reference_id := processed_table]> (default ∅ (results !! dataset_id))]> results.

Definition get_expected_tables_lookup (start_dir : list string) (level : Z)
    : M (gmap string (gmap string (list string))) :=
  expected_tables ← find_and_process_expected_tables start_dir level;
  mret (foldl lookup_insert ∅ expected_tables).

Definition newline : string := String (ascii_of_nat 10) "".

Definition seek_results (results_dirs : list (list string))
    : M (list (string * string * string * string * list string)) :=
  for_each results_dirs (λ results_dir results,
    found ← path_exists results_dir;
    if found : bool then
      tables ← find_and_process_result_tables results_dir;
      mret (results ++ tables)%list
    else
      raise (AssertionError ("Mock community result directory" ++ newline
               ++ "            does not exist: " ++ path_to_string results_dir))) [].

(** ** Evaluation orchestrator *)

Definition default_param_ids : gmap string (list string) :=
  list_to_map [
    ("rdp", ["confidence"]);
    ("blast", ["e-value"]);
    ("sortmerna", ["min consensus fraction"; "similarity"; "best N alignments";
                   "coverage"; "e value"]);
    ("sortmerna-w16", ["min consensus fraction"; "similarity"; "best N alignments";
                       "coverage"; "e value"]);
    ("uclust", ["min consensus fraction"; "similarity"; "max accepts"]);
    ("vsearch", ["min consensus fraction"; "similarity"; "max accepts"])].

(** [d.update(other)]: the entries of [other] replace those of [d]. *)
Definition dict_update {V} (d other : gmap string V) : gmap string V := other ∪ d.

Definition is_digit (c : ascii) : bool :=
  let n := nat_of_ascii c in (48 <=? n)%nat && (n <=? 57)%nat.

(** The body of [for e in v]: [float(e)] on the one-character string
    [e] succeeds on a decimal digit and raises [ValueError] otherwise. *)
Definition decode_character (e : ascii) : pyval :=
  if is_digit e then PyFloat (Q_of_nat (nat_of_ascii e - 48))
  else PyStr (String e "").

(** The list [v_] built from one token [v]: the loop [for e in v] runs
    over the characters of the token. *)
Definition decode_token (v : string) : list pyval :=
  decode_character <$> list_ascii_of_string v.

(** The dict [param_data[(method_id, params)]] after the loop over
    [zip(param_ids[method_id], params.split(':'))] *)
Definition record_parameter_data (names : list string) (params : string)
    : gmap string (list pyval) :=
  foldl (λ d kv, <[kv.1 := decode_token kv.2]> d) ∅ (zip names (str_split ":" params)).

Definition double_quote : string := String (ascii_of_nat 34) "".

(** [result.merge(param_df.T, left_on=('Method', 'Parameters'),
    right_index=True)]: an inner join on the key (method, parameters).
    Without any parameter data the index of [param_df.T] has one level,
    not two, and the merge is refused. *)
Definition merge_param_data (results : list Row)
    (param_data : gmap (string * string) (gmap string (list pyval)))
    : result (list Row) :=
  if decide (dom param_data = (∅ : gset (string * string))) then
    Raise (ValueError ("len(left_on) must equal the number of levels in the index of "
                         ++ double_quote ++ "right" ++ double_quote))
  else
    Ok (omap (λ r,
          columns ← param_data !! (Method r, Parameters r);
          Some (mkRow (Dataset r) (Level r) (SampleID r) (Reference r) (Method r)
                  (Parameters r) (Precision r) (Recall r) (F_measure r) (Pearson_r r)
                  (Pearson_p r) (Spearman_r r) (Spearman_p r) columns)) results).

(** The body of the loop over the samples of the actual table *)
Definition evaluate_sample (dataset_id reference_id method_id params : string)
    (taxonomy_level : Z) (actual_table expected_table : Table)
    (sample_id : string) (results : list Row) : M (list Row) :=
  '(p, r, f) ← try_except
    (lift (compute_prf actual_table expected_table (Some sample_id) (Some sample_id)))
    (λ e,
      match e with
      | ZeroDivisionError => mret ((-1)%Q, (-1)%Q, (-1)%Q)
      | _ => raise e
      end);
  '(actual_vector, expected_vector) ←
    lift (get_actual_and_expected_vectors actual_table expected_table
            (Some sample_id) (Some sample_id));
  '(pearson_r, pearson_p) ← lift (pearsonr actual_vector expected_vector);
  '(spearman_r, spearman_p) ← lift (spearmanr actual_vector expected_vector);
  mret (results ++ [mkRow dataset_id taxonomy_level sample_id reference_id method_id
                       params (Some p) (Some r) (Some f) pearson_r pearson_p
                       spearman_r spearman_p ∅])%list.

(** The body of the loop over the taxonomy levels *)
Definition evaluate_level (dataset_id reference_id method_id params : string)
    (expected_table_fp actual_table_fp : list string) (min_count : Q)
    (taxa_to_keep : option (list string)) (md_key : string)
    (taxonomy_level : Z) (results : list Row) : M (list Row) :=
  expected_table ← mount_observations expected_table_fp 0 taxonomy_level
                     taxa_to_keep "taxonomy" true true false;
  actual_table ← mount_observations actual_table_fp min_count taxonomy_level
                   taxa_to_keep md_key true true true;
  for_each (sample_ids actual_table)
    (evaluate_sample dataset_id reference_id method_id params taxonomy_level
       actual_table expected_table) results.

(** The body of the loop over the result tables; the loop assigns
    [results] and [param_data]. *)
Definition evaluate_table (expected_table_lookup : gmap string (gmap string (list string)))
    (taxonomy_level_range : list Z) (min_count : Q)
    (taxa_to_keep : option (list string)) (md_key : string)
    (param_ids : gmap string (list string))
    (entry : string * string * string * string * list string)
    (state : list Row * gmap (string * string) (gmap string (list pyval)))
    : M (list Row * gmap (string * string) (gmap string (list pyval))) :=
  let '(results, param_data) := state in
  let '(dataset_id, reference_id, method_id, params, actual_table_fp) := entry in
  expected_table_fp ←
    match expected_table_lookup !! dataset_id ≫= (.!! reference_id) with
    | Some fp => mret fp
    | None =>
        raise (KeyError ("Can't find expected table for                             ("
                           ++ dataset_id ++ ", " ++ reference_id ++ ")."))
    end;
  results ← for_each taxonomy_level_range
               (evaluate_level dataset_id reference_id method_id params
                  expected_table_fp actual_table_fp min_count taxa_to_keep md_key)
               results;
  match param_ids !! method_id with
  | None => raise (KeyError method_id)
  | Some names =>
      mret (results, <[(method_id, params) := record_parameter_data names params]> param_data)
  end.

Definition compute_mock_results
    (result_tables : list (string * string * string * string * list string))
    (expected_table_lookup : gmap string (gmap string (list string)))
    (results_fp : list string) (taxonomy_level_range : list Z) (min_count : Q)
    (taxa_to_keep : option (list string)) (md_key : string)
    (new_param_ids : option (gmap string (list string))) : M (list Row) :=
  let results : list Row := [] in
  let new_param_ids : gmap string (list string) := ∅ in
  let param_data : gmap (string * string) (gmap string (list pyval)) := ∅ in
  let param_ids := dict_update default_param_ids new_param_ids in
  '(results, param_data) ← for_each result_tables
      (evaluate_table expected_table_lookup taxonomy_level_range min_count
         taxa_to_keep md_key param_ids)
      (results, param_data);
  result ← lift (merge_param_data results param_data);
  _ ← to_csv result results_fp;
  mret result.

Definition evaluate_results (results_dirs : list (list string))
    (expected_results_dir results_fp : list string) (taxonomy_level_range : list Z)
    (min_count : Q) (taxa_to_keep : option (list string)) (md_key : string)
    (new_param_ids : option (gmap string (list string)))
    (subsample : bool) (size : Z) (force : bool) : M (list Row) :=
  results ← seek_results results_dirs;
  let results := if subsample then py_slice_to size (shuffle results) else results in
  expected_tables ← get_expected_tables_lookup expected_results_dir 6;
  found ← path_exists results_fp;
  if negb found || force then
    compute_mock_results results expected_tables results_fp taxonomy_level_range
      min_count taxa_to_keep md_key new_param_ids
  else
    _ ← print (path_to_string results_fp ++ " already exists.");
    _ ← print "Reading in pre-computed evaluation results.";
    _ ← print "To overwrite, set force=True";
    from_csv results_fp.

End Pipeline.

(** ** Aggregation and ranking *)

(** [a >= b] on cells: a comparison with NaN is false. *)
Definition number_ge (a b : number) : bool :=
  match a, b with
  | Some x, Some y => Qle_bool y x
  | _, _ => false
  end.

Definition number_sub (a b : number) : number :=
  match a, b with
  | Some x, Some y => Some (x - y)%Q
  | _, _ => None
  end.

(** [series.dropna()] *)
Definition dropna (values : list number) : list Q := omap id values.

Definition Qmax (x y : Q) : Q := if Qle_bool x y then y else x.

Definition Qmean (xs : list Q) : Q := (Qsum xs / Q_of_nat (length xs))%Q.

(** [series.max()]: the greatest value that is not NaN; NaN when there is
    none. *)
Definition series_max (values : list number) : number :=
  match dropna values with
  | [] => None
  | x :: xs => Some (foldl Qmax x xs)
  end.

(** [series.mad()]: the mean absolute deviation from the mean of the
    values that are not NaN; NaN when there is none. *)
Definition series_mad (values : list number) : number :=
  match dropna values with
  | [] => None
  | xs => Some (Qmean ((λ x, Qabs (x - Qmean xs)) <$> xs))
  end.

(** The numeric columns of a results table, by header *)
Definition column (metric : string) : result (Row → number) :=
  if String.eqb metric "Precision" then Ok Precision
  else if String.eqb metric "Recall" then Ok Recall
  else if String.eqb metric "F-measure" then Ok F_measure
  else if String.eqb metric "Pearson r" then Ok Pearson_r
  else if String.eqb metric "Pearson p" then Ok Pearson_p
  else if String.eqb metric "Spearman r" then Ok Spearman_r
  else if String.eqb metric "Spearman p" then Ok Spearman_p
  else if String.eqb metric "Level" then Ok (λ r, Some (inject_Z (Level r)))
  else Raise (KeyError metric).

(** [df.sort_values(by=metric, ascending=False)]: descending, NaN last;
    rows with equal values keep their order. *)
Definition sorts_before (a b : number) : bool :=
  match a, b with
  | _, None => true
  | None, Some _ => false
  | Some x, Some y => Qle_bool y x
  end.

Fixpoint insert_sorted (key : Row → number) (r : Row) (sorted : list Row) : list Row :=
  match sorted with
  | [] => [r]
  | r' :: rest =>
      if sorts_before (key r) (key r') then r :: sorted
      else r' :: insert_sorted key r rest
  end.

Definition sort_values (key : Row → number) (df : list Row) : list Row :=
  foldr (insert_sorted key) [] df.

(** [series.unique()]: the distinct values in order of first appearance *)
Fixpoint unique (values : list string) : list string :=
  match values with
  | [] => []
  | x :: rest => x :: filter (λ y, y ≠ x) (unique rest)
  end.

(** The body of the loop over the methods: the parameters of the rows of
    [method] whose metric is within one MAD of the maximum. *)
Definition top_params (key : Row → number) (dataset_sid_results : list Row)
    (method : string) : list string :=
  let method_results := filter (λ r, Method r = method) dataset_sid_results in
  let max_metric_value := series_max (key <$> method_results) in
  let mad_metric_value := series_mad (key <$> method_results) in
  let tp := filter (λ r, number_ge (key r)
                           (number_sub max_metric_value mad_metric_value) = true)
              method_results in
  Parameters <$> tp.

Definition get_sample_to_top_params (df : list Row) (metric : string)
    : result (gmap (string * string) (gmap string (list string))) :=
  key ← column metric;
  let sorted_df := sort_values key df in
  Ok (foldl (λ result dataset,
        let dataset_df := filter (λ r, Dataset r = dataset) sorted_df in
        foldl (λ result sid,
          let dataset_sid_results := filter (λ r, SampleID r = sid) dataset_df in
          let current_results :=
            foldl (λ current_results method,
                     <[method := top_params key dataset_sid_results method]> current_results)
                  ∅ (unique (Method <$> sorted_df)) in
          <[(dataset, sid) := current_results]> result)
          result (unique (SampleID <$> dataset_df)))
        ∅ (unique (Dataset <$> sorted_df))).

(** ** An instance of the collaborators, to run the pipeline on examples

    Collapsing does what [table.collapse(f, axis='observation',
    min_group_size=1)] does with its default [norm=True]: the
    observations that share a group key become one observation, the
    groups in order of first appearance, and the counts of a group are
    summed and divided by the number of its members.  Normalising divides
    every sample column by its sum and leaves a zero column as it is.
    The correlations are not computed: their values are NaN, and
    [pearsonr] refuses vectors of fewer than two entries as scipy does.
    Shuffling leaves the list as it is. *)

Fixpoint add_to_group (key : string) (data : list Q)
    (groups : list (string * list Q * nat)) : list (string * list Q * nat) :=
  match groups with
  | [] => [(key, data, 1%nat)]
  | (key', sums, members) :: rest =>
      if String.eqb key' key then
        (key, zip_with Qplus sums data, S members) :: rest
      else (key', sums, members) :: add_to_group key data rest
  end.

Fixpoint collapse_observations
    (f : string → option (gmap string md_value) → result string)
    (table : Table) (obs : list Observation) (groups : list (string * list Q * nat))
    : result (list (string * list Q * nat)) :=
  match obs with
  | [] => Ok groups
  | o :: rest =>
      key ← f (obs_id o) (handed_metadata table o);
      collapse_observations f table rest (add_to_group key (obs_data o) groups)
  end.

Definition collapse_by_mean (f : string → option (gmap string md_value) → result string)
    (table : Table) : result Table :=
  groups ← collapse_observations f table (observations table) [];
  Ok (mkTable
        ((λ '(key, sums, members),
            mkObservation key None ((λ x, x / Q_of_nat members)%Q <$> sums)) <$> groups)
        (sample_ids table)).

Definition column_sum (table : Table) (j : nat) : Q :=
  Qsum ((λ o, default 0%Q (obs_data o !! j)) <$> observations table).

Definition norm_by_sample (table : Table) : Table :=
  mkTable
    ((λ o, mkObservation (obs_id o) (obs_metadata o)
             (imap (λ j x, if Qeq_bool (column_sum table j) 0 then x
                           else (x / column_sum table j)%Q) (obs_data o)))
       <$> observations table)
    (sample_ids table).

Definition example_collaborators : Collaborators := {|
  table_collapse := collapse_by_mean;
  table_norm := norm_by_sample;
  pearsonr := λ x _,
    if (length x <? 2)%nat
    then Raise (ValueError "x and y must have length at least 2.")
    else Ok (None, None);
  spearmanr := λ _ _, Ok (None, None);
  shuffle := λ results, results
|}.

(** ** Helpers and example data of the properties *)

(** [compute_prf] as a function of the two observed sets *)
Definition prf_of_sets (A E : gset string) : result (Q * Q * Q) :=
  let tp := size (A ∩ E) in
  let fp := size (A ∖ E) in
  let fn := size (E ∖ A) in
  if (0 <? tp)%nat then
    Ok ((Q_of_nat tp / Q_of_nat (tp + fp))%Q,
        (Q_of_nat tp / Q_of_nat (tp + fn))%Q,
        (2 * (Q_of_nat tp / Q_of_nat (tp + fp)) * (Q_of_nat tp / Q_of_nat (tp + fn))
           / (Q_of_nat tp / Q_of_nat (tp + fp) + Q_of_nat tp / Q_of_nat (tp + fn)))%Q)
  else Ok (0%Q, 0%Q, 0%Q).

(** Two tables that share one observed id, up to whitespace *)
Definition prf_actual_table : Table :=
  mkTable [mkObservation "k__A; p__B" None [4%Q];
           mkObservation "k__A; p__C" None [1%Q];
           mkObservation "k__A; p__D" None [0%Q]] ["S1"].

Definition prf_expected_table : Table :=
  mkTable [mkObservation "k__A;p__B" None [2%Q];
           mkObservation "k__A;p__E" None [2%Q];
           mkObservation "k__A;p__F" None [6%Q]] ["S1"].

(** The string under which an observation id enters the observed set *)
Definition observed_name (ws_strip : bool) (observation_id : string) : string :=
  if ws_strip then remove_whitespace observation_id else observation_id.

(** A table with two ids that differ in inner whitespace only *)
Definition whitespace_table : Table :=
  mkTable [mkObservation "k  __1" None [3%Q; 0%Q];
           mkObservation "k__1" None [2%Q; 1%Q];
           mkObservation "p__2" None [0%Q; 5%Q]] ["S1"; "S2"].


(** What the entry [a] of a vector says about [id] in one table: 0.0 for
    an id the table does not know, the count of the sample otherwise, and
    nothing positive for an id outside the observed set of the sample. *)
Definition cell_of (table : Table) (sid : string) (observed : gset string)
    (id : string) (a : Q) : Prop :=
  (id ∉ observation_ids table → a = 0%Q) ∧
  (∀ v, get_value_by_ids table id sid = Ok v → a = v) ∧
  (id ∉ observed → (a <= 0)%Q).

(** Two tables with one id each of their own and one in common *)
Definition vectors_actual_table : Table :=
  mkTable [mkObservation "A;B" None [3%Q; 1%Q];
           mkObservation "A;C" None [1%Q; 0%Q];
           mkObservation "A;D" None [0%Q; 2%Q]] ["S1"; "S2"].

Definition vectors_expected_table : Table :=
  mkTable [mkObservation "A;B" None [5%Q];
           mkObservation "A;E" None [5%Q]] ["S1"].

(** What splitting and stripping mean, in words: [fields] are the
    fields of [s] between the separators [sep], and [stripped] is [s]
    without the whitespace at its two ends. *)
Definition is_split_of (sep : ascii) (s : string) (fields : list string) : Prop :=
  fields ≠ [] ∧
  str_join (String sep "") fields = s ∧
  Forall (λ field, str_forall (λ c, negb (Ascii.eqb c sep)) field = true) fields.

Definition is_strip_of (s stripped : string) : Prop :=
  (∃ l r, s = l ++ stripped ++ r ∧
          str_forall is_space l = true ∧ str_forall is_space r = true) ∧
  (∀ c rest, stripped = String c rest → is_space c = false) ∧
  (∀ init c, stripped = init ++ String c "" → is_space c = false).

(** Metadata of an observation with a delimited taxonomy string *)
Definition delimited_metadata : gmap string md_value :=
  {["taxonomy" := MdStr "k__Bacteria; p__Firmicutes ;c__Bacilli"]}.

(** A table with one observation of taxonomy [A;C] and count 5 *)
Definition allowlist_table : Table :=
  mkTable [mkObservation "otu1" (Some {["taxonomy" := MdList ["A"; "C"]]}) [5%Q]] ["S1"].

(** A world with one observed table (dataset [mock-1], reference [gg],
    method [uclust], parameters [0.8:0.97:3]), one observed table of a
    method without a built-in schema, the expected table of the dataset,
    and the directory [out] for the results file. *)
Definition mock_observed_table : Table :=
  mkTable [mkObservation "otu1" (Some {["taxonomy" := MdList ["A"; "B"]]}) [3%Q];
           mkObservation "otu2" (Some {["taxonomy" := MdList ["A"; "C"]]}) [1%Q]] ["S1"].

Definition mock_expected_table : Table :=
  mkTable [mkObservation "A;B" (Some {["taxonomy" := MdList ["A"; "B"]]}) [1%Q]] ["S1"].

Definition mock_uclust_fp : list string :=
  ["results"; "mock-1"; "gg"; "uclust"; "0.8:0.97:3"; "table.biom"].

Definition mock_nb_fp : list string :=
  ["results"; "mock-1"; "gg"; "naive-bayes"; "0.7"; "table.biom"].

Definition mock_expected_fp : list string :=
  ["expected"; "mock-1"; "gg"; "expected"; "table.L6-taxa.biom"].

Definition mock_world : World :=
  mkWorld (list_to_map [(mock_uclust_fp, BiomFile mock_observed_table);
                        (mock_nb_fp, BiomFile mock_observed_table);
                        (mock_expected_fp, BiomFile mock_expected_table);
                        (["out"], Directory)]) [].

Definition uclust_world : World :=
  mkWorld (list_to_map [(mock_uclust_fp, BiomFile mock_observed_table);
                        (mock_expected_fp, BiomFile mock_expected_table);
                        (["out"], Directory)]) [].

Definition mock_lookup : gmap string (gmap string (list string)) :=
  {["mock-1" := {["gg" := mock_expected_fp]}]}.

(** The outcome of a run, and the cell of a parameter column in the first
    row of the table a run returns *)
Definition outcome {A} (run : result A * World) : result A := run.1.

Definition parameter_column (run : result (list Row) * World) (name : string)
    : option (list pyval) :=
  match run.1 with
  | Ok (row :: _) => param_columns row !! name
  | _ => None
  end.

Definition row_count (run : result (list Row) * World) : option nat :=
  match run.1 with
  | Ok rows => Some (length rows)
  | Raise _ => None
  end.

(** A world with two observed tables: the counts of the one of [uclust]
    are below a minimum count of 10, those of the one of [rdp] are not.
    The two counts of the latter are equal, so that its vector is
    constant and its correlations are NaN. *)
Definition abundant_table : Table :=
  mkTable [mkObservation "otu1" (Some {["taxonomy" := MdList ["A"; "B"]]}) [30%Q];
           mkObservation "otu2" (Some {["taxonomy" := MdList ["A"; "C"]]}) [30%Q]] ["S1"].

Definition mock_rdp_fp : list string :=
  ["results"; "mock-1"; "gg"; "rdp"; "0.5"; "table.biom"].

(** The row and the parameter data that the table of [rdp] gives at
    level 1, and the expected table mounted at level 1 *)
Definition abundant_row : Row :=
  mkRow "mock-1" 1 "S1" "gg" "rdp" "0.5" (Some (1 # 2)%Q) (Some 1%Q) (Some (4 # 6)%Q)
    None None None None ∅.

Definition abundant_state : list Row * gmap (string * string) (gmap string (list pyval)) :=
  ([abundant_row], {[("rdp", "0.5") := record_parameter_data ["confidence"] "0.5"]}).

Definition mounted_expected_table : Table :=
  mkTable [mkObservation "A;B" None [1%Q]] ["S1"].

Definition scarce_world : World :=
  mkWorld (list_to_map [(mock_uclust_fp, BiomFile mock_observed_table);
                        (mock_rdp_fp, BiomFile abundant_table);
                        (mock_expected_fp, BiomFile mock_expected_table);
                        (["out"], Directory)]) [].

(** The three lines that [evaluate_results] prints when it reuses a
    results file *)
Definition reuse_notice (results_fp : list string) : list string :=
  [path_to_string results_fp ++ " already exists.";
   "Reading in pre-computed evaluation results.";
   "To overwrite, set force=True"].

(** A world in which a results table has been written before *)
Definition persisted_row : Row :=
  mkRow "mock-1" 1 "S1" "gg" "uclust" "0.8:0.97:3" (Some (1 # 2)%Q) (Some 1%Q)
    (Some (2 # 3)%Q) None None None None ∅.

Definition persisted_world : World :=
  mkWorld (<[ ["out"; "results.tsv"] := TsvFile [persisted_row] ]> (fs uclust_world)) [].


(** The rows of a method for one dataset and sample *)
Definition method_rows (df : list Row) (dataset sid method : string) : list Row :=
  filter (λ r, Method r = method)
    (filter (λ r, SampleID r = sid) (filter (λ r, Dataset r = dataset) df)).

(** Three parameter sets [a], [b], [c] of one method, scoring 0.85, 0.5
    and 0.9 *)
Definition scored_row (params : string) (score : Q) : Row :=
  mkRow "mock-1" 6 "S1" "gg" "rdp" params (Some score) (Some score) (Some score)
    None None None None ∅.

Definition scores_df : list Row :=
  [scored_row "a" (85 # 100)%Q; scored_row "b" (5 # 10)%Q; scored_row "c" (9 # 10)%Q].

(** The cell of the table of top parameters for a dataset, sample and
    method *)
Definition top_parameters (table : result (gmap (string * string) (gmap string (list string))))
    (dataset sid method : string) : option (list string) :=
  match table with
  | Ok result => result !! (dataset, sid) ≫= (.!! method)
  | Raise _ => None
  end.

(** A table without samples, and a table without observations *)
Definition no_samples_table : Table :=
  mkTable [mkObservation "otu1" None []] [].

Definition no_observations_table : Table := mkTable [] ["S1"].

(** A table in which one observation has no metadata *)
Definition missing_metadata_table : Table :=
  mkTable [mkObservation "otu1" (Some {["taxonomy" := MdList ["A"; "B"]]}) [30%Q];
           mkObservation "otu2" None [20%Q]] ["S1"].

(** A computation that leaves every file as it is *)
Definition reads_only {A} (m : M A) : Prop := ∀ w, fs (m w).2 = fs w.


(** A table in which method [rdp] has rows for sample [S1] only, and
    method [blast] for sample [S2] only *)
Definition two_sample_df : list Row :=
  [mkRow "mock-1" 6 "S1" "gg" "rdp" "0.5" (Some 1%Q) (Some 1%Q) (Some 1%Q)
     None None None None ∅;
   mkRow "mock-1" 6 "S2" "gg" "blast" "0.001" (Some (1 # 2)%Q) (Some (1 # 2)%Q)
     (Some (1 # 2)%Q) None None None None ∅].

(** ** The best parameter set of every method

    The column headers that [method_by_dataset] takes ([sort_field],
    [display_fields], [group_by], [test_field]) are given as the accessors
    of the columns they name. *)

(** The loop of [_is_first]: for every value, whether it has not been
    observed before. *)
Fixpoint is_first_loop (observed : gset string) (values : list string) : list bool :=
  match values with
  | [] => []
  | e :: rest => bool_decide (e ∉ observed) :: is_first_loop ({[e]} ∪ observed) rest
  end.

Definition _is_first (df : list Row) (test_field : Row → string) : list bool :=
  is_first_loop ∅ (test_field <$> df).

(** [df[mask]] for a list of booleans: the rows whose flag is set; a list
    of another length than the frame is refused. *)
Fixpoint select_rows (df : list Row) (mask : list bool) : list Row :=
  match df, mask with
  | r :: df, b :: mask => if b then r :: select_rows df mask else select_rows df mask
  | _, _ => []
  end.

Definition boolean_index (df : list Row) (mask : list bool) : result (list Row) :=
  if decide (length mask = length df) then Ok (select_rows df mask)
  else Raise (ValueError "Item wrong length").

Definition method_by_dataset {A} (df : list Row) (dataset : string)
    (sort_field : Row → number) (display_fields : Row → A)
    (group_by test_field : Row → string) : result (list A) :=
  let dataset_df := filter (λ r, group_by r = dataset) df in
  let sorted_dataset_df := sort_values sort_field dataset_df in
  filtered_dataset_df ←
    boolean_index sorted_dataset_df (_is_first sorted_dataset_df test_field);
  Ok (display_fields <$> (filtered_dataset_df : list Row)).

(** [method_by_dataset_a1] and [method_by_dataset_a2] *)
Definition method_by_dataset_a1 (df : list Row) (dataset : string) :=
  method_by_dataset df dataset F_measure
    (λ r, (Method r, Precision r, Recall r, F_measure r)) Dataset Method.

Definition method_by_dataset_a2 (df : list Row) (dataset : string) :=
  method_by_dataset df dataset Pearson_r
    (λ r, (Method r, Pearson_r r, Spearman_r r)) Dataset Method.

(** ** Distances between the samples of a table *)

(** [table.data(id)] for a sample: its counts, one per observation *)
Definition table_data (table : Table) (id : string) : result (list Q) :=
  j ← index_sample table id;
  Ok ((λ o, default 0%Q (obs_data o !! j)) <$> observations table).

(** [enumerate] *)
Definition enumerate {A} (l : list A) : list (nat * A) :=
  zip (seq 0 (length l)) l.

(** A matrix is the list of its rows; [dm[i, j] = v] and [dm[i, j]]. *)
Definition matrix_set {D} (dm : list (list D)) (i j : nat) (v : D) : list (list D) :=
  alter (<[j := v]>) i dm.

Definition matrix_get {D} (dm : list (list D)) (i j : nat) : option D :=
  dm !! i ≫= (.!! j).

Section Distances.
(** The distances are the numbers of numpy; [pdist v1 v2 metric] is
    scipy's [pdist([v1, v2], metric)], which fails on a metric it does
    not know. *)
Context {D : Type} (zero : D).
Context (pdist : list Q → list Q → string → result D).

Definition zeros (rows columns : nat) : list (list D) :=
  replicate rows (replicate columns zero).

(** The inner loop, over the samples before sample [i] *)
Fixpoint distance_row (table : Table) (metric : string) (i : nat) (v1 : list Q)
    (earlier : list (nat * string)) (dm : list (list D)) : result (list (list D)) :=
  match earlier with
  | [] => Ok dm
  | (j, sid2) :: rest =>
      v2 ← table_data table sid2;
      d ← pdist v1 v2 metric;
      distance_row table metric i v1 rest (matrix_set (matrix_set dm i j d) j i d)
  end.

(** The outer loop, over the samples still to visit *)
Fixpoint distance_rows (table : Table) (metric : string) (ids : list string)
    (todo : list (nat * string)) (dm : list (list D)) : result (list (list D)) :=
  match todo with
  | [] => Ok dm
  | (i, sid1) :: rest =>
      v1 ← table_data table sid1;
      dm ← distance_row table metric i v1 (enumerate (take i ids)) dm;
      distance_rows table metric ids rest dm
  end.

(** The result is the pair that is given to [DistanceMatrix]; the checks
    of that constructor are not part of the embedding. *)
Definition distance_matrix_from_table (table : Table) (metric : string)
    : result (list (list D) * list string) :=
  let ids := sample_ids table in
  let num_samples := length ids in
  let dm := zeros num_samples num_samples in
  dm ← distance_rows table metric ids (enumerate ids) dm;
  Ok (dm, ids).

(** The state of the matrix while the loops run: [distances_done i k]
    holds when the rows before row [i] and the first [k] cells of row
    [i] are computed. *)
Definition matrix_wf (n : nat) (dm : list (list D)) : Prop :=
  length dm = n ∧ Forall (λ row, length row = n) dm.

Definition distance_of (table : Table) (metric : string) (a b : nat) (d : D) : Prop :=
  ∃ sid1 sid2 v1 v2,
    sample_ids table !! a = Some sid1 ∧ sample_ids table !! b = Some sid2 ∧
    table_data table sid1 = Ok v1 ∧ table_data table sid2 = Ok v2 ∧
    pdist v1 v2 metric = Ok d.

Definition distances_done (table : Table) (metric : string) (i k : nat)
    (dm : list (list D)) : Prop :=
  matrix_wf (length (sample_ids table)) dm ∧
  (∀ a, (a < length (sample_ids table))%nat → matrix_get dm a a = Some zero) ∧
  (∀ a b, matrix_get dm a b = matrix_get dm b a) ∧
  (∀ a b, (b < a)%nat → (a < i)%nat ∨ (a = i ∧ (b < k)%nat) →
     ∃ d, distance_of table metric a b d ∧ matrix_get dm a b = Some d).
End Distances.

(** A metric for examples: the city-block distance *)
Definition cityblock (v1 v2 : list Q) (metric : string) : result Q :=
  if String.eqb metric "cityblock"
  then Ok (Qsum (zip_with (λ x y, Qabs (x - y)) v1 v2))
  else Raise (ValueError "Unknown Distance Metric").

Definition three_sample_table : Table :=
  mkTable [mkObservation "o1" None [1%Q; 3%Q; 0%Q];
           mkObservation "o2" None [2%Q; 0%Q; 5%Q]]
          ["S1"; "S2"; "S3"].

Definition three_sample_distances : list (list Q) :=
  [[0%Q; 4%Q; 4%Q]; [4%Q; 0%Q; 8%Q]; [4%Q; 8%Q; 0%Q]].

(** ** The scores of chosen parameter sets *)

(** [d[k]] on a dict *)
Definition dict_getitem {V} (d : gmap string V) (k : string) : result V :=
  match d !! k with
  | Some v => Ok v
  | None => Raise (KeyError k)
  end.

(** A dict whose order of insertion matters is the list of its items:
    [d[k] = v] replaces the value of a key that is present and appends a
    new key. *)
Fixpoint dict_setitem {V} (d : list (string * V)) (k : string) (v : V)
    : list (string * V) :=
  match d with
  | [] => [(k, v)]
  | (k', v') :: rest =>
      if decide (k' = k) then (k, v) :: rest else (k', v') :: dict_setitem rest k v
  end.

Fixpoint dict_get {V} (d : list (string * V)) (k : string) : option V :=
  match d with
  | [] => None
  | (k', v') :: rest => if decide (k' = k) then Some v' else dict_get rest k
  end.

Definition dict_values {V} (d : list (string * V)) : list V := d.*2.

(** [a > b] on cells: a comparison with NaN is false. *)
Definition number_gt (a b : number) : bool :=
  match a, b with
  | Some x, Some y => Qlt_bool y x
  | _, _ => false
  end.

(** Python's [max] of a sequence: the first item, replaced by every later
    item that is greater than the one held. *)
Definition py_max (values : list number) : result number :=
  match values with
  | [] => Raise (ValueError "max() arg is an empty sequence")
  | v :: rest => Ok (foldl (λ maxitem item, if number_gt item maxitem then item else maxitem)
                       v rest)
  end.

(** A loop whose body may raise *)
Fixpoint fold_result {S A} (body : S → A → result S) (l : list A) (s : S) : result S :=
  match l with
  | [] => Ok s
  | x :: rest => s ← body s x; fold_result body rest s
  end.

(** The score of the chosen parameters of a method among the rows of one
    dataset and sample *)
Definition method_score (key : Row → number) (dataset_sid_results : list Row)
    (method parameters : string) : number :=
  let method_results := filter (λ r, Method r = method) dataset_sid_results in
  let mp_results := filter (λ r, Parameters r = parameters) method_results in
  series_max (key <$> mp_results).

(** The body of the loop over the samples of a dataset *)
Definition sample_scores (key : Row → number) (dataset_sid_results : list Row)
    (method_param : gmap string string) (methods : list string)
    : result (list (string * number)) :=
  current_results ←
    fold_result (λ current_results method,
        parameters ← dict_getitem method_param method;
        Ok (dict_setitem current_results method
              (method_score key dataset_sid_results method parameters)))
      methods [];
  top_score ← py_max (dict_values current_results);
  Ok (dict_setitem current_results "Top score" top_score).

Definition get_sample_to_top_scores (df : list Row) (metric : string)
    (method_param : gmap string string)
    : result (gmap (string * string) (list (string * number))) :=
  key ← column metric;
  let sorted_df := sort_values key df in
  fold_result (λ results dataset,
      let dataset_df := filter (λ r, Dataset r = dataset) sorted_df in
      fold_result (λ results sid,
          let dataset_sid_results := filter (λ r, SampleID r = sid) dataset_df in
          current_results ←
            sample_scores key dataset_sid_results method_param
              (unique (Method <$> sorted_df));
          Ok (<[(dataset, sid) := current_results]> results))
        (unique (SampleID <$> dataset_df)) results)
    (unique (Dataset <$> sorted_df)) ∅.

(** The chosen parameters of the example table *)
Definition chosen_parameters : gmap string string := {["rdp" := "c"]}.



(** * Properties *)

(** ** Strings *)

Lemma append_cons (c : ascii) (s t : string) : String c s ++ t = String c (s ++ t).
Proof. reflexivity. Qed.

Lemma append_empty_l (s : string) : "" ++ s = s.
Proof. reflexivity. Qed.

Lemma append_empty_r (s : string) : s ++ "" = s.
Proof. induction s as [|c s IH]; [done | by rewrite append_cons, IH]. Qed.

Lemma append_assoc (s1 s2 s3 : string) : (s1 ++ s2) ++ s3 = s1 ++ (s2 ++ s3).
Proof. induction s1 as [|c s1 IH]; [done | by rewrite !append_cons, IH]. Qed.

Lemma is_empty_string_true (s : string) : is_empty_string s = true → s = "".
Proof. by destruct s. Qed.

Lemma str_join_empty_cons (w : string) (parts : list string) :
  str_join "" (w :: parts) = w ++ str_join "" parts.
Proof. destruct parts; simpl; [by rewrite append_empty_r | done]. Qed.

Lemma str_split_whitespace_from_join (s word : string) :
  str_join "" (str_split_whitespace_from word s)
  = word ++ str_filter (λ c, negb (is_space c)) s.
Proof.
  revert word. induction s as [|c s IH]; intros word; simpl.
  - destruct (is_empty_string word) eqn:E.
    + by rewrite (is_empty_string_true _ E).
    + simpl. by rewrite append_empty_r.
  - destruct (is_space c) eqn:Hc; simpl.
    + destruct (is_empty_string word) eqn:E.
      * rewrite (is_empty_string_true _ E). apply IH.
      * rewrite str_join_empty_cons, IH. done.
    + rewrite IH, append_assoc. done.
Qed.

(** ["".join(s.split())] deletes exactly the whitespace characters. *)
Lemma remove_whitespace_filter (s : string) :
  remove_whitespace s = str_filter (λ c, negb (is_space c)) s.
Proof. apply (str_split_whitespace_from_join s ""). Qed.

Lemma str_filter_forall (P : ascii → bool) (s : string) :
  str_forall P (str_filter P s) = true.
Proof.
  induction s as [|c s IH]; simpl; [done|].
  destruct (P c) eqn:E; simpl; [by rewrite E | done].
Qed.

Lemma remove_whitespace_no_space (s : string) :
  str_forall (λ c, negb (is_space c)) (remove_whitespace s) = true.
Proof. rewrite remove_whitespace_filter. apply str_filter_forall. Qed.

(** ** Tables *)

Lemma Qlt_bool_iff (x y : Q) : Qlt_bool x y = true ↔ (x < y)%Q.
Proof.
  unfold Qlt_bool. rewrite negb_true_iff, <- not_true_iff_false, Qle_bool_iff.
  split; [apply Qnot_le_lt | apply Qlt_not_le].
Qed.

Lemma index_of_Some (id : string) (ids : list string) :
  id ∈ ids → ∃ i, index_of id ids = Some i ∧ ids !! i = Some id.
Proof.
  induction ids as [|x ids IH]; intros Hin; [by apply elem_of_nil in Hin|].
  simpl. destruct (String.eqb_spec x id) as [->|Hne].
  - by exists 0%nat.
  - apply elem_of_cons in Hin as [->|Hin]; [done|].
    destruct (IH Hin) as (i & -> & Hi). by exists (S i).
Qed.

Lemma index_of_None (id : string) (ids : list string) :
  id ∉ ids → index_of id ids = None.
Proof.
  induction ids as [|x ids IH]; intros Hin; [done|].
  simpl. destruct (String.eqb_spec x id) as [->|Hne].
  - exfalso. apply Hin. by left.
  - rewrite IH; [done|]. intros ?. apply Hin. by right.
Qed.

Lemma get_value_by_ids_Ok (table : Table) (observation_id sample_id : string) :
  observation_id ∈ observation_ids table → sample_id ∈ sample_ids table →
  ∃ v, get_value_by_ids table observation_id sample_id = Ok v.
Proof.
  intros Ho Hs. unfold get_value_by_ids, index_observation, index_sample.
  destruct (index_of_Some _ _ Ho) as (i & -> & _).
  destruct (index_of_Some _ _ Hs) as (j & -> & _).
  by eexists.
Qed.

(** ** Observed ids *)

Lemma observed_loop_spec (table : Table) (sample_id : string) (ws_strip : bool)
    (ids acc : list string) :
  sample_id ∈ sample_ids table →
  (∀ id, id ∈ ids → id ∈ observation_ids table) →
  ∃ acc', observed_loop table sample_id ws_strip ids acc = Ok acc' ∧
    ∀ x, x ∈ acc' ↔
      x ∈ acc ∨ ∃ observation_id v,
        observation_id ∈ ids ∧
        get_value_by_ids table observation_id sample_id = Ok v ∧
        (0 < v)%Q ∧ x = observed_name ws_strip observation_id.
Proof.
  intros Hs. revert acc. induction ids as [|id ids IH]; intros acc Hids; simpl.
  - exists acc. split; [done|]. intros x. split; [by left|].
    intros [?|(o & v & Ho & _)]; [done | by apply elem_of_nil in Ho].
  - destruct (get_value_by_ids_Ok table id sample_id) as [v Hv];
      [apply Hids; by left | done |].
    rewrite Hv. simpl.
    assert (Hids' : ∀ id', id' ∈ ids → id' ∈ observation_ids table)
      by (intros ??; apply Hids; by right).
    destruct (Qlt_bool 0 v) eqn:Hpos.
    + destruct (IH (acc ++ [observed_name ws_strip id])%list Hids') as (acc' & Hloop & Hacc).
      exists acc'. split; [exact Hloop|]. intros x. rewrite Hacc.
      rewrite elem_of_app, list_elem_of_singleton. split.
      * intros [[?| ->]|(o & v' & Ho & ?)]; [by left | right | right].
        -- exists id, v. split; [by left|]. by rewrite <- Qlt_bool_iff.
        -- exists o, v'. split; [by right | done].
      * intros [?|(o & v' & Ho & Hv' & Hlt & ->)]; [by left; left|].
        apply elem_of_cons in Ho as [->|Ho]; [left; by right|].
        right. by exists o, v'.
    + destruct (IH acc Hids') as (acc' & Hloop & Hacc).
      exists acc'. split; [exact Hloop|]. intros x. rewrite Hacc. split.
      * intros [?|(o & v' & Ho & ?)]; [by left | right].
        exists o, v'. split; [by right | done].
      * intros [?|(o & v' & Ho & Hv' & Hlt & ->)]; [by left|].
        apply elem_of_cons in Ho as [->|Ho].
        -- rewrite Hv in Hv'. injection Hv' as <-.
           apply Qlt_bool_iff in Hlt. congruence.
        -- right. by exists o, v'.
Qed.

Lemma default_sample_id_elem (table : Table) (sample_id : option string) (sid : string) :
  default_sample_id table sample_id = Ok sid →
  sample_id = None → head (sample_ids table) = Some sid.
Proof.
  intros Hd ->. simpl in Hd. destruct (sample_ids table); [done|].
  by injection Hd as ->.
Qed.

Lemma get_observed_observation_ids_elem (table : Table) (sample_id : option string)
    (ws_strip : bool) (sid : string) :
  default_sample_id table sample_id = Ok sid →
  sid ∈ sample_ids table →
  ∃ ids : gset string,
    get_observed_observation_ids table sample_id ws_strip = Ok ids ∧
    ∀ x, x ∈ ids ↔ ∃ observation_id v,
      observation_id ∈ observation_ids table ∧
      get_value_by_ids table observation_id sid = Ok v ∧
      (0 < v)%Q ∧ x = observed_name ws_strip observation_id.
Proof.
  intros Hd Hs. unfold get_observed_observation_ids. rewrite Hd. simpl.
  destruct (observed_loop_spec table sid ws_strip (observation_ids table) [] Hs)
    as (acc & -> & Hacc); [done|].
  simpl. eexists. split; [done|]. intros x.
  rewrite elem_of_list_to_set, Hacc. split.
  - intros [Hnil|?]; [by apply elem_of_nil in Hnil | done].
  - intros ?. by right.
Qed.

(** C7. [get_observed_observation_ids] returns the set of the observation
    ids whose count in the sample is strictly positive, the sample being
    the first one of the table when none is given; with [ws_strip] every
    whitespace character of an id is deleted before it enters the set, so
    ["k  __1"] and ["k__1"] give the same element. *)
Theorem get_observed_observation_ids_spec (table : Table) (sample_id : option string)
    (ws_strip : bool) (sid : string) :
  default_sample_id table sample_id = Ok sid →
  sid ∈ sample_ids table →
  ∃ ids : gset string,
    get_observed_observation_ids table sample_id ws_strip = Ok ids ∧
    (sample_id = None → head (sample_ids table) = Some sid) ∧
    (∀ x, x ∈ ids ↔ ∃ observation_id v,
      observation_id ∈ observation_ids table ∧
      get_value_by_ids table observation_id sid = Ok v ∧
      (0 < v)%Q ∧
      x = if ws_strip then remove_whitespace observation_id else observation_id) ∧
    (∀ s, remove_whitespace s = str_filter (λ c, negb (is_space c)) s) ∧
    (∀ a b, ws_strip = true → remove_whitespace a = remove_whitespace b →
      (∃ v, get_value_by_ids table a sid = Ok v ∧ (0 < v)%Q) →
      a ∈ observation_ids table → remove_whitespace b ∈ ids) ∧
    remove_whitespace "k  __1" = remove_whitespace "k__1".
Proof.
  intros Hd Hs.
  destruct (get_observed_observation_ids_elem table sample_id ws_strip sid Hd Hs)
    as (ids & Hget & Hids).
  exists ids. split; [done|]. split; [by apply default_sample_id_elem|].
  split; [exact Hids|]. split; [apply remove_whitespace_filter|].
  split; [|reflexivity].
  intros a b -> Hab (v & Hv & Hlt) Ha. apply Hids. exists a, v. unfold observed_name. by rewrite Hab.
Qed.

Lemma get_observed_observation_ids_spec_witness :
  default_sample_id whitespace_table None = Ok "S1" ∧
  "S1" ∈ sample_ids whitespace_table ∧
  ∃ ids : gset string,
    get_observed_observation_ids whitespace_table None true = Ok ids ∧
    (∀ x, x ∈ ids ↔ ∃ observation_id v,
      observation_id ∈ observation_ids whitespace_table ∧
      get_value_by_ids whitespace_table observation_id "S1" = Ok v ∧
      (0 < v)%Q ∧ x = remove_whitespace observation_id).
Proof.
  split; [reflexivity|]. split; [repeat constructor|].
  destruct (get_observed_observation_ids_spec whitespace_table None true "S1")
    as (ids & Hget & _ & Hids & _); [reflexivity | repeat constructor |].
  exists ids. split; [exact Hget | exact Hids].
Defined.

(** ** Precision, recall and F-measure *)

Lemma Q_of_nat_pos (n : nat) : (0 < n)%nat → (0 < Q_of_nat n)%Q.
Proof. intros Hn. unfold Q_of_nat, Qlt. simpl. lia. Qed.

Lemma py_div_Ok (x y : Q) : (0 < y)%Q → py_div x y = Ok (x / y)%Q.
Proof.
  intros Hy. unfold py_div.
  destruct (Qeq_bool y 0) eqn:E; [|done].
  apply Qeq_bool_iff in E. rewrite E in Hy. by apply Qlt_irrefl in Hy.
Qed.

Lemma ratio_pos (n m : nat) :
  (0 < n)%nat → (0 < Q_of_nat n / Q_of_nat (n + m))%Q.
Proof.
  intros Hn. apply Qlt_shift_div_l; [apply Q_of_nat_pos; lia|].
  rewrite Qmult_0_l. by apply Q_of_nat_pos.
Qed.

Lemma ratio_one (n : nat) : (0 < n)%nat → (Q_of_nat n / Q_of_nat (n + 0) == 1)%Q.
Proof.
  intros Hn. rewrite Nat.add_0_r. apply Qmult_inv_r.
  intros E. apply (Q_of_nat_pos n) in Hn. rewrite E in Hn. by apply Qlt_irrefl in Hn.
Qed.

Lemma bind_Ok {A B} (a : A) (f : A → result B) : Ok a ≫= f = f a.
Proof. reflexivity. Qed.

Lemma bind_Raise {A B} (e : exn) (f : A → result B) : Raise e ≫= f = Raise e.
Proof. reflexivity. Qed.

(** The value of [compute_prf] on the two observed sets *)
Lemma compute_prf_sets (actual_table expected_table : Table)
    (actual_sample_id expected_sample_id : option string) (A E : gset string) :
  get_observed_observation_ids actual_table actual_sample_id true = Ok A →
  get_observed_observation_ids expected_table expected_sample_id true = Ok E →
  compute_prf actual_table expected_table actual_sample_id expected_sample_id
  = prf_of_sets A E.
Proof.
  intros HA HE. unfold compute_prf, prf_of_sets. rewrite HA, bind_Ok, HE, bind_Ok.
  destruct (0 <? size (A ∩ E))%nat eqn:Htp; [|done].
  apply Nat.ltb_lt in Htp.
  rewrite (py_div_Ok _ (Q_of_nat (_ + size (A ∖ E)))) by (apply Q_of_nat_pos; lia).
  rewrite bind_Ok.
  rewrite (py_div_Ok _ (Q_of_nat (_ + size (E ∖ A)))) by (apply Q_of_nat_pos; lia).
  rewrite bind_Ok.
  rewrite py_div_Ok, bind_Ok; [done|].
  rewrite <- (Qplus_0_l 0). apply Qplus_lt_le_compat; [by apply ratio_pos|].
  apply Qlt_le_weak. by apply ratio_pos.
Qed.

(** C1. [compute_prf] works on the observed-id sets [A] and [E] of the two
    samples: the ids of the observations with a positive count in the
    sample, every whitespace character deleted.  It returns tp/(tp+fp),
    tp/(tp+fn) and 2pr/(p+r) with tp = |A ∩ E|, fp = |A − E|,
    fn = |E − A| when tp > 0, and exactly (0, 0, 0) when tp = 0; so it
    returns zeros on disjoint sets and ones on equal sets that are not
    empty.  On the tables [prf_actual_table] and [prf_expected_table],
    which share one id up to whitespace, it returns 1/2, 1/3 and 2/5. *)
Theorem compute_prf_spec (actual_table expected_table : Table)
    (actual_sample_id expected_sample_id : option string) (a_sid e_sid : string) :
  default_sample_id actual_table actual_sample_id = Ok a_sid →
  a_sid ∈ sample_ids actual_table →
  default_sample_id expected_table expected_sample_id = Ok e_sid →
  e_sid ∈ sample_ids expected_table →
  ∃ (A E : gset string) (p r f : Q),
    (∀ x, x ∈ A ↔ ∃ observation_id v,
       observation_id ∈ observation_ids actual_table ∧
       get_value_by_ids actual_table observation_id a_sid = Ok v ∧
       (0 < v)%Q ∧
       x = str_filter (λ c, negb (is_space c)) observation_id) ∧
    (∀ x, x ∈ E ↔ ∃ observation_id v,
       observation_id ∈ observation_ids expected_table ∧
       get_value_by_ids expected_table observation_id e_sid = Ok v ∧
       (0 < v)%Q ∧
       x = str_filter (λ c, negb (is_space c)) observation_id) ∧
    (actual_sample_id = None → head (sample_ids actual_table) = Some a_sid) ∧
    (expected_sample_id = None → head (sample_ids expected_table) = Some e_sid) ∧
    get_observed_observation_ids actual_table actual_sample_id true = Ok A ∧
    get_observed_observation_ids expected_table expected_sample_id true = Ok E ∧
    compute_prf actual_table expected_table actual_sample_id expected_sample_id
      = Ok (p, r, f) ∧
    (let tp := size (A ∩ E) in
     let fp := size (A ∖ E) in
     let fn := size (E ∖ A) in
     ((0 < tp)%nat →
        p = (Q_of_nat tp / Q_of_nat (tp + fp))%Q ∧
        r = (Q_of_nat tp / Q_of_nat (tp + fn))%Q ∧
        f = (2 * p * r / (p + r))%Q ∧
        (0 < p + r)%Q) ∧
     (tp = 0%nat → (p, r, f) = (0%Q, 0%Q, 0%Q)) ∧
     (A ## E → (p, r, f) = (0%Q, 0%Q, 0%Q)) ∧
     (A = E → A ≠ ∅ → (p == 1)%Q ∧ (r == 1)%Q ∧ (f == 1)%Q)) ∧
    compute_prf prf_actual_table prf_expected_table None (Some "S1")
      = Ok ((1 # 2)%Q, (1 # 3)%Q, (12 # 30)%Q) ∧
    (12 # 30 == 2 # 5)%Q.
Proof.
  intros Ha Has He Hes.
  destruct (get_observed_observation_ids_elem actual_table actual_sample_id true a_sid Ha Has)
    as (A & HA & HAmem).
  destruct (get_observed_observation_ids_elem expected_table expected_sample_id true e_sid He Hes)
    as (E & HE & HEmem).
  assert (HAspec : ∀ x, x ∈ A ↔ ∃ observation_id v,
       observation_id ∈ observation_ids actual_table ∧
       get_value_by_ids actual_table observation_id a_sid = Ok v ∧
       (0 < v)%Q ∧
       x = str_filter (λ c, negb (is_space c)) observation_id).
  { intros x. rewrite HAmem. unfold observed_name.
    by setoid_rewrite remove_whitespace_filter. }
  assert (HEspec : ∀ x, x ∈ E ↔ ∃ observation_id v,
       observation_id ∈ observation_ids expected_table ∧
       get_value_by_ids expected_table observation_id e_sid = Ok v ∧
       (0 < v)%Q ∧
       x = str_filter (λ c, negb (is_space c)) observation_id).
  { intros x. rewrite HEmem. unfold observed_name.
    by setoid_rewrite remove_whitespace_filter. }
  pose proof (default_sample_id_elem _ _ _ Ha) as Hahead.
  pose proof (default_sample_id_elem _ _ _ He) as Hehead.
  pose proof (compute_prf_sets _ _ _ _ A E HA HE) as Hprf.
  unfold prf_of_sets in Hprf.
  assert (Hclosed :
    compute_prf prf_actual_table prf_expected_table None (Some "S1")
      = Ok ((1 # 2)%Q, (1 # 3)%Q, (12 # 30)%Q) ∧ (12 # 30 == 2 # 5)%Q).
  { split; [vm_compute; reflexivity | reflexivity]. }
  destruct (0 <? size (A ∩ E))%nat eqn:Htp.
  - apply Nat.ltb_lt in Htp.
    eexists A, E, _, _, _. split; [exact HAspec|]. split; [exact HEspec|].
    split; [exact Hahead|]. split; [exact Hehead|].
    split; [done|]. split; [done|]. split; [exact Hprf|]. split; [|exact Hclosed].
    simpl. split; [|split; [|split]].
    + intros _. split; [done|]. split; [done|]. split; [done|].
      rewrite <- (Qplus_0_l 0). apply Qplus_lt_le_compat; [by apply ratio_pos|].
      apply Qlt_le_weak. by apply ratio_pos.
    + intros E0. rewrite E0 in Htp. lia.
    + intros Hdisj. apply disjoint_intersection_L in Hdisj.
      rewrite Hdisj, size_empty in Htp. lia.
    + intros <- Hne.
      assert (HAA : A ∩ A = A) by apply intersection_idemp_L.
      assert (HAd : A ∖ A = ∅) by apply difference_diag_L.
      rewrite HAA in Htp. rewrite HAA, HAd, size_empty.
      assert (Hp : (Q_of_nat (size A) / Q_of_nat (size A + 0) == 1)%Q)
        by (by apply ratio_one).
      split; [exact Hp|]. split; [exact Hp|].
      rewrite Hp. reflexivity.
  - apply Nat.ltb_ge in Htp.
    exists A, E, 0%Q, 0%Q, 0%Q. split; [exact HAspec|]. split; [exact HEspec|].
    split; [exact Hahead|]. split; [exact Hehead|].
    split; [done|]. split; [done|]. split; [exact Hprf|]. split; [|exact Hclosed].
    simpl. split; [|split; [|split]]; try done.
    + intros ?. lia.
    + intros <- Hne.
      assert (HAA : A ∩ A = A) by apply intersection_idemp_L.
      rewrite HAA in Htp.
      assert (size A ≠ 0%nat); [|lia].
      apply size_non_empty_iff. intros Hempty. apply Hne. by apply leibniz_equiv.
Qed.

Lemma compute_prf_spec_witness :
  default_sample_id prf_actual_table None = Ok "S1" ∧
  "S1" ∈ sample_ids prf_actual_table ∧
  default_sample_id prf_expected_table (Some "S1") = Ok "S1" ∧
  "S1" ∈ sample_ids prf_expected_table ∧
  ∃ (A E : gset string) (p r f : Q),
    A = {["k__A;p__B"; "k__A;p__C"]} ∧
    E = {["k__A;p__B"; "k__A;p__E"; "k__A;p__F"]} ∧
    (∀ x, x ∈ A ↔ ∃ observation_id v,
       observation_id ∈ observation_ids prf_actual_table ∧
       get_value_by_ids prf_actual_table observation_id "S1" = Ok v ∧
       (0 < v)%Q ∧
       x = str_filter (λ c, negb (is_space c)) observation_id) ∧
    (∀ x, x ∈ E ↔ ∃ observation_id v,
       observation_id ∈ observation_ids prf_expected_table ∧
       get_value_by_ids prf_expected_table observation_id "S1" = Ok v ∧
       (0 < v)%Q ∧
       x = str_filter (λ c, negb (is_space c)) observation_id) ∧
    compute_prf prf_actual_table prf_expected_table None (Some "S1") = Ok (p, r, f) ∧
    ((0 < size (A ∩ E))%nat →
       p = (Q_of_nat (size (A ∩ E)) / Q_of_nat (size (A ∩ E) + size (A ∖ E)))%Q ∧
       r = (Q_of_nat (size (A ∩ E)) / Q_of_nat (size (A ∩ E) + size (E ∖ A)))%Q ∧
       f = (2 * p * r / (p + r))%Q) ∧
    size (A ∩ E) = 1%nat ∧ size (A ∖ E) = 1%nat ∧ size (E ∖ A) = 2%nat ∧
    (p, r, f) = ((1 # 2)%Q, (1 # 3)%Q, (12 # 30)%Q).
Proof.
  split; [reflexivity|]. split; [repeat constructor|].
  split; [reflexivity|]. split; [repeat constructor|].
  destruct (compute_prf_spec prf_actual_table prf_expected_table None (Some "S1") "S1" "S1")
    as (A & E & p & r & f & HAspec & HEspec & _ & _ & HA & HE & Hprf & Hformulas & Hclosed & _);
    [reflexivity | repeat constructor | reflexivity | repeat constructor |].
  assert (HAc : get_observed_observation_ids prf_actual_table None true
                = Ok {["k__A;p__B"; "k__A;p__C"]}) by (vm_compute; reflexivity).
  assert (HEc : get_observed_observation_ids prf_expected_table (Some "S1") true
                = Ok {["k__A;p__B"; "k__A;p__E"; "k__A;p__F"]}) by (vm_compute; reflexivity).
  assert (HAeq : A = {["k__A;p__B"; "k__A;p__C"]}) by congruence.
  assert (HEeq : E = {["k__A;p__B"; "k__A;p__E"; "k__A;p__F"]}) by congruence.
  exists A, E, p, r, f. split; [exact HAeq|]. split; [exact HEeq|].
  split; [exact HAspec|]. split; [exact HEspec|]. split; [exact Hprf|].
  split.
  { intros Htp. destruct Hformulas as [Hpos _].
    destruct (Hpos Htp) as (Hp & Hr & Hf & _). by split; [|split]. }
  rewrite HAeq, HEeq.
  split; [vm_compute; reflexivity|]. split; [vm_compute; reflexivity|].
  split; [vm_compute; reflexivity|]. congruence.
Defined.

(** ** Aligned vectors *)

Lemma value_or_zero_unknown (table : Table) (j : nat) (id : string) :
  id ∉ observation_ids table → value_or_zero table j id = 0%Q.
Proof.
  intros Hid. unfold value_or_zero, index_observation.
  by rewrite (index_of_None _ _ Hid).
Qed.

Lemma value_or_zero_known (table : Table) (j : nat) (id sid : string) :
  index_sample table sid = Ok j →
  id ∈ observation_ids table →
  get_value_by_ids table id sid = Ok (value_or_zero table j id).
Proof.
  intros Hj Hid. unfold get_value_by_ids, value_or_zero, index_observation in *.
  destruct (index_of_Some _ _ Hid) as (i & -> & _).
  by rewrite bind_Ok, Hj.
Qed.

Lemma get_value_by_ids_known (table : Table) (id sid : string) (v : Q) :
  get_value_by_ids table id sid = Ok v → id ∈ observation_ids table.
Proof.
  unfold get_value_by_ids, index_observation.
  destruct (decide (id ∈ observation_ids table)) as [|Hid]; [done|].
  by rewrite (index_of_None _ _ Hid).
Qed.

Lemma sample_index_default (table : Table) (sample_id : option string) (sid : string) :
  default_sample_id table sample_id = Ok sid →
  sid ∈ sample_ids table →
  ∃ j, sample_index table sample_id = Ok j ∧ index_sample table sid = Ok j.
Proof.
  intros Hd Hs. destruct sample_id as [s|]; simpl in *.
  - injection Hd as ->. unfold index_sample.
    destruct (index_of_Some _ _ Hs) as (j & -> & _). by exists j.
  - exists 0%nat. split; [done|]. unfold index_sample.
    destruct (sample_ids table) as [|s rest]; [done|].
    injection Hd as ->. simpl. by rewrite String.eqb_refl.
Qed.

Lemma value_or_zero_cell (table : Table) (sample_id : option string) (sid : string)
    (observed : gset string) (j : nat) (id : string) :
  get_observed_observation_ids table sample_id false = Ok observed →
  default_sample_id table sample_id = Ok sid →
  sid ∈ sample_ids table →
  index_sample table sid = Ok j →
  cell_of table sid observed id (value_or_zero table j id).
Proof.
  intros Hobs Hd Hs Hj.
  destruct (get_observed_observation_ids_elem table sample_id false sid Hd Hs)
    as (X & HX & Hmem).
  rewrite Hobs in HX. injection HX as <-.
  split; [apply value_or_zero_unknown|]. split.
  - intros v Hv. pose proof (get_value_by_ids_known _ _ _ _ Hv) as Hid.
    rewrite (value_or_zero_known _ _ _ _ Hj Hid) in Hv. by injection Hv.
  - intros Hout. destruct (decide (id ∈ observation_ids table)) as [Hid|Hid].
    + apply Qnot_lt_le. intros Hpos. apply Hout, Hmem.
      exists id, (value_or_zero table j id).
      split; [done|]. split; [by apply value_or_zero_known|]. done.
    + rewrite value_or_zero_unknown by done. apply Qle_refl.
Qed.

(** C6. [get_actual_and_expected_vectors] returns two vectors of the
    length of the union of the observed-id sets of the two samples: the
    ids of the observations with a positive count in the sample, as they
    are (whitespace kept).  Both vectors follow one enumeration of the
    union without repetition, and an id that a table does not know, or
    whose count in the sample is zero, contributes 0.0 to the vector of
    that table. *)
Theorem get_actual_and_expected_vectors_spec (actual_table expected_table : Table)
    (actual_sample_id expected_sample_id : option string) (a_sid e_sid : string) :
  default_sample_id actual_table actual_sample_id = Ok a_sid →
  a_sid ∈ sample_ids actual_table →
  default_sample_id expected_table expected_sample_id = Ok e_sid →
  e_sid ∈ sample_ids expected_table →
  ∃ (A E : gset string) (actual_vector expected_vector : list Q),
    (∀ x, x ∈ A ↔ ∃ v,
       x ∈ observation_ids actual_table ∧
       get_value_by_ids actual_table x a_sid = Ok v ∧ (0 < v)%Q) ∧
    (∀ x, x ∈ E ↔ ∃ v,
       x ∈ observation_ids expected_table ∧
       get_value_by_ids expected_table x e_sid = Ok v ∧ (0 < v)%Q) ∧
    get_observed_observation_ids actual_table actual_sample_id false = Ok A ∧
    get_observed_observation_ids expected_table expected_sample_id false = Ok E ∧
    get_actual_and_expected_vectors actual_table expected_table
      actual_sample_id expected_sample_id = Ok (actual_vector, expected_vector) ∧
    length actual_vector = size (A ∪ E) ∧
    length expected_vector = size (A ∪ E) ∧
    ∃ all_obs_ids : list string,
      NoDup all_obs_ids ∧
      (∀ id, id ∈ all_obs_ids ↔ id ∈ A ∪ E) ∧
      ∀ i id, all_obs_ids !! i = Some id →
        ∃ a e, actual_vector !! i = Some a ∧ expected_vector !! i = Some e ∧
          cell_of actual_table a_sid A id a ∧
          cell_of expected_table e_sid E id e.
Proof.
  intros Ha Has He Hes.
  destruct (get_observed_observation_ids_elem actual_table actual_sample_id false a_sid Ha Has)
    as (A & HA & HAmem).
  destruct (get_observed_observation_ids_elem expected_table expected_sample_id false e_sid He Hes)
    as (E & HE & HEmem).
  destruct (sample_index_default _ _ _ Ha Has) as (ja & Hja & Hja').
  destruct (sample_index_default _ _ _ He Hes) as (je & Hje & Hje').
  exists A, E. eexists _, _.
  split.
  { intros x. rewrite HAmem. unfold observed_name. split.
    - intros (id & v & Hid & Hv & Hpos & ->). by exists v.
    - intros (v & Hid & Hv & Hpos). by exists x, v. }
  split.
  { intros x. rewrite HEmem. unfold observed_name. split.
    - intros (id & v & Hid & Hv & Hpos & ->). by exists v.
    - intros (v & Hid & Hv & Hpos). by exists x, v. }
  split; [done|]. split; [done|]. split.
  { unfold get_actual_and_expected_vectors.
    rewrite HA, bind_Ok, HE, bind_Ok, Hja, bind_Ok, Hje, bind_Ok. done. }
  unfold set_to_list. rewrite !length_fmap. split; [done|]. split; [done|].
  exists (elements (A ∪ E)). split; [apply NoDup_elements|].
  split; [intros id; apply elem_of_elements|].
  intros i id Hi. eexists _, _. rewrite !list_lookup_fmap, Hi. simpl.
  split; [done|]. split; [done|]. split.
  - by apply (value_or_zero_cell actual_table actual_sample_id).
  - by apply (value_or_zero_cell expected_table expected_sample_id).
Qed.

Lemma get_actual_and_expected_vectors_spec_witness :
  default_sample_id vectors_actual_table (Some "S1") = Ok "S1" ∧
  "S1" ∈ sample_ids vectors_actual_table ∧
  default_sample_id vectors_expected_table None = Ok "S1" ∧
  "S1" ∈ sample_ids vectors_expected_table ∧
  ∃ (A E : gset string) (actual_vector expected_vector : list Q),
    A = {["A;B"; "A;C"]} ∧
    E = {["A;B"; "A;E"]} ∧
    get_actual_and_expected_vectors vectors_actual_table vectors_expected_table
      (Some "S1") None = Ok (actual_vector, expected_vector) ∧
    length actual_vector = 3%nat ∧
    length expected_vector = 3%nat ∧
    ∃ all_obs_ids : list string,
      NoDup all_obs_ids ∧
      (∀ id, id ∈ all_obs_ids ↔ id = "A;B" ∨ id = "A;C" ∨ id = "A;E") ∧
      (∃ i, all_obs_ids !! i = Some "A;B" ∧
            actual_vector !! i = Some 3%Q ∧ expected_vector !! i = Some 5%Q) ∧
      (∃ i, all_obs_ids !! i = Some "A;C" ∧
            actual_vector !! i = Some 1%Q ∧ expected_vector !! i = Some 0%Q) ∧
      (∃ i, all_obs_ids !! i = Some "A;E" ∧
            actual_vector !! i = Some 0%Q ∧ expected_vector !! i = Some 5%Q).
Proof.
  split; [reflexivity|]. split; [repeat constructor|].
  split; [reflexivity|]. split; [repeat constructor|].
  destruct (get_actual_and_expected_vectors_spec vectors_actual_table
              vectors_expected_table (Some "S1") None "S1" "S1")
    as (A & E & av & ev & _ & _ & HA & HE & Hv & Hla & Hle & ids & Hnodup & Hids & Hcells);
    [reflexivity | repeat constructor | reflexivity | repeat constructor |].
  assert (HAc : get_observed_observation_ids vectors_actual_table (Some "S1") false
                = Ok {["A;B"; "A;C"]}) by (vm_compute; reflexivity).
  assert (HEc : get_observed_observation_ids vectors_expected_table None false
                = Ok {["A;B"; "A;E"]}) by (vm_compute; reflexivity).
  assert (HAeq : A = {["A;B"; "A;C"]}) by congruence.
  assert (HEeq : E = {["A;B"; "A;E"]}) by congruence.
  assert (Hmem : ∀ id, id ∈ ids ↔ id = "A;B" ∨ id = "A;C" ∨ id = "A;E").
  { intros id. rewrite Hids, HAeq, HEeq.
    rewrite !elem_of_union, !elem_of_singleton. tauto. }
  assert (Hsize : size (A ∪ E) = 3%nat) by (rewrite HAeq, HEeq; vm_compute; reflexivity).
  assert (Hcell : ∀ id a e,
    id ∈ ids →
    (get_value_by_ids vectors_actual_table id "S1" = Ok a
     ∨ ((id ∉ observation_ids vectors_actual_table) ∧ a = 0%Q)) →
    (get_value_by_ids vectors_expected_table id "S1" = Ok e
     ∨ ((id ∉ observation_ids vectors_expected_table) ∧ e = 0%Q)) →
    ∃ i, ids !! i = Some id ∧ av !! i = Some a ∧ ev !! i = Some e).
  { intros id a e Hid Ha He. apply list_elem_of_lookup_1 in Hid as [i Hi].
    destruct (Hcells i id Hi) as (a' & e' & Hav & Hev & (Ha0 & Hav' & _) & (He0 & Hev' & _)).
    exists i. split; [done|]. split.
    - rewrite Hav. f_equal. destruct Ha as [Ha|[Ha ->]]; [by apply Hav'|by apply Ha0].
    - rewrite Hev. f_equal. destruct He as [He|[He ->]]; [by apply Hev'|by apply He0]. }
  exists A, E, av, ev. split; [exact HAeq|]. split; [exact HEeq|].
  split; [exact Hv|]. split; [by rewrite Hla|]. split; [by rewrite Hle|].
  exists ids. split; [exact Hnodup|]. split; [exact Hmem|].
  split; [|split].
  - apply Hcell; [apply Hmem; tauto | left; vm_compute; reflexivity
                  | left; vm_compute; reflexivity].
  - apply Hcell; [apply Hmem; tauto | left; vm_compute; reflexivity|].
    right. split; [|done]. compute_done.
  - apply Hcell; [apply Hmem; tauto | | left; vm_compute; reflexivity].
    right. split; [|done]. compute_done.
Defined.
(** ** Taxonomy collapser *)

Lemma py_slice_to_nonneg {A} (k : Z) (l : list A) :
  (0 <= k)%Z → py_slice_to k l = take (Z.to_nat k) l.
Proof.
  intros Hk. unfold py_slice_to.
  destruct (0 <=? k)%Z eqn:E; [done|]. apply Z.leb_gt in E. lia.
Qed.

(** Splitting at a separator *)

Lemma str_split_from_cons (sep : ascii) (field s : string) :
  ∃ first rest, str_split_from sep field s = first :: rest.
Proof.
  revert field. induction s as [|c s IH]; intros field; simpl; [by eexists _, _|].
  destruct (Ascii.eqb c sep); [by eexists _, _ | apply IH].
Qed.

Lemma str_join_cons (sep p : string) (l : list string) :
  l ≠ [] → str_join sep (p :: l) = p ++ sep ++ str_join sep l.
Proof. by destruct l. Qed.

Lemma str_split_from_join (sep : ascii) (field s : string) :
  str_join (String sep "") (str_split_from sep field s) = field ++ s.
Proof.
  revert field. induction s as [|c s IH]; intros field; simpl.
  - by rewrite append_empty_r.
  - destruct (Ascii.eqb c sep) eqn:Hc.
    + apply Ascii.eqb_eq in Hc as ->.
      destruct (str_split_from_cons sep "" s) as (first & rest & Hsplit).
      rewrite str_join_cons by (by rewrite Hsplit). by rewrite IH.
    + rewrite IH, append_assoc. done.
Qed.

Lemma str_forall_app (P : ascii → bool) (s t : string) :
  str_forall P (s ++ t) = str_forall P s && str_forall P t.
Proof.
  induction s as [|c s IH]; [done|]. rewrite append_cons. simpl.
  by rewrite IH, andb_assoc.
Qed.

Lemma str_split_from_fields (sep : ascii) (field s : string) :
  str_forall (λ c, negb (Ascii.eqb c sep)) field = true →
  Forall (λ field, str_forall (λ c, negb (Ascii.eqb c sep)) field = true)
         (str_split_from sep field s).
Proof.
  revert field. induction s as [|c s IH]; intros field Hfield; simpl.
  - by constructor.
  - destruct (Ascii.eqb c sep) eqn:Hc.
    + constructor; [done|]. by apply IH.
    + apply IH. rewrite str_forall_app, Hfield. simpl. by rewrite Hc.
Qed.

Lemma str_split_spec (sep : ascii) (s : string) :
  is_split_of sep s (str_split sep s).
Proof.
  unfold is_split_of, str_split. split; [|split].
  - by destruct (str_split_from_cons sep "" s) as (first & rest & ->).
  - apply str_split_from_join.
  - by apply str_split_from_fields.
Qed.

(** Stripping *)

Lemma str_lstrip_spec (s : string) :
  (∃ l, s = l ++ str_lstrip s ∧ str_forall is_space l = true) ∧
  (∀ c rest, str_lstrip s = String c rest → is_space c = false).
Proof.
  induction s as [|c s [(l & Hl & Hspace) Hfirst]]; simpl.
  - split; [by exists ""|done].
  - destruct (is_space c) eqn:Hc.
    + split; [|done]. exists (String c l). rewrite append_cons, <- Hl. simpl.
      by rewrite Hc, Hspace.
    + split; [by exists ""|]. by intros c' rest [= <- _].
Qed.

Lemma str_rstrip_spec (s : string) :
  (∃ r, s = str_rstrip s ++ r ∧ str_forall is_space r = true) ∧
  (∀ init c, str_rstrip s = init ++ String c "" → is_space c = false) ∧
  (∀ c rest, s = String c rest → is_space c = false →
     ∃ rest', str_rstrip s = String c rest').
Proof.
  induction s as [|c s [(r & Hr & Hspace) [Hlast _]]]; simpl.
  - split; [by exists ""|]. split; [|done]. intros init c. by destruct init.
  - destruct (is_space c && is_empty_string (str_rstrip s)) eqn:Hc.
    + apply andb_prop in Hc as [Hc Hempty]. apply is_empty_string_true in Hempty.
      split; [|split].
      * exists (String c s). split; [done|]. simpl. rewrite Hc. simpl.
        rewrite Hr, Hempty. done.
      * intros init c'. by destruct init.
      * intros c' rest [= <- _] Hc'. congruence.
    + split; [|split].
      * exists r. by rewrite append_cons, <- Hr.
      * intros init c' Heq. destruct init as [|a init].
        -- rewrite append_empty_l in Heq. injection Heq as <- Hempty.
           rewrite Hempty in Hc. simpl in Hc. rewrite andb_true_r in Hc. done.
        -- rewrite append_cons in Heq. injection Heq as _ Heq. by apply (Hlast init).
      * intros c' rest [= <- _] _. by eexists.
Qed.

Lemma str_strip_spec (s : string) : is_strip_of s (str_strip s).
Proof.
  unfold is_strip_of, str_strip.
  destruct (str_lstrip_spec s) as [(l & Hl & Hlspace) Hfirst].
  destruct (str_rstrip_spec (str_lstrip s)) as [(r & Hr & Hrspace) [Hlast Hkeep]].
  split; [|split].
  - exists l, r. split; [|done]. by rewrite <- Hr.
  - intros c rest Hstrip.
    destruct (str_lstrip s) as [|c' rest'] eqn:Hls; [done|].
    pose proof (Hfirst c' rest' eq_refl) as Hc'.
    destruct (Hkeep c' rest' eq_refl Hc') as [rest'' Hrs].
    rewrite Hrs in Hstrip. by injection Hstrip as <- _.
  - exact Hlast.
Qed.

Lemma Forall2_fmap_strip (fields : list string) :
  Forall2 is_strip_of fields (str_strip <$> fields).
Proof.
  induction fields as [|field fields IH]; [constructor|].
  rewrite fmap_cons. constructor; [apply str_strip_spec | exact IH].
Qed.

(** C10. For a level L ≥ 0 and a taxonomy annotation that is a delimited
    string or a sequence of ranks, the collapse function returns (it does
    not raise) the [';']-join of the first L+1 ranks, each rank being a
    field of the string between two [';'] (or an element of the sequence)
    without the whitespace at its ends; with at most L+1 ranks that is
    the join of all of them.  So ["k__Bacteria; p__Firmicutes ;c__Bacilli"]
    gives ["k__Bacteria;p__Firmicutes"] at level 1 and all three ranks at
    level 6. *)
Theorem get_taxonomy_collapser_total (level : Z) (md_key id_ : string)
    (md : gmap string md_value) (v : md_value) :
  (0 <= level)%Z →
  md !! md_key = Some v →
  v ≠ MdNone →
  ∃ fields ranks : list string,
    (∀ s, v = MdStr s → is_split_of ";" s fields) ∧
    (∀ sequence, v = MdList sequence → fields = sequence) ∧
    Forall2 is_strip_of fields ranks ∧
    get_taxonomy_collapser level md_key id_ (Some md)
      = Ok (str_join ";" (take (Z.to_nat level + 1)%nat ranks)) ∧
    ((length ranks ≤ Z.to_nat level + 1)%nat →
     get_taxonomy_collapser level md_key id_ (Some md) = Ok (str_join ";" ranks)) ∧
    get_taxonomy_collapser 1 "taxonomy" "otu1" (Some delimited_metadata)
      = Ok "k__Bacteria;p__Firmicutes" ∧
    get_taxonomy_collapser 6 "taxonomy" "otu1" (Some delimited_metadata)
      = Ok "k__Bacteria;p__Firmicutes;c__Bacilli" ∧
    get_taxonomy_collapser 0 "taxonomy" "otu1"
      (Some {["taxonomy" := MdList [" k__Bacteria"; "p__Firmicutes "]]})
      = Ok "k__Bacteria".
Proof.
  intros Hlevel Hmd Hv.
  assert (Hf : ∀ fields,
    taxonomy_levels v = Ok (str_strip <$> fields) →
    get_taxonomy_collapser level md_key id_ (Some md)
    = Ok (str_join ";" (take (Z.to_nat level + 1)%nat (str_strip <$> fields)))).
  { intros fields Hlevels. unfold get_taxonomy_collapser, md_getitem.
    rewrite Hmd. change (default MdNone (Some v)) with v.
    rewrite bind_Ok, Hlevels, bind_Ok.
    rewrite py_slice_to_nonneg by lia.
    by replace (Z.to_nat (level + 1)) with (Z.to_nat level + 1)%nat by lia. }
  destruct v as [|s|sequence]; [done| |].
  - exists (str_split ";" s), (str_strip <$> str_split ";" s).
    split; [intros s' [= <-]; apply str_split_spec|]. split; [done|].
    split; [apply Forall2_fmap_strip|]. split; [by apply Hf|].
    split; [|split; [|split]]; try (vm_compute; reflexivity).
    intros Hlen. rewrite (Hf _ eq_refl). by rewrite take_ge.
  - exists sequence, (str_strip <$> sequence).
    split; [done|]. split; [by intros ? [= <-]|].
    split; [apply Forall2_fmap_strip|]. split; [by apply Hf|].
    split; [|split; [|split]]; try (vm_compute; reflexivity).
    intros Hlen. rewrite (Hf _ eq_refl). by rewrite take_ge.
Qed.

Lemma get_taxonomy_collapser_total_witness :
  (0 <= 1)%Z ∧
  delimited_metadata !! "taxonomy" = Some (MdStr "k__Bacteria; p__Firmicutes ;c__Bacilli") ∧
  MdStr "k__Bacteria; p__Firmicutes ;c__Bacilli" ≠ MdNone ∧
  ∃ fields ranks : list string,
    is_split_of ";" "k__Bacteria; p__Firmicutes ;c__Bacilli" fields ∧
    Forall2 is_strip_of fields ranks ∧
    get_taxonomy_collapser 1 "taxonomy" "otu1" (Some delimited_metadata)
      = Ok (str_join ";" (take (Z.to_nat 1 + 1)%nat ranks)) ∧
    get_taxonomy_collapser 1 "taxonomy" "otu1" (Some delimited_metadata)
      = Ok "k__Bacteria;p__Firmicutes".
Proof.
  split; [lia|]. split; [vm_compute; reflexivity|]. split; [discriminate|].
  destruct (get_taxonomy_collapser_total 1 "taxonomy" "otu1" delimited_metadata
              (MdStr "k__Bacteria; p__Firmicutes ;c__Bacilli"))
    as (fields & ranks & Hsplit & _ & Hstrip & Hf & _ & Hclosed & _);
    [lia | vm_compute; reflexivity | discriminate |].
  exists fields, ranks. split; [by apply Hsplit|]. split; [exact Hstrip|].
  split; [exact Hf | exact Hclosed].
Defined.

(** ** Table filter *)

Lemma str_startswith_iff (s prefix : string) :
  str_startswith s prefix = true ↔ ∃ rest, s = prefix ++ rest.
Proof.
  unfold str_startswith. revert s.
  induction prefix as [|a prefix IH]; intros s.
  - split; [by exists s | by destruct s].
  - destruct s as [|b s]; simpl.
    { split; [done|]. intros [rest Hrest]. by rewrite append_cons in Hrest. }
    destruct (ascii_dec a b) as [->|Hne].
    + rewrite IH. split.
      * intros [rest ->]. by exists rest.
      * intros [rest Hrest]. rewrite append_cons in Hrest. injection Hrest as ->.
        by exists rest.
    + split; [done|]. intros [rest Hrest]. rewrite append_cons in Hrest.
      injection Hrest as <- _. done.
Qed.

Lemma existsb_elem_of {A} (f : A → bool) (l : list A) (x : A) :
  x ∈ l → f x = true → existsb f l = true.
Proof.
  induction 1 as [x l|x y l _ IH]; simpl; intros Hx.
  - by rewrite Hx.
  - rewrite IH by done. by rewrite orb_true_r.
Qed.

Lemma handed_metadata_Some (table : Table) (o : Observation) (d : gmap string md_value) :
  o ∈ observations table → obs_metadata o = Some d →
  handed_metadata table o = Some d.
Proof.
  intros Ho Hd. unfold handed_metadata.
  rewrite (existsb_elem_of has_metadata _ o Ho), Hd; [done|].
  unfold has_metadata. by rewrite Hd.
Qed.

(** The predicate of [filter_table] on an observation whose taxonomy is a
    sequence of ranks, with a level and an allowlist: the three
    conditions, the allowlist being the one string [prefix]. *)
Lemma filter_predicate_ranks (min_count : Q) (level : Z) (prefix md_key id_ : string)
    (data_vector : list Q) (md : gmap string md_value) (ranks : list string) :
  md !! md_key = Some (MdList ranks) →
  filter_predicate min_count (Some level) (Some prefix) md_key data_vector id_ (Some md)
  = Ok (Qle_bool min_count (Qsum data_vector)
        && (str_startswith id_ prefix || str_startswith (str_join ";" ranks) prefix)
        && (level + 1 <=? Z.of_nat (length ranks))%Z).
Proof.
  intros Hmd. unfold filter_predicate, enough_levels, allowed_taxa, md_getitem, md_read.
  simpl. rewrite Hmd. simpl. rewrite Hmd.
  destruct (str_startswith id_ prefix); simpl; done.
Qed.

Lemma filter_observations_Ok (f : Observation → result bool) (g : Observation → bool)
    (obs : list Observation) :
  (∀ o, o ∈ obs → f o = Ok (g o)) →
  filter_observations f obs = Ok (filter (λ o, g o = true) obs).
Proof.
  induction obs as [|o obs IH]; intros Hf; simpl; [done|].
  rewrite (Hf o) by (by left). rewrite bind_Ok.
  rewrite IH by (intros o' Ho'; apply Hf; by right). rewrite bind_Ok.
  destruct (g o) eqn:Hg.
  - by rewrite filter_cons_True.
  - rewrite filter_cons_False; [done|]. by rewrite Hg.
Qed.

(** With an allowlist of one taxonomy the prefix is that taxonomy. *)
Lemma joined_taxa_to_keep_single (taxon : string) :
  joined_taxa_to_keep (Some [taxon]) = Some taxon.
Proof. reflexivity. Qed.

(** With more entries the prefix is their [';']-join: one string. *)
Lemma joined_taxa_to_keep_cons (t1 t2 : string) (rest : list string) :
  joined_taxa_to_keep (Some (t1 :: t2 :: rest))
  = Some (t1 ++ ";" ++ str_join ";" (t2 :: rest)).
Proof. reflexivity. Qed.

(** Mounting a table with the filter is mounting the filtered table
    without it, when the filter leaves something. *)
Lemma mount_observations_filtered `{Collaborators} (table_fp : list string)
    (min_count : Q) (level : Z) (taxa : list string) (md_key : string)
    (normalize clean_obs_ids : bool) (w : World) (table filtered : Table) :
  fs w !! table_fp = Some (BiomFile table) →
  (0 < min_count)%Q →
  filter_table table min_count (Some level) (Some taxa) md_key = Ok filtered →
  is_empty filtered = false →
  (mount_observations table_fp min_count level (Some taxa) md_key
     normalize clean_obs_ids true w).1
  = (mount_observations table_fp 0 level (Some taxa) md_key
       normalize clean_obs_ids false
       (mkWorld (<[table_fp := BiomFile filtered]> (fs w)) (stdout w))).1.
Proof.
  intros Hfs Hmin Hfilter Hempty.
  assert (Hguard : Qlt_bool 0 min_count = true) by by apply Qlt_bool_iff.
  unfold mount_observations, mbind, M_bind, try_except, load_table, lift, raise,
    mret, M_ret.
  simpl. rewrite Hfs, lookup_insert_eq, Hguard, Hfilter. simpl. rewrite Hempty.
  destruct (table_collapse _ filtered) as [t|[]]; done.
Qed.

(** C4 (amended). With a level and an allowlist, [filter_table] keeps an
    observation whose taxonomy is a sequence of ranks exactly when the
    three conditions hold together: its total count is at least
    [min_count], it has at least [level + 1] ranks, and its id or its
    [';']-joined taxonomy starts with the [';']-join of the allowlist.
    The allowlist is the ranks of one lineage ([A], [B] is the lineage
    [A;B]), not a choice of prefixes.  The observations that are kept
    keep their order, and the samples are unchanged.  It is this table
    that [mount_observations] goes on with when the filter is active and
    leaves something. *)
Theorem filter_table_one_lineage `{Collaborators} (table : Table) (min_count : Q)
    (level : Z) (taxa : list string) (md_key : string) :
  (∀ o, o ∈ observations table →
     ∃ d ranks, obs_metadata o = Some d ∧ d !! md_key = Some (MdList ranks)) →
  ∃ kept,
    filter_table table min_count (Some level) (Some taxa) md_key
      = Ok (mkTable kept (sample_ids table)) ∧
    kept `sublist_of` observations table ∧
    (∀ o d ranks,
       o ∈ observations table →
       obs_metadata o = Some d → d !! md_key = Some (MdList ranks) →
       (o ∈ kept ↔
          (min_count <= Qsum (obs_data o))%Q ∧
          (level + 1 <= Z.of_nat (length ranks))%Z ∧
          ((∃ rest, obs_id o = str_join ";" taxa ++ rest) ∨
           (∃ rest, str_join ";" ranks = str_join ";" taxa ++ rest)))) ∧
    (∀ table_fp normalize clean_obs_ids w,
       fs w !! table_fp = Some (BiomFile table) →
       (0 < min_count)%Q →
       kept ≠ [] → sample_ids table ≠ [] →
       (mount_observations table_fp min_count level (Some taxa) md_key
          normalize clean_obs_ids true w).1
       = (mount_observations table_fp 0 level (Some taxa) md_key
            normalize clean_obs_ids false
            (mkWorld (<[table_fp := BiomFile (mkTable kept (sample_ids table))]> (fs w))
               (stdout w))).1) ∧
    str_join ";" ["A"; "B"] = "A;B" ∧
    str_join ";" ["A"] = "A" ∧
    Qsum [2%Q; 3%Q] = 5%Q.
Proof.
  intros Hmd.
  set (g := λ o : Observation,
         match obs_metadata o ≫= (.!! md_key) with
         | Some (MdList ranks) =>
             Qle_bool min_count (Qsum (obs_data o))
             && (str_startswith (obs_id o) (str_join ";" taxa)
                 || str_startswith (str_join ";" ranks) (str_join ";" taxa))
             && (level + 1 <=? Z.of_nat (length ranks))%Z
         | _ => false
         end).
  assert (Hfilter :
    filter_table table min_count (Some level) (Some taxa) md_key
    = Ok (mkTable (filter (λ o, g o = true) (observations table)) (sample_ids table))).
  { unfold filter_table, table_filter, joined_taxa_to_keep. simpl.
    rewrite (filter_observations_Ok _ g); [by rewrite bind_Ok|].
    intros o Ho. destruct (Hmd o Ho) as (d & ranks & Hd & Hranks).
    rewrite (handed_metadata_Some table o d Ho Hd).
    rewrite (filter_predicate_ranks _ _ _ _ _ _ _ ranks Hranks).
    unfold g. rewrite Hd. simpl. by rewrite Hranks. }
  exists (filter (λ o, g o = true) (observations table)).
  split; [exact Hfilter|].
  split; [apply sublist_filter|]. split; [|split; [|by vm_compute]].
  2:{ intros table_fp normalize clean_obs_ids w Hfs Hmin Hkept Hsamples.
      apply (mount_observations_filtered _ _ _ _ _ _ _ _ table); [done..|].
      unfold is_empty. simpl.
      destruct (filter _ (observations table)); [done|].
      by destruct (sample_ids table). }
  - intros o d ranks Ho Hd Hranks. rewrite list_elem_of_filter.
    unfold g. rewrite Hd. simpl. rewrite Hranks.
    rewrite !andb_true_iff, orb_true_iff, Qle_bool_iff, Z.leb_le,
      !str_startswith_iff.
    tauto.
Qed.

Lemma filter_table_one_lineage_witness :
  (∀ o, o ∈ observations allowlist_table →
     ∃ d ranks, obs_metadata o = Some d ∧ d !! "taxonomy" = Some (MdList ranks)) ∧
  ∃ kept,
    filter_table allowlist_table 1 (Some 1%Z) (Some ["A"; "C"]) "taxonomy"
      = Ok (mkTable kept (sample_ids allowlist_table)) ∧
    kept `sublist_of` observations allowlist_table ∧
    (∀ o d ranks,
       o ∈ observations allowlist_table →
       obs_metadata o = Some d → d !! "taxonomy" = Some (MdList ranks) →
       (o ∈ kept ↔
          (1 <= Qsum (obs_data o))%Q ∧
          (1 + 1 <= Z.of_nat (length ranks))%Z ∧
          ((∃ rest, obs_id o = str_join ";" ["A"; "C"] ++ rest) ∨
           (∃ rest, str_join ";" ranks = str_join ";" ["A"; "C"] ++ rest)))) ∧
    filter_table allowlist_table 1 (Some 1%Z) (Some ["A"; "C"]) "taxonomy"
      = Ok allowlist_table.
Proof.
  assert (Hmd : ∀ o, o ∈ observations allowlist_table →
     ∃ d ranks, obs_metadata o = Some d ∧ d !! "taxonomy" = Some (MdList ranks)).
  { intros o Ho. apply list_elem_of_singleton in Ho as ->. by eexists _, _. }
  split; [exact Hmd|].
  destruct (filter_table_one_lineage (H := example_collaborators) allowlist_table 1 1
              ["A"; "C"] "taxonomy" Hmd)
    as (kept & Hfilter & Hsub & Hkept & _).
  exists kept. split; [exact Hfilter|]. split; [exact Hsub|]. split; [exact Hkept|].
  vm_compute; reflexivity.
Defined.

(** C4 (as stated) fails.  The observation with taxonomy [A;C], count 5
    and two ranks passes the count and depth conditions and starts with
    the allowlist entry [A]; with the allowlist [A], [B] the filter
    removes it all the same, because it compares with the one prefix
    [A;B].  With the allowlist [A] alone it is kept. *)
Lemma filter_table_joins_allowlist :
  filter_table allowlist_table 1 (Some 1%Z) (Some ["A"; "B"]) "taxonomy"
    = Ok (mkTable [] ["S1"]) ∧
  filter_table allowlist_table 1 (Some 1%Z) (Some ["A"]) "taxonomy"
    = Ok allowlist_table ∧
  str_startswith (str_join ";" ["A"; "C"]) "A" = true ∧
  Qle_bool 1 (Qsum [5%Q]) = true ∧
  (1 + 1 <=? Z.of_nat (length ["A"; "C"]))%Z = true.
Proof.
  split; [vm_compute; reflexivity|]. split; [vm_compute; reflexivity|].
  split; [vm_compute; reflexivity|]. split; vm_compute; reflexivity.
Qed.

(** ** Parameter decoding *)

Lemma decode_token_length (v : string) :
  length (decode_token v) = String.length v.
Proof.
  unfold decode_token. rewrite length_fmap.
  induction v as [|c v IH]; simpl; [done | by rewrite IH].
Qed.

(** C2. The decoding loop runs over the characters of a token: for the
    parameters [0.8:0.97:3] of [uclust] the name [min consensus fraction]
    is bound to the list [0.0, '.', 8.0], not to the number 0.8, and the
    row of the results table carries that list. *)
Theorem compute_mock_results_decodes_characters :
  let run :=
    compute_mock_results (H := example_collaborators)
      [("mock-1", "gg", "uclust", "0.8:0.97:3", mock_uclust_fp)]
      mock_lookup ["out"; "results.tsv"] [1%Z] 0%Q None "taxonomy" None uclust_world in
  record_parameter_data ["min consensus fraction"; "similarity"; "max accepts"]
    "0.8:0.97:3" !! "min consensus fraction"
    = Some [PyFloat 0%Q; PyStr "."; PyFloat 8%Q] ∧
  row_count run = Some 1%nat ∧
  parameter_column run "min consensus fraction"
    = Some [PyFloat 0%Q; PyStr "."; PyFloat 8%Q] ∧
  parameter_column run "similarity"
    = Some [PyFloat 0%Q; PyStr "."; PyFloat 9%Q; PyFloat 7%Q] ∧
  parameter_column run "max accepts" = Some [PyFloat 3%Q].
Proof.
  cbv zeta.
  split; [vm_compute; reflexivity|]. split; [vm_compute; reflexivity|].
  split; [vm_compute; reflexivity|]. split; vm_compute; reflexivity.
Qed.

(** ** Parameter-name schema *)

(** C3. [compute_mock_results] assigns the empty dict to [new_param_ids]
    before it uses it, so the schema of the caller is dropped: the result
    is the same for every [new_param_ids]; a caller-supplied schema for
    [uclust] leaves the built-in names in the table, and a method that has
    a schema from the caller only still raises [KeyError]. *)
Theorem compute_mock_results_ignores_new_param_ids :
  (∀ (collaborators : Collaborators) result_tables expected_table_lookup results_fp
     taxonomy_level_range min_count taxa_to_keep md_key new_param_ids,
     compute_mock_results result_tables expected_table_lookup results_fp
       taxonomy_level_range min_count taxa_to_keep md_key new_param_ids
     = compute_mock_results result_tables expected_table_lookup results_fp
         taxonomy_level_range min_count taxa_to_keep md_key None) ∧
  (let run :=
     evaluate_results (H := example_collaborators) [["results"]]
       ["expected"] ["out"; "results.tsv"] [1%Z] 0%Q None "taxonomy"
       (Some {["uclust" := ["fraction"; "identity"; "accepts"]]}) false 10 false
       uclust_world in
   row_count run = Some 1%nat ∧
   parameter_column run "fraction" = None ∧
   parameter_column run "min consensus fraction"
     = Some [PyFloat 0%Q; PyStr "."; PyFloat 8%Q]) ∧
  outcome (evaluate_results (H := example_collaborators) [["results"]]
             ["expected"] ["out"; "results.tsv"] [1%Z] 0%Q None "taxonomy"
             (Some {["naive-bayes" := ["confidence"]]}) false 10 false mock_world)
  = Raise (KeyError "naive-bayes").
Proof.
  split; [reflexivity|]. split.
  - cbv zeta. split; [vm_compute; reflexivity|].
    split; vm_compute; reflexivity.
  - vm_compute; reflexivity.
Qed.

(** ** The monad of the pipeline *)

Lemma M_bind_Ok {A B} (m : M A) (f : A → M B) (w w' : World) (a : A) :
  m w = (Ok a, w') → (m ≫= f) w = f a w'.
Proof. intros Hm. unfold mbind, M_bind. by rewrite Hm. Qed.

Lemma M_bind_Raise {A B} (m : M A) (f : A → M B) (w w' : World) (e : exn) :
  m w = (Raise e, w') → (m ≫= f) w = (Raise e, w').
Proof. intros Hm. unfold mbind, M_bind. by rewrite Hm. Qed.

Lemma try_except_Ok {A} (m : M A) (handler : exn → M A) (w w' : World) (a : A) :
  m w = (Ok a, w') → try_except m handler w = (Ok a, w').
Proof. intros Hm. unfold try_except. by rewrite Hm. Qed.

Lemma for_each_Raise {A S} (x : A) (rest : list A) (body : A → S → M S) (s : S)
    (w w' : World) (e : exn) :
  body x s w = (Raise e, w') → for_each (x :: rest) body s w = (Raise e, w').
Proof. intros Hb. simpl. by apply M_bind_Raise. Qed.

(** ** Empty table after filtering *)

Lemma mount_observations_empty `{Collaborators} (table_fp : list string) (min_count : Q)
    (taxonomy_level : Z) (taxa : list string) (md_key : string)
    (normalize clean_obs_ids : bool) (w : World) (table filtered : Table) :
  fs w !! table_fp = Some (BiomFile table) →
  (0 < min_count)%Q →
  filter_table table min_count (Some taxonomy_level) (Some taxa) md_key = Ok filtered →
  observations filtered = [] →
  mount_observations table_fp min_count taxonomy_level (Some taxa) md_key
    normalize clean_obs_ids true w
  = (Raise (ValueError ("Table is empty after filtering at " ++ path_to_string table_fp)), w).
Proof.
  intros Hfs Hmin Hfilter Hempty. unfold mount_observations.
  erewrite M_bind_Ok; [|apply try_except_Ok; unfold load_table; by rewrite Hfs].
  apply M_bind_Raise.
  apply Qlt_bool_iff in Hmin. rewrite Hmin. simpl.
  erewrite M_bind_Ok; [|apply try_except_Ok; unfold lift; by rewrite Hfilter].
  unfold is_empty. by rewrite Hempty.
Qed.

Lemma for_each_app {A S} (before after : list A) (body : A → S → M S) (s : S) (w : World) :
  for_each (before ++ after) body s w
  = match for_each before body s w with
    | (Ok s', w') => for_each after body s' w'
    | (Raise e, w') => (Raise e, w')
    end.
Proof.
  revert s w. induction before as [|x before IH]; intros s w; simpl; [done|].
  unfold mbind, M_bind. destruct (body x s w) as [[s'|e] w']; [apply IH | done].
Qed.

Lemma for_each_app_Raise {A S} (before after : list A) (x : A) (body : A → S → M S)
    (s s' : S) (w w' w'' : World) (e : exn) :
  for_each before body s w = (Ok s', w') →
  body x s' w' = (Raise e, w'') →
  for_each (before ++ x :: after) body s w = (Raise e, w'').
Proof.
  intros Hbefore Hbody. rewrite for_each_app, Hbefore. by apply for_each_Raise.
Qed.

(** C5. When active filtering leaves no observation,
    [mount_observations] raises the [ValueError] "Table is empty after
    filtering at <path>" and leaves the world as it was.
    [compute_mock_results] has no handler for it: wherever the table
    stands in the list of result tables, and at whichever level of the
    range it is empty, the run ends with that error once the tables and
    levels before it are evaluated; the table is not skipped, and the
    tables after it are not evaluated. *)
Theorem mount_observations_empty_after_filtering `{Collaborators}
    (table_fp : list string) (min_count : Q) (taxonomy_level : Z)
    (taxa : list string) (md_key : string) (w : World) (table filtered : Table) :
  fs w !! table_fp = Some (BiomFile table) →
  (0 < min_count)%Q →
  filter_table table min_count (Some taxonomy_level) (Some taxa) md_key = Ok filtered →
  observations filtered = [] →
  (∀ normalize clean_obs_ids,
     mount_observations table_fp min_count taxonomy_level (Some taxa) md_key
       normalize clean_obs_ids true w
     = (Raise (ValueError ("Table is empty after filtering at "
                             ++ path_to_string table_fp)), w)) ∧
  (∀ tables_before tables_after levels_before levels_after
     dataset_id reference_id method_id params expected_table_lookup results_fp
     new_param_ids expected_table_fp expected_table w0 state w1 results w2,
     for_each tables_before
       (evaluate_table expected_table_lookup
          (levels_before ++ taxonomy_level :: levels_after)%list min_count (Some taxa)
          md_key (dict_update default_param_ids ∅))
       ([], ∅) w0 = (Ok state, w1) →
     expected_table_lookup !! dataset_id ≫= (.!! reference_id) = Some expected_table_fp →
     for_each levels_before
       (evaluate_level dataset_id reference_id method_id params expected_table_fp
          table_fp min_count (Some taxa) md_key)
       state.1 w1 = (Ok results, w2) →
     mount_observations expected_table_fp 0 taxonomy_level (Some taxa) "taxonomy"
       true true false w2 = (Ok expected_table, w) →
     compute_mock_results
       (tables_before ++ (dataset_id, reference_id, method_id, params, table_fp)
          :: tables_after)%list
       expected_table_lookup results_fp
       (levels_before ++ taxonomy_level :: levels_after)%list min_count
       (Some taxa) md_key new_param_ids w0
     = (Raise (ValueError ("Table is empty after filtering at "
                             ++ path_to_string table_fp)), w)).
Proof.
  intros Hfs Hmin Hfilter Hempty. split.
  - intros normalize clean_obs_ids. by eapply mount_observations_empty.
  - intros tables_before tables_after levels_before levels_after
      dataset_id reference_id method_id params lookup results_fp new_param_ids
      expected_fp expected_table w0 [rows param_data] w1 results w2
      Hbefore Hlookup Hlevels Hexpected.
    unfold compute_mock_results.
    apply M_bind_Raise. eapply for_each_app_Raise; [exact Hbefore|].
    unfold evaluate_table. rewrite Hlookup.
    erewrite M_bind_Ok; [|reflexivity].
    apply M_bind_Raise. eapply for_each_app_Raise; [exact Hlevels|].
    unfold evaluate_level.
    erewrite M_bind_Ok; [|exact Hexpected].
    apply M_bind_Raise. by eapply mount_observations_empty.
Qed.

Lemma mount_observations_empty_after_filtering_witness :
  fs scarce_world !! mock_uclust_fp = Some (BiomFile mock_observed_table) ∧
  (0 < 10)%Q ∧
  filter_table mock_observed_table 10 (Some 1%Z) (Some ["A"]) "taxonomy"
    = Ok (mkTable [] ["S1"]) ∧
  for_each [("mock-1", "gg", "rdp", "0.5", mock_rdp_fp)]
    (evaluate_table (H := example_collaborators) mock_lookup [1%Z] 10 (Some ["A"])
       "taxonomy" (dict_update default_param_ids ∅))
    ([], ∅) scarce_world = (Ok abundant_state, scarce_world) ∧
  mock_lookup !! "mock-1" ≫= (.!! "gg") = Some mock_expected_fp ∧
  mount_observations (H := example_collaborators) mock_expected_fp 0 1
    (Some ["A"]) "taxonomy" true true false scarce_world
  = (Ok mounted_expected_table, scarce_world) ∧
  mount_observations (H := example_collaborators) mock_uclust_fp 10 1 (Some ["A"])
    "taxonomy" true true true scarce_world
  = (Raise (ValueError ("Table is empty after filtering at "
                          ++ path_to_string mock_uclust_fp)), scarce_world) ∧
  compute_mock_results (H := example_collaborators)
    [("mock-1", "gg", "rdp", "0.5", mock_rdp_fp);
     ("mock-1", "gg", "uclust", "0.8:0.97:3", mock_uclust_fp);
     ("mock-1", "gg", "rdp", "0.5", mock_rdp_fp)]
    mock_lookup ["out"; "results.tsv"] [1%Z] 10%Q (Some ["A"]) "taxonomy" None scarce_world
  = (Raise (ValueError ("Table is empty after filtering at "
                          ++ path_to_string mock_uclust_fp)), scarce_world).
Proof.
  assert (Hfs : fs scarce_world !! mock_uclust_fp = Some (BiomFile mock_observed_table))
    by (vm_compute; reflexivity).
  assert (Hfilter : filter_table mock_observed_table 10 (Some 1%Z) (Some ["A"]) "taxonomy"
                    = Ok (mkTable [] ["S1"])) by (vm_compute; reflexivity).
  assert (Hbefore :
    for_each [("mock-1", "gg", "rdp", "0.5", mock_rdp_fp)]
      (evaluate_table (H := example_collaborators) mock_lookup [1%Z] 10 (Some ["A"])
         "taxonomy" (dict_update default_param_ids ∅))
      ([], ∅) scarce_world = (Ok abundant_state, scarce_world))
    by (vm_compute; reflexivity).
  assert (Hexpected :
    mount_observations (H := example_collaborators) mock_expected_fp 0 1
      (Some ["A"]) "taxonomy" true true false scarce_world
    = (Ok mounted_expected_table, scarce_world)) by (vm_compute; reflexivity).
  assert (Hlookup : mock_lookup !! "mock-1" ≫= (.!! "gg") = Some mock_expected_fp)
    by (vm_compute; reflexivity).
  destruct (mount_observations_empty_after_filtering (H := example_collaborators)
              mock_uclust_fp 10 1 ["A"] "taxonomy" scarce_world mock_observed_table
              (mkTable [] ["S1"]) Hfs eq_refl Hfilter eq_refl) as [Hmount Hrun].
  split; [exact Hfs|]. split; [reflexivity|]. split; [exact Hfilter|].
  split; [exact Hbefore|]. split; [exact Hlookup|]. split; [exact Hexpected|].
  split; [apply Hmount|].
  exact (Hrun [("mock-1", "gg", "rdp", "0.5", mock_rdp_fp)]
           [("mock-1", "gg", "rdp", "0.5", mock_rdp_fp)] [] []
           "mock-1" "gg" "uclust" "0.8:0.97:3" mock_lookup ["out"; "results.tsv"] None
           mock_expected_fp mounted_expected_table scarce_world abundant_state
           scarce_world [abundant_row] scarce_world Hbefore Hlookup eq_refl Hexpected).
Defined.


(** ** Reading a persisted results table back *)

Lemma glob_reads (start_dir : list string) (pattern : list (string → bool)) (w : World) :
  ∃ paths, glob start_dir pattern w = (Ok paths, w).
Proof. by eexists. Qed.

Lemma find_and_process_result_tables_reads (start_dir : list string) (w : World) :
  ∃ tables, find_and_process_result_tables start_dir w = (Ok tables, w).
Proof.
  unfold find_and_process_result_tables.
  destruct (glob_reads start_dir [star; star; star; star; table_star_biom] w) as [paths Hg].
  eexists. by erewrite M_bind_Ok.
Qed.

Lemma get_expected_tables_lookup_reads (start_dir : list string) (level : Z) (w : World) :
  ∃ lookup, get_expected_tables_lookup start_dir level w = (Ok lookup, w).
Proof.
  unfold get_expected_tables_lookup, find_and_process_expected_tables.
  eexists. erewrite M_bind_Ok; [reflexivity|]. by erewrite M_bind_Ok.
Qed.

Lemma seek_results_loop_reads (results_dirs : list (list string)) (w : World)
    (found : list (string * string * string * string * list string)) :
  Forall (λ d, exists_in w d = true) results_dirs →
  ∃ results,
    for_each results_dirs (λ results_dir results,
      found ← path_exists results_dir;
      if found : bool then
        tables ← find_and_process_result_tables results_dir;
        mret (results ++ tables)%list
      else
        raise (AssertionError ("Mock community result directory" ++ newline
                 ++ "            does not exist: " ++ path_to_string results_dir)))
      found w = (Ok results, w).
Proof.
  intros Hdirs. revert found.
  induction Hdirs as [|d dirs Hd _ IH]; intros found; simpl; [by eexists|].
  destruct (find_and_process_result_tables_reads d w) as [tables Ht].
  destruct (IH (found ++ tables)%list) as [results Hr].
  exists results. erewrite M_bind_Ok; [exact Hr|].
  erewrite M_bind_Ok; [|reflexivity]. rewrite Hd.
  by erewrite M_bind_Ok.
Qed.

Lemma seek_results_reads (results_dirs : list (list string)) (w : World) :
  Forall (λ d, exists_in w d = true) results_dirs →
  ∃ results, seek_results results_dirs w = (Ok results, w).
Proof. apply seek_results_loop_reads. Qed.

(** A missing results directory stops [seek_results] with an
    [AssertionError] before anything else is done. *)
Lemma seek_results_missing (results_dir : list string) (rest : list (list string))
    (w : World) :
  exists_in w results_dir = false →
  seek_results (results_dir :: rest) w
  = (Raise (AssertionError ("Mock community result directory" ++ newline
              ++ "            does not exist: " ++ path_to_string results_dir)), w).
Proof.
  intros Hd. unfold seek_results. apply for_each_Raise.
  erewrite M_bind_Ok; [|reflexivity]. by rewrite Hd.
Qed.

Lemma evaluate_results_reads_back `{Collaborators} (results_dirs : list (list string))
    (expected_results_dir results_fp : list string) (taxonomy_level_range : list Z)
    (min_count : Q) (taxa_to_keep : option (list string)) (md_key : string)
    (new_param_ids : option (gmap string (list string)))
    (subsample : bool) (size : Z) (w : World) :
  Forall (λ d, exists_in w d = true) results_dirs →
  exists_in w results_fp = true →
  evaluate_results results_dirs expected_results_dir results_fp taxonomy_level_range
    min_count taxa_to_keep md_key new_param_ids subsample size false w
  = ((from_csv results_fp w).1,
     mkWorld (fs w) (stdout w ++ reuse_notice results_fp)).
Proof.
  intros Hdirs Hfp. unfold evaluate_results.
  destruct (seek_results_reads results_dirs w Hdirs) as [results Hseek].
  erewrite M_bind_Ok; [|exact Hseek].
  destruct (get_expected_tables_lookup_reads expected_results_dir 6 w) as [lookup Hl].
  erewrite M_bind_Ok; [|exact Hl].
  erewrite M_bind_Ok; [|reflexivity]. rewrite Hfp. simpl.
  unfold mbind, M_bind, print, from_csv, reuse_notice. simpl.
  rewrite <- !app_assoc. simpl.
  by destruct (fs w !! results_fp) as [[]|].
Qed.

(** C8. When the results directories exist, the output path exists and
    [force] is false, [evaluate_results] does not recompute: it prints
    its notice and returns what [from_csv] reads at the output path (the
    persisted table, when the file holds one), whatever the results
    tables, levels and filters are, and it leaves every file as it is; a
    second run does the same. *)
Theorem evaluate_results_reuses_persisted `{Collaborators}
    (results_dirs : list (list string))
    (expected_results_dir results_fp : list string) (taxonomy_level_range : list Z)
    (min_count : Q) (taxa_to_keep : option (list string)) (md_key : string)
    (new_param_ids : option (gmap string (list string)))
    (subsample : bool) (size : Z) (w : World) :
  Forall (λ d, exists_in w d = true) results_dirs →
  exists_in w results_fp = true →
  let run := evaluate_results results_dirs expected_results_dir results_fp
               taxonomy_level_range min_count taxa_to_keep md_key new_param_ids
               subsample size false in
  run w = ((from_csv results_fp w).1,
           mkWorld (fs w) (stdout w ++ reuse_notice results_fp)) ∧
  (∀ df, fs w !! results_fp = Some (TsvFile df) → (run w).1 = Ok df) ∧
  fs (run w).2 = fs w ∧
  (run (run w).2).1 = (run w).1 ∧
  fs (run (run w).2).2 = fs w.
Proof.
  intros Hdirs Hfp run.
  assert (Hrun : ∀ w0, fs w0 = fs w →
            run w0 = ((from_csv results_fp w).1,
                      mkWorld (fs w) (stdout w0 ++ reuse_notice results_fp))).
  { intros w0 Hfs. unfold run. rewrite evaluate_results_reads_back.
    - unfold from_csv. cbv beta. rewrite Hfs.
      by destruct (fs w !! results_fp) as [[]|].
    - unfold exists_in in *. by rewrite Hfs.
    - unfold exists_in in *. by rewrite Hfs. }
  rewrite (Hrun w eq_refl). simpl. split; [done|]. split.
  - intros df Hdf. unfold from_csv. by rewrite Hdf.
  - split; [done|].
    by rewrite (Hrun (mkWorld (fs w) (stdout w ++ reuse_notice results_fp)) eq_refl).
Qed.

Lemma evaluate_results_reuses_persisted_witness :
  Forall (λ d, exists_in persisted_world d = true) [["results"]] ∧
  exists_in persisted_world ["out"; "results.tsv"] = true ∧
  (evaluate_results (H := example_collaborators) [["results"]] ["expected"]
     ["out"; "results.tsv"] [1%Z] 0%Q None "taxonomy" None false 10 false
     persisted_world).1 = Ok [persisted_row].
Proof.
  assert (Hdirs : Forall (λ d, exists_in persisted_world d = true) [["results"]])
    by (constructor; [vm_compute; reflexivity | constructor]).
  split; [exact Hdirs|]. split; [vm_compute; reflexivity|].
  destruct (evaluate_results_reuses_persisted (H := example_collaborators) [["results"]]
              ["expected"] ["out"; "results.tsv"] [1%Z] 0%Q None "taxonomy" None false 10
              persisted_world Hdirs)
    as (_ & Hdf & _); [vm_compute; reflexivity|].
  apply Hdf. vm_compute; reflexivity.
Defined.

(** ** Top parameters *)





Lemma Qle_bool_false (x y : Q) : Qle_bool x y = false → (y < x)%Q.
Proof.
  intros Hb. apply Qnot_le_lt. intros Hle. apply Qle_bool_iff in Hle. congruence.
Qed.

Lemma Qmax_cases (x y : Q) :
  (Qmax x y = x ∨ Qmax x y = y) ∧ (x <= Qmax x y)%Q ∧ (y <= Qmax x y)%Q.
Proof.
  unfold Qmax. destruct (Qle_bool x y) eqn:E.
  - apply Qle_bool_iff in E. split; [by right|]. split; [done | apply Qle_refl].
  - apply Qle_bool_false in E. split; [by left|].
    split; [apply Qle_refl | by apply Qlt_le_weak].
Qed.

(** [foldl Qmax] returns an element of the list that is above all. *)
Lemma foldl_Qmax_greatest (x : Q) (xs : list Q) :
  foldl Qmax x xs ∈ x :: xs ∧ ∀ y, y ∈ x :: xs → (y <= foldl Qmax x xs)%Q.
Proof.
  revert x. induction xs as [|a xs IH]; intros x; simpl.
  - split; [by left|]. intros y Hy. apply list_elem_of_singleton in Hy as ->.
    apply Qle_refl.
  - destruct (IH (Qmax x a)) as [Hin Hge].
    destruct (Qmax_cases x a) as (Hcase & Hx & Ha). split.
    + apply elem_of_cons in Hin as [Hin|Hin]; [|by do 2 right].
      rewrite Hin. destruct Hcase as [-> | ->]; [by left | by right; left].
    + intros y Hy. apply elem_of_cons in Hy as [->|Hy].
      * eapply Qle_trans; [exact Hx|]. apply Hge. by left.
      * apply elem_of_cons in Hy as [->|Hy].
        -- eapply Qle_trans; [exact Ha|]. apply Hge. by left.
        -- apply Hge. by right.
Qed.

(** [series_max] is a value of the series that no value exceeds. *)
Lemma series_max_greatest (values : list number) (m : Q) :
  series_max values = Some m →
  Some m ∈ values ∧ ∀ x, Some x ∈ values → (x <= m)%Q.
Proof.
  unfold series_max. destruct (dropna values) as [|x xs] eqn:E; [done|].
  intros [= <-]. destruct (foldl_Qmax_greatest x xs) as [Hin Hge].
  rewrite <- E in Hin, Hge. unfold dropna in Hin, Hge. split.
  - apply list_elem_of_omap in Hin as (o & Ho & Hid). simpl in Hid. by subst o.
  - intros y Hy. apply Hge. apply list_elem_of_omap. by exists (Some y).
Qed.

Lemma series_max_None (values : list number) :
  series_max values = None ↔ dropna values = [].
Proof. unfold series_max. by destruct (dropna values). Qed.







Lemma insert_sorted_Permutation (key : Row → number) (r : Row) (l : list Row) :
  insert_sorted key r l ≡ₚ r :: l.
Proof.
  induction l as [|r' l IH]; simpl; [done|].
  destruct (sorts_before (key r) (key r')); [done|].
  rewrite IH. apply perm_swap.
Qed.

Lemma sort_values_Permutation (key : Row → number) (df : list Row) :
  sort_values key df ≡ₚ df.
Proof.
  unfold sort_values. induction df as [|r df IH]; simpl; [done|].
  by rewrite insert_sorted_Permutation, IH.
Qed.

Lemma elem_of_unique (x : string) (l : list string) : x ∈ unique l ↔ x ∈ l.
Proof.
  induction l as [|a l IH]; simpl; [done|].
  rewrite !elem_of_cons, list_elem_of_filter, IH. split.
  - intros [->|[_ Hx]]; [by left | by right].
  - intros [->|Hx]; [by left|].
    destruct (decide (x = a)) as [->|Hne]; [by left | by right].
Qed.

(** Lookups in a dict filled by a loop of assignments *)
Lemma foldl_insert_lookup `{Countable K} {V} (f : K → V) (ks : list K)
    (m : gmap K V) (k : K) :
  foldl (λ m k, <[k := f k]> m) m ks !! k
  = if decide (k ∈ ks) then Some (f k) else m !! k.
Proof.
  revert m. induction ks as [|a ks IH]; intros m; simpl.
  - destruct (decide (k ∈ [])) as [Hin|_]; [by apply elem_of_nil in Hin | done].
  - rewrite IH.
    destruct (decide (k ∈ ks)) as [Hin|Hout], (decide (k ∈ a :: ks)) as [Hin'|Hout'].
    + done.
    + exfalso. apply Hout'. by right.
    + apply elem_of_cons in Hin' as [->|Hin']; [|done]. by rewrite lookup_insert_eq.
    + rewrite lookup_insert_ne; [done|]. intros ->. apply Hout'. by left.
Qed.

Lemma foldl_nested_insert_lookup {V} (g : string → string → V)
    (inner : string → list string) (outer : list string)
    (m : gmap (string * string) V) (d s : string) :
  d ∈ outer → s ∈ inner d →
  foldl (λ m d, foldl (λ m s, <[(d, s) := g d s]> m) m (inner d)) m outer !! (d, s)
  = Some (g d s).
Proof.
  intros Hd Hs.
  assert (Hflat : ∀ m : gmap (string * string) V,
    foldl (λ m d, foldl (λ m s, <[(d, s) := g d s]> m) m (inner d)) m outer
    = foldl (λ m k, <[k := g k.1 k.2]> m) m
        (outer ≫= λ d, (λ s, (d, s)) <$> inner d)).
  { clear. induction outer as [|a outer IH]; intros m; simpl; [done|].
    rewrite foldl_app, IH. f_equal. by rewrite foldl_fmap. }
  rewrite Hflat, (foldl_insert_lookup (λ k, g k.1 k.2)).
  destruct (decide ((d, s) ∈ outer ≫= λ d, (λ s, (d, s)) <$> inner d)) as [_|Hout];
    [done|].
  exfalso. apply Hout.
  apply list_elem_of_bind. exists d. split; [|done].
  apply list_elem_of_fmap. by exists s.
Qed.



(** * Further properties of the code *)

(** ** Errors of [get_observed_observation_ids] *)

Lemma get_value_by_ids_Raise (table : Table) (observation_id sample_id : string) (e : exn) :
  get_value_by_ids table observation_id sample_id = Raise e →
  ∃ id, e = UnknownIDError id.
Proof.
  unfold get_value_by_ids, index_observation, index_sample.
  destruct (index_of observation_id (observation_ids table)); simpl.
  - destruct (index_of sample_id (sample_ids table)); simpl; [done|].
    intros [= <-]. by eexists.
  - intros [= <-]. by eexists.
Qed.

Lemma observed_loop_Raise (table : Table) (sample_id : string) (ws_strip : bool)
    (ids acc : list string) (e : exn) :
  observed_loop table sample_id ws_strip ids acc = Raise e →
  ∃ id, e = UnknownIDError id.
Proof.
  revert acc. induction ids as [|id ids IH]; intros acc; simpl; [done|].
  destruct (get_value_by_ids table id sample_id) as [v|e'] eqn:Hv; simpl.
  - destruct (Qlt_bool 0 v); apply IH.
  - intros [= <-]. by eapply get_value_by_ids_Raise.
Qed.

Lemma get_observed_observation_ids_Raise (table : Table) (sample_id : option string)
    (ws_strip : bool) (e : exn) :
  get_observed_observation_ids table sample_id ws_strip = Raise e →
  e = IndexError ∨ ∃ id, e = UnknownIDError id.
Proof.
  unfold get_observed_observation_ids.
  destruct (default_sample_id table sample_id) as [sid|e'] eqn:Hd; simpl.
  - destruct (observed_loop table sid ws_strip (observation_ids table) []) as [acc|e'']
      eqn:Hl; simpl; [done|].
    intros [= <-]. right. by eapply observed_loop_Raise.
  - intros [= <-]. left. destruct sample_id; simpl in Hd; [done|].
    destruct (sample_ids table); [by injection Hd | done].
Qed.

(** ** Range and symmetry of precision, recall and F-measure *)

Lemma prf_of_sets_Ok (A E : gset string) : ∃ p r f, prf_of_sets A E = Ok (p, r, f).
Proof. unfold prf_of_sets. destruct (0 <? size (A ∩ E))%nat; by eexists _, _, _. Qed.

Lemma ratio_le_one (n m : nat) :
  (0 < n)%nat → (Q_of_nat n / Q_of_nat (n + m) <= 1)%Q.
Proof.
  intros Hn. apply Qle_shift_div_r; [apply Q_of_nat_pos; lia|].
  rewrite Qmult_1_l. unfold Q_of_nat, Qle. simpl. lia.
Qed.

Lemma f_measure_range (p r : Q) :
  (0 < p)%Q → (p <= 1)%Q → (0 < r)%Q → (r <= 1)%Q →
  (0 <= 2 * p * r / (p + r))%Q ∧ (2 * p * r / (p + r) <= 1)%Q.
Proof.
  intros Hp Hp1 Hr Hr1. assert (Hpr : (0 < p + r)%Q) by lra. split.
  - apply Qle_shift_div_l; [done|]. nra.
  - apply Qle_shift_div_r; [done|]. nra.
Qed.

Lemma prf_of_sets_range (A E : gset string) (p r f : Q) :
  prf_of_sets A E = Ok (p, r, f) →
  (0 <= p)%Q ∧ (p <= 1)%Q ∧ (0 <= r)%Q ∧ (r <= 1)%Q ∧ (0 <= f)%Q ∧ (f <= 1)%Q.
Proof.
  unfold prf_of_sets. destruct (0 <? size (A ∩ E))%nat eqn:Htp.
  - apply Nat.ltb_lt in Htp. intros [= <- <- <-].
    pose proof (ratio_pos _ (size (A ∖ E)) Htp) as Hp.
    pose proof (ratio_le_one _ (size (A ∖ E)) Htp) as Hp1.
    pose proof (ratio_pos _ (size (E ∖ A)) Htp) as Hr.
    pose proof (ratio_le_one _ (size (E ∖ A)) Htp) as Hr1.
    destruct (f_measure_range _ _ Hp Hp1 Hr Hr1) as [Hf Hf1].
    repeat split; try done; by apply Qlt_le_weak.
  - intros [= <- <- <-]. repeat split; done.
Qed.

Lemma compute_prf_cases (actual_table expected_table : Table)
    (actual_sample_id expected_sample_id : option string) :
  (∃ A E,
     get_observed_observation_ids actual_table actual_sample_id true = Ok A ∧
     get_observed_observation_ids expected_table expected_sample_id true = Ok E ∧
     compute_prf actual_table expected_table actual_sample_id expected_sample_id
       = prf_of_sets A E) ∨
  (∃ e, compute_prf actual_table expected_table actual_sample_id expected_sample_id
          = Raise e ∧ (e = IndexError ∨ ∃ id, e = UnknownIDError id)).
Proof.
  destruct (get_observed_observation_ids actual_table actual_sample_id true)
    as [A|e] eqn:HA.
  - destruct (get_observed_observation_ids expected_table expected_sample_id true)
      as [E|e] eqn:HE.
    + left. exists A, E. split; [done|]. split; [done|]. by apply compute_prf_sets.
    + right. exists e. unfold compute_prf. rewrite HA, bind_Ok, HE.
      split; [done|]. by eapply get_observed_observation_ids_Raise.
  - right. exists e. unfold compute_prf. rewrite HA.
    split; [done|]. by eapply get_observed_observation_ids_Raise.
Qed.

(** X1. [compute_prf] never raises [ZeroDivisionError], whatever the
    tables and sample ids are (its only errors are those of the id
    lookups), and the three numbers it returns lie between 0 and 1. *)
Theorem compute_prf_range (actual_table expected_table : Table)
    (actual_sample_id expected_sample_id : option string) :
  compute_prf actual_table expected_table actual_sample_id expected_sample_id
    ≠ Raise ZeroDivisionError ∧
  ∀ p r f,
    compute_prf actual_table expected_table actual_sample_id expected_sample_id
      = Ok (p, r, f) →
    (0 <= p)%Q ∧ (p <= 1)%Q ∧ (0 <= r)%Q ∧ (r <= 1)%Q ∧ (0 <= f)%Q ∧ (f <= 1)%Q.
Proof.
  destruct (compute_prf_cases actual_table expected_table actual_sample_id
              expected_sample_id) as [(A & E & _ & _ & ->)|(e & -> & He)].
  - split.
    + destruct (prf_of_sets_Ok A E) as (p & r & f & ->). done.
    + intros p r f. apply prf_of_sets_range.
  - split; [|done]. destruct He as [->|[id ->]]; done.
Qed.

Lemma compute_prf_range_witness :
  compute_prf prf_actual_table prf_expected_table None (Some "S1")
    = Ok ((1 # 2)%Q, (1 # 3)%Q, (12 # 30)%Q) ∧
  (0 <= 1 # 2)%Q ∧ (1 # 2 <= 1)%Q ∧ (0 <= 1 # 3)%Q ∧ (1 # 3 <= 1)%Q ∧
  (0 <= 12 # 30)%Q ∧ (12 # 30 <= 1)%Q.
Proof.
  assert (Hprf : compute_prf prf_actual_table prf_expected_table None (Some "S1")
                 = Ok ((1 # 2)%Q, (1 # 3)%Q, (12 # 30)%Q)) by (vm_compute; reflexivity).
  split; [exact Hprf|].
  apply (compute_prf_range prf_actual_table prf_expected_table None (Some "S1")).
  exact Hprf.
Defined.

(** X2. Exchanging the roles of the two tables exchanges precision and
    recall and keeps the F-measure. *)
Theorem compute_prf_swap (actual_table expected_table : Table)
    (actual_sample_id expected_sample_id : option string) (p r f : Q) :
  compute_prf actual_table expected_table actual_sample_id expected_sample_id
    = Ok (p, r, f) →
  ∃ f', compute_prf expected_table actual_table expected_sample_id actual_sample_id
          = Ok (r, p, f') ∧ (f' == f)%Q.
Proof.
  intros Hprf.
  destruct (compute_prf_cases actual_table expected_table actual_sample_id
              expected_sample_id) as [(A & E & HA & HE & Heq)|(e & Heq & _)];
    [|congruence].
  rewrite Heq in Hprf.
  rewrite (compute_prf_sets expected_table actual_table _ _ E A HE HA).
  unfold prf_of_sets in *. rewrite (comm_L (∩) E A).
  destruct (0 <? size (A ∩ E))%nat.
  - injection Hprf as <- <- <-. eexists. split; [reflexivity|].
    apply Qdiv_comp; ring.
  - injection Hprf as <- <- <-. by exists 0%Q.
Qed.

Lemma compute_prf_swap_witness :
  compute_prf prf_actual_table prf_expected_table None (Some "S1")
    = Ok ((1 # 2)%Q, (1 # 3)%Q, (12 # 30)%Q) ∧
  ∃ f', compute_prf prf_expected_table prf_actual_table (Some "S1") None
          = Ok ((1 # 3)%Q, (1 # 2)%Q, f') ∧ (f' == 12 # 30)%Q.
Proof.
  assert (Hprf : compute_prf prf_actual_table prf_expected_table None (Some "S1")
                 = Ok ((1 # 2)%Q, (1 # 3)%Q, (12 # 30)%Q)) by (vm_compute; reflexivity).
  split; [exact Hprf|].
  exact (compute_prf_swap prf_actual_table prf_expected_table None (Some "S1") _ _ _ Hprf).
Defined.

(** X3. The errors of [get_observed_observation_ids]: without a sample
    id, a table without samples gives [IndexError]; a sample id that the
    table does not know gives [UnknownIDError] as soon as the table has an
    observation, and the empty set when it has none. *)
Theorem get_observed_observation_ids_errors (table : Table) (sid : string)
    (ws_strip : bool) :
  (sample_ids table = [] →
   get_observed_observation_ids table None ws_strip = Raise IndexError) ∧
  (sid ∉ sample_ids table → observations table ≠ [] →
   get_observed_observation_ids table (Some sid) ws_strip = Raise (UnknownIDError sid)) ∧
  (observations table = [] →
   get_observed_observation_ids table (Some sid) ws_strip = Ok ∅).
Proof.
  unfold get_observed_observation_ids, observation_ids. split; [|split].
  - intros Hs. simpl. by rewrite Hs.
  - intros Hsid Hobs. simpl. destruct (observations table) as [|o obs] eqn:E; [done|].
    simpl. unfold get_value_by_ids, index_observation, index_sample, observation_ids.
    rewrite E. simpl. rewrite String.eqb_refl. simpl.
    by rewrite (index_of_None _ _ Hsid).
  - intros Hobs. simpl. by rewrite Hobs.
Qed.

Lemma get_observed_observation_ids_errors_witness :
  (sample_ids no_samples_table = [] ∧
   get_observed_observation_ids no_samples_table None true = Raise IndexError) ∧
  (("S9" ∉ sample_ids whitespace_table) ∧ observations whitespace_table ≠ [] ∧
   get_observed_observation_ids whitespace_table (Some "S9") true
     = Raise (UnknownIDError "S9")) ∧
  (observations no_observations_table = [] ∧
   get_observed_observation_ids no_observations_table (Some "S9") true = Ok ∅).
Proof.
  assert (Hs9 : "S9" ∉ sample_ids whitespace_table).
  { intros Hin. apply elem_of_cons in Hin as [?|Hin]; [done|].
    apply elem_of_cons in Hin as [?|Hin]; [done|]. by apply elem_of_nil in Hin. }
  split; [|split].
  - split; [reflexivity|].
    by apply (get_observed_observation_ids_errors no_samples_table "S9" true).
  - split; [exact Hs9|]. split; [done|].
    by apply (get_observed_observation_ids_errors whitespace_table "S9" true).
  - split; [reflexivity|].
    by apply (get_observed_observation_ids_errors no_observations_table "S9" true).
Defined.


(** ** The guard of the filter in [mount_observations] *)

Lemma mount_observations_unfiltered `{Collaborators} (table_fp : list string)
    (min_count : Q) (taxonomy_level : Z) (taxa_to_keep : option (list string))
    (md_key : string) (normalize clean_obs_ids filter_obs : bool) (w : World) :
  filter_obs && Qlt_bool 0 min_count && bool_decide (is_Some taxa_to_keep) = false →
  mount_observations table_fp min_count taxonomy_level taxa_to_keep md_key
    normalize clean_obs_ids filter_obs w
  = mount_observations table_fp 0 taxonomy_level taxa_to_keep md_key
      normalize clean_obs_ids false w.
Proof. intros Hguard. unfold mount_observations. by rewrite Hguard. Qed.

(** X5. [mount_observations] filters only when [filter_obs] is set, the
    minimum count is positive and an allowlist is given: without an
    allowlist the minimum count is not applied, whatever its value, and
    with a minimum count that is not positive the allowlist is not
    applied; in both cases the table is loaded as with [filter_obs]
    false. *)
Theorem mount_observations_filter_guard `{Collaborators} (table_fp : list string)
    (min_count : Q) (taxonomy_level : Z) (md_key : string)
    (normalize clean_obs_ids filter_obs : bool) (w : World) :
  mount_observations table_fp min_count taxonomy_level None md_key
    normalize clean_obs_ids filter_obs w
  = mount_observations table_fp 0 taxonomy_level None md_key
      normalize clean_obs_ids false w ∧
  ∀ taxa_to_keep,
    (min_count <= 0)%Q →
    mount_observations table_fp min_count taxonomy_level taxa_to_keep md_key
      normalize clean_obs_ids filter_obs w
    = mount_observations table_fp 0 taxonomy_level taxa_to_keep md_key
        normalize clean_obs_ids false w.
Proof.
  split.
  - apply mount_observations_unfiltered. by rewrite andb_false_r.
  - intros taxa_to_keep Hmin. apply mount_observations_unfiltered.
    assert (Hlt : Qlt_bool 0 min_count = false).
    { apply not_true_iff_false. rewrite Qlt_bool_iff. by apply Qle_not_lt. }
    rewrite Hlt. by rewrite andb_false_r.
Qed.

Lemma mount_observations_filter_guard_witness :
  (0 <= 0)%Q ∧
  mount_observations (H := example_collaborators) mock_uclust_fp 0 1 (Some ["B"])
    "taxonomy" true true true uclust_world
  = mount_observations (H := example_collaborators) mock_uclust_fp 0 1 (Some ["B"])
      "taxonomy" true true false uclust_world.
Proof.
  split; [apply Qle_refl|].
  apply (mount_observations_filter_guard (H := example_collaborators) mock_uclust_fp 0 1
           "taxonomy" true true true uclust_world).
  apply Qle_refl.
Defined.

(** ** A [TypeError] of the filter is reported and ignored *)

Lemma mount_observations_TypeError `{Collaborators} (table_fp : list string)
    (min_count : Q) (taxonomy_level : Z) (taxa : list string) (md_key : string)
    (normalize clean_obs_ids : bool) (w : World) (table : Table) (msg : string) :
  fs w !! table_fp = Some (BiomFile table) →
  (0 < min_count)%Q →
  filter_table table min_count (Some taxonomy_level) (Some taxa) md_key
    = Raise (TypeError msg) →
  is_empty table = false →
  mount_observations table_fp min_count taxonomy_level (Some taxa) md_key
    normalize clean_obs_ids true w
  = ((mount_observations table_fp min_count taxonomy_level (Some taxa) md_key
        normalize clean_obs_ids false w).1,
     mkWorld (fs w)
       (stdout w ++ ["Missing taxonomic information in table " ++ path_to_string table_fp])).
Proof.
  intros Hfs Hmin Hfilter Hempty. apply Qlt_bool_iff in Hmin.
  unfold mount_observations, mbind, M_bind, try_except, load_table, lift, print, raise,
    mret, M_ret.
  rewrite Hfs, Hmin, Hfilter. simpl. rewrite Hempty.
  destruct (table_collapse _ table) as [t|[]]; done.
Qed.

(** The predicate on an observation for which biom hands over a
    defaultdict: it returns, unless the observation has no taxonomy and
    its id does not start with the prefix; then it raises the
    [TypeError] of [';'.join(None)]. *)
Lemma filter_predicate_defaultdict (min_count : Q) (level : Z) (prefix md_key id_ : string)
    (data_vector : list Q) (d : gmap string md_value) :
  (∃ keep, filter_predicate min_count (Some level) (Some prefix) md_key data_vector
             id_ (Some d) = Ok keep) ∨
  filter_predicate min_count (Some level) (Some prefix) md_key data_vector id_ (Some d)
    = Raise (TypeError "can only join an iterable").
Proof.
  unfold filter_predicate, enough_levels, allowed_taxa, md_getitem, md_read. simpl.
  destruct (d !! md_key) as [[|s|ranks]|] eqn:Hd; simpl;
    rewrite ?Hd, ?lookup_insert_eq; simpl;
    destruct (str_startswith id_ prefix); simpl; eauto.
Qed.

Lemma filter_predicate_no_taxonomy (min_count : Q) (level : Z) (prefix md_key id_ : string)
    (data_vector : list Q) (d : gmap string md_value) :
  default MdNone (d !! md_key) = MdNone →
  str_startswith id_ prefix = false →
  filter_predicate min_count (Some level) (Some prefix) md_key data_vector id_ (Some d)
    = Raise (TypeError "can only join an iterable").
Proof.
  intros Hd Hid.
  unfold filter_predicate, enough_levels, allowed_taxa, md_getitem, md_read. simpl.
  rewrite Hd, Hid. simpl.
  destruct (d !! md_key) as [v|] eqn:Hlookup; simpl in *.
  - rewrite Hlookup. simpl. by rewrite Hd.
  - by rewrite lookup_insert_eq.
Qed.

Lemma filter_observations_Raise (f : Observation → result bool) (obs : list Observation)
    (e : exn) :
  (∀ o, o ∈ obs → (∃ keep, f o = Ok keep) ∨ f o = Raise e) →
  (∃ o, o ∈ obs ∧ f o = Raise e) →
  filter_observations f obs = Raise e.
Proof.
  induction obs as [|o obs IH]; intros Hall (bad & Hbad & Hraise); simpl.
  { by apply elem_of_nil in Hbad. }
  destruct (Hall o) as [[keep Hkeep]|Ho]; [by left| |by rewrite Ho].
  rewrite Hkeep, bind_Ok.
  apply elem_of_cons in Hbad as [->|Hbad]; [congruence|].
  rewrite IH; [done| |by exists bad].
  intros o' Ho'. apply Hall. by right.
Qed.

(** X6. In a table in which some observation has metadata, an
    observation without taxonomy (no metadata, no entry under [md_key],
    or the entry [None]) whose id does not start with the joined
    allowlist makes the predicate of the filter raise the [TypeError] of
    [';'.join(None)]; [mount_observations] then prints "Missing
    taxonomic information in table <path>" and goes on with the table as
    loaded: the result is that of a call with [filter_obs] false, so
    nothing is filtered, also not the observations that have a
    taxonomy. *)
Theorem mount_observations_ignores_TypeError `{Collaborators} (table_fp : list string)
    (min_count : Q) (taxonomy_level : Z) (taxa : list string) (md_key : string)
    (normalize clean_obs_ids : bool) (w : World) (table : Table) :
  fs w !! table_fp = Some (BiomFile table) →
  (0 < min_count)%Q →
  sample_ids table ≠ [] →
  (∃ o, o ∈ observations table ∧ is_Some (obs_metadata o)) →
  (∃ o, o ∈ observations table ∧
        default MdNone (default ∅ (obs_metadata o) !! md_key) = MdNone ∧
        str_startswith (obs_id o) (str_join ";" taxa) = false) →
  filter_table table min_count (Some taxonomy_level) (Some taxa) md_key
    = Raise (TypeError "can only join an iterable") ∧
  mount_observations table_fp min_count taxonomy_level (Some taxa) md_key
    normalize clean_obs_ids true w
  = ((mount_observations table_fp min_count taxonomy_level (Some taxa) md_key
        normalize clean_obs_ids false w).1,
     mkWorld (fs w)
       (stdout w ++ ["Missing taxonomic information in table " ++ path_to_string table_fp])).
Proof.
  intros Hfs Hmin Hsamples (o1 & Ho1 & Hmd1) (bad & Hbad & Hnone & Hid).
  assert (Hhanded : ∀ o, handed_metadata table o = Some (default ∅ (obs_metadata o))).
  { intros o. unfold handed_metadata.
    rewrite (existsb_elem_of has_metadata _ o1 Ho1); [done|].
    unfold has_metadata. by destruct Hmd1 as [d ->]. }
  assert (Hfilter : filter_table table min_count (Some taxonomy_level) (Some taxa) md_key
                    = Raise (TypeError "can only join an iterable")).
  { unfold filter_table, table_filter, joined_taxa_to_keep. simpl.
    rewrite (filter_observations_Raise _ _ (TypeError "can only join an iterable"));
      [done| |].
    - intros o _. rewrite Hhanded. apply filter_predicate_defaultdict.
    - exists bad. split; [done|]. rewrite Hhanded.
      by apply filter_predicate_no_taxonomy. }
  split; [exact Hfilter|].
  eapply mount_observations_TypeError; [done..|].
  unfold is_empty. destruct (observations table); [by apply elem_of_nil in Hbad|].
  by destruct (sample_ids table).
Qed.

Lemma mount_observations_ignores_TypeError_witness :
  fs (mkWorld {[ ["t.biom"] := BiomFile missing_metadata_table ]} []) !! ["t.biom"]
    = Some (BiomFile missing_metadata_table) ∧
  (0 < 25)%Q ∧
  sample_ids missing_metadata_table ≠ [] ∧
  (∃ o, o ∈ observations missing_metadata_table ∧ is_Some (obs_metadata o)) ∧
  (∃ o, o ∈ observations missing_metadata_table ∧
        default MdNone (default ∅ (obs_metadata o) !! "taxonomy") = MdNone ∧
        str_startswith (obs_id o) (str_join ";" ["A"]) = false) ∧
  filter_table missing_metadata_table 25 (Some 1%Z) (Some ["A"]) "taxonomy"
    = Raise (TypeError "can only join an iterable") ∧
  stdout (mount_observations (H := example_collaborators) ["t.biom"] 25 1 (Some ["A"])
            "taxonomy" true true true
            (mkWorld {[ ["t.biom"] := BiomFile missing_metadata_table ]} [])).2
  = ["Missing taxonomic information in table t.biom"].
Proof.
  assert (Hmd : ∃ o, o ∈ observations missing_metadata_table ∧ is_Some (obs_metadata o)).
  { eexists. split; [by left|]. by eexists. }
  assert (Hbad : ∃ o, o ∈ observations missing_metadata_table ∧
        default MdNone (default ∅ (obs_metadata o) !! "taxonomy") = MdNone ∧
        str_startswith (obs_id o) (str_join ";" ["A"]) = false).
  { eexists. split; [right; by left|]. split; reflexivity. }
  destruct (mount_observations_ignores_TypeError (H := example_collaborators) ["t.biom"]
              25 1 ["A"] "taxonomy" true true
              (mkWorld {[ ["t.biom"] := BiomFile missing_metadata_table ]} [])
              missing_metadata_table) as [Hfilter Hmount];
    [vm_compute; reflexivity | reflexivity | discriminate | exact Hmd | exact Hbad |].
  split; [vm_compute; reflexivity|]. split; [reflexivity|]. split; [discriminate|].
  split; [exact Hmd|]. split; [exact Hbad|]. split; [exact Hfilter|].
  rewrite Hmount. reflexivity.
Defined.

(** ** Which computations write files *)

Lemma reads_only_mret {A} (a : A) : reads_only (mret a : M A).
Proof. by intros w. Qed.

Lemma reads_only_raise {A} (e : exn) : reads_only (raise e : M A).
Proof. by intros w. Qed.

Lemma reads_only_lift {A} (r : result A) : reads_only (lift r).
Proof. by intros w. Qed.

Lemma reads_only_print (line : string) : reads_only (print line).
Proof. by intros w. Qed.

Lemma reads_only_load_table (table_fp : list string) : reads_only (load_table table_fp).
Proof. intros w. unfold load_table. by destruct (fs w !! table_fp) as [[]|]. Qed.

Lemma reads_only_path_exists (p : list string) : reads_only (path_exists p).
Proof. by intros w. Qed.

Lemma reads_only_bind {A B} (m : M A) (f : A → M B) :
  reads_only m → (∀ a, reads_only (f a)) → reads_only (m ≫= f).
Proof.
  intros Hm Hf w. unfold mbind, M_bind. specialize (Hm w).
  destruct (m w) as [[a|e] w1]; simpl in *; [|done].
  by rewrite (Hf a w1).
Qed.

Lemma reads_only_try_except {A} (m : M A) (handler : exn → M A) :
  reads_only m → (∀ e, reads_only (handler e)) → reads_only (try_except m handler).
Proof.
  intros Hm Hh w. unfold try_except. specialize (Hm w).
  destruct (m w) as [[a|e] w1]; simpl in *; [done|].
  by rewrite (Hh e w1).
Qed.

Lemma reads_only_for_each {A S} (xs : list A) (body : A → S → M S) (s : S) :
  (∀ x s, reads_only (body x s)) → reads_only (for_each xs body s).
Proof.
  intros Hbody. revert s. induction xs as [|x xs IH]; intros s; simpl.
  - apply reads_only_mret.
  - apply reads_only_bind; [apply Hbody | apply IH].
Qed.

Ltac reads_only_step :=
  first
    [ apply reads_only_mret | apply reads_only_raise | apply reads_only_lift
    | apply reads_only_print | apply reads_only_load_table
    | apply reads_only_path_exists
    | apply reads_only_bind | apply reads_only_try_except | apply reads_only_for_each
    | progress intros
    | match goal with
      | |- reads_only (match ?x with _ => _ end) => destruct x
      | |- reads_only (if ?b then _ else _) => destruct b
      end ].

Lemma reads_only_mount_observations `{Collaborators} (table_fp : list string)
    (min_count : Q) (taxonomy_level : Z) (taxa_to_keep : option (list string))
    (md_key : string) (normalize clean_obs_ids filter_obs : bool) :
  reads_only (mount_observations table_fp min_count taxonomy_level taxa_to_keep md_key
                normalize clean_obs_ids filter_obs).
Proof. unfold mount_observations. repeat reads_only_step. Qed.

Lemma reads_only_evaluate_sample `{Collaborators}
    (dataset_id reference_id method_id params : string) (taxonomy_level : Z)
    (actual_table expected_table : Table) (sample_id : string) (results : list Row) :
  reads_only (evaluate_sample dataset_id reference_id method_id params taxonomy_level
                actual_table expected_table sample_id results).
Proof. unfold evaluate_sample. repeat reads_only_step. Qed.

Lemma compute_mock_results_fs `{Collaborators}
    (result_tables : list (string * string * string * string * list string))
    (expected_table_lookup : gmap string (gmap string (list string)))
    (results_fp : list string) (taxonomy_level_range : list Z) (min_count : Q)
    (taxa_to_keep : option (list string)) (md_key : string)
    (new_param_ids : option (gmap string (list string))) (w : World) :
  let run := compute_mock_results result_tables expected_table_lookup results_fp
               taxonomy_level_range min_count taxa_to_keep md_key new_param_ids w in
  match run.1 with
  | Ok result => fs run.2 = <[results_fp := TsvFile result]> (fs w)
  | Raise _ => fs run.2 = fs w
  end.
Proof.
  unfold compute_mock_results.
  match goal with
  | |- context [for_each result_tables ?body ?s] =>
      set (loop := for_each result_tables body s)
  end.
  assert (Hloop : reads_only loop).
  { unfold loop. apply reads_only_for_each. intros [[[[d r] m] p] fp] [rs pd].
    repeat first [ apply reads_only_mount_observations
                 | apply reads_only_evaluate_sample | reads_only_step ]. }
  simpl. unfold mbind, M_bind, lift, to_csv. specialize (Hloop w).
  destruct (loop w) as [[[rs pd]|e] w1]; simpl in *; [|done].
  destruct (merge_param_data rs pd) as [result|e]; simpl; [|done].
  destruct (directory_exists w1 results_fp); simpl; [|done].
  by rewrite Hloop.
Qed.

(** X7. [compute_mock_results] writes one file, and only at the end of
    a run without error: after a run that returns a table the files are
    those of before with the returned table stored at [results_fp]; after
    a run that raises, every file is as it was. *)
Theorem compute_mock_results_writes `{Collaborators}
    (result_tables : list (string * string * string * string * list string))
    (expected_table_lookup : gmap string (gmap string (list string)))
    (results_fp : list string) (taxonomy_level_range : list Z) (min_count : Q)
    (taxa_to_keep : option (list string)) (md_key : string)
    (new_param_ids : option (gmap string (list string))) (w : World) :
  let run := compute_mock_results result_tables expected_table_lookup results_fp
               taxonomy_level_range min_count taxa_to_keep md_key new_param_ids w in
  match run.1 with
  | Ok result => fs run.2 = <[results_fp := TsvFile result]> (fs w)
  | Raise _ => fs run.2 = fs w
  end.
Proof. apply compute_mock_results_fs. Qed.


(** ** A missing results directory *)

Lemma seek_results_loop_missing (pre : list (list string)) (missing : list string)
    (rest : list (list string)) (w : World)
    (found : list (string * string * string * string * list string)) :
  Forall (λ d, exists_in w d = true) pre →
  exists_in w missing = false →
  for_each (pre ++ missing :: rest) (λ results_dir results,
    found ← path_exists results_dir;
    if found : bool then
      tables ← find_and_process_result_tables results_dir;
      mret (results ++ tables)%list
    else
      raise (AssertionError ("Mock community result directory" ++ newline
               ++ "            does not exist: " ++ path_to_string results_dir)))
    found w
  = (Raise (AssertionError ("Mock community result directory" ++ newline
              ++ "            does not exist: " ++ path_to_string missing)), w).
Proof.
  intros Hpre Hmissing. revert found.
  induction Hpre as [|d pre Hd _ IH]; intros found.
  - apply for_each_Raise. erewrite M_bind_Ok; [|reflexivity]. by rewrite Hmissing.
  - cbn [app for_each].
    destruct (find_and_process_result_tables_reads d w) as [tables Ht].
    erewrite M_bind_Ok; [apply IH|].
    erewrite M_bind_Ok; [|reflexivity]. rewrite Hd. by erewrite M_bind_Ok.
Qed.

(** X9. [evaluate_results] checks the results directories before
    anything else: when one of them does not exist, the run ends with an
    [AssertionError] that names the first missing directory, also with
    [force] set and also when a results file exists; nothing is printed
    and no file is written. *)
Theorem evaluate_results_missing_directory `{Collaborators}
    (pre : list (list string)) (missing : list string) (rest : list (list string))
    (expected_results_dir results_fp : list string) (taxonomy_level_range : list Z)
    (min_count : Q) (taxa_to_keep : option (list string)) (md_key : string)
    (new_param_ids : option (gmap string (list string)))
    (subsample : bool) (size : Z) (force : bool) (w : World) :
  Forall (λ d, exists_in w d = true) pre →
  exists_in w missing = false →
  evaluate_results (pre ++ missing :: rest) expected_results_dir results_fp
    taxonomy_level_range min_count taxa_to_keep md_key new_param_ids subsample size
    force w
  = (Raise (AssertionError ("Mock community result directory" ++ newline
              ++ "            does not exist: " ++ path_to_string missing)), w).
Proof.
  intros Hpre Hmissing. unfold evaluate_results.
  apply M_bind_Raise. by apply seek_results_loop_missing.
Qed.

Lemma evaluate_results_missing_directory_witness :
  Forall (λ d, exists_in persisted_world d = true) [["results"]] ∧
  exists_in persisted_world ["more_results"] = false ∧
  outcome (evaluate_results (H := example_collaborators)
             ([["results"]] ++ ["more_results"] :: []) ["expected"]
             ["out"; "results.tsv"] [1%Z] 0%Q None "taxonomy" None false 10 true
             persisted_world)
  = Raise (AssertionError ("Mock community result directory" ++ newline
             ++ "            does not exist: " ++ path_to_string ["more_results"])).
Proof.
  assert (Hpre : Forall (λ d, exists_in persisted_world d = true) [["results"]])
    by (constructor; [vm_compute; reflexivity | constructor]).
  assert (Hmissing : exists_in persisted_world ["more_results"] = false)
    by (vm_compute; reflexivity).
  split; [exact Hpre|]. split; [exact Hmissing|].
  unfold outcome.
  by rewrite (evaluate_results_missing_directory (H := example_collaborators)
                [["results"]] ["more_results"] [] ["expected"] ["out"; "results.tsv"]
                [1%Z] 0%Q None "taxonomy" None false 10 true persisted_world Hpre Hmissing).
Defined.

(** ** Result locator *)







(** ** Lookup of the expected tables *)







(** ** Names and tokens of the parameter data *)

Lemma foldl_insert_zip_other (names tokens : list string)
    (m : gmap string (list pyval)) (k : string) :
  k ∉ names →
  foldl (λ d kv, <[kv.1 := decode_token kv.2]> d) m (zip names tokens) !! k = m !! k.
Proof.
  revert tokens m. induction names as [|n names IH]; intros tokens m Hk; [done|].
  destruct tokens as [|t tokens]; [done|]. simpl.
  rewrite IH by (intros ?; apply Hk; by right).
  apply lookup_insert_ne. intros ->. apply Hk. by left.
Qed.

Lemma foldl_insert_zip_lookup (names tokens : list string)
    (m : gmap string (list pyval)) (i : nat) (k : string) :
  NoDup names → names !! i = Some k →
  foldl (λ d kv, <[kv.1 := decode_token kv.2]> d) m (zip names tokens) !! k
  = match tokens !! i with
    | Some v => Some (decode_token v)
    | None => m !! k
    end.
Proof.
  revert tokens m i. induction names as [|n names IH]; intros tokens m i Hnodup Hi;
    [done|].
  apply NoDup_cons in Hnodup as [Hn Hnodup].
  destruct tokens as [|t tokens]; [by destruct i|]. simpl.
  destruct i as [|i]; simpl in *.
  - injection Hi as ->. rewrite foldl_insert_zip_other by done. apply lookup_insert_eq.
  - rewrite (IH tokens _ i Hnodup Hi). destruct (tokens !! i); [done|].
    apply lookup_insert_ne. intros ->. apply Hn. by eapply list_elem_of_lookup_2.
Qed.

(** X12. With distinct parameter names, [record_parameter_data] binds
    the i-th name to the decoding of the i-th [':']-separated token; a
    name without a token is not bound at all, a token without a name is
    dropped, and nothing else is bound. *)
Theorem record_parameter_data_zip (names : list string) (params : string) :
  NoDup names →
  (∀ i k, names !! i = Some k →
     record_parameter_data names params !! k
     = decode_token <$> (str_split ":" params !! i)) ∧
  (∀ k, k ∉ names → record_parameter_data names params !! k = None).
Proof.
  intros Hnodup. unfold record_parameter_data. split.
  - intros i k Hi. rewrite (foldl_insert_zip_lookup _ _ _ i k Hnodup Hi).
    by destruct (str_split ":" params !! i).
  - intros k Hk. by rewrite foldl_insert_zip_other.
Qed.

Lemma record_parameter_data_zip_witness :
  NoDup ["min consensus fraction"; "similarity"; "max accepts"] ∧
  record_parameter_data ["min consensus fraction"; "similarity"; "max accepts"]
    "0.51:0.9" !! "max accepts" = None ∧
  record_parameter_data ["min consensus fraction"; "similarity"; "max accepts"]
    "0.51:0.9" !! "similarity" = decode_token <$> (str_split ":" "0.51:0.9" !! 1%nat).
Proof.
  assert (Hnodup : NoDup ["min consensus fraction"; "similarity"; "max accepts"]).
  { compute_done. }
  split; [exact Hnodup|].
  destruct (record_parameter_data_zip
              ["min consensus fraction"; "similarity"; "max accepts"] "0.51:0.9" Hnodup)
    as [Hbound _].
  split.
  - rewrite (Hbound 2%nat "max accepts" eq_refl). reflexivity.
  - exact (Hbound 1%nat "similarity" eq_refl).
Defined.

(** ** The best row and the empty cell of the top parameters *)

Lemma get_sample_to_top_params_lookup (df : list Row) (metric : string)
    (key : Row → number) (dataset sid method : string) :
  column metric = Ok key →
  (∃ r, r ∈ df ∧ Dataset r = dataset ∧ SampleID r = sid) →
  (∃ r, r ∈ df ∧ Method r = method) →
  top_parameters (get_sample_to_top_params df metric) dataset sid method
  = Some (top_params key
            (filter (λ r, SampleID r = sid)
               (filter (λ r, Dataset r = dataset) (sort_values key df))) method).
Proof.
  intros Hcol (rd & Hrd & Hrd_d & Hrd_s) (rm & Hrm & Hrm_m).
  unfold get_sample_to_top_params. rewrite Hcol, bind_Ok.
  set (sorted_df := sort_values key df).
  assert (Hsorted : sorted_df ≡ₚ df) by apply sort_values_Permutation.
  set (methods := unique (Method <$> sorted_df)).
  set (inner := λ d, unique (SampleID <$> filter (λ r, Dataset r = d) sorted_df)).
  set (g := λ d s,
         foldl (λ (current_results : gmap string (list string)) method,
                  <[method := top_params key
                      (filter (λ r, SampleID r = s)
                         (filter (λ r, Dataset r = d) sorted_df)) method]> current_results)
           ∅ methods).
  assert (Hd : dataset ∈ unique (Dataset <$> sorted_df)).
  { apply elem_of_unique, list_elem_of_fmap. exists rd. by rewrite Hsorted. }
  assert (Hs : sid ∈ inner dataset).
  { apply elem_of_unique, list_elem_of_fmap. exists rd. split; [done|].
    apply list_elem_of_filter. by rewrite Hsorted. }
  assert (Hm : method ∈ methods).
  { apply elem_of_unique, list_elem_of_fmap. exists rm. by rewrite Hsorted. }
  pose proof (foldl_nested_insert_lookup g inner _ ∅ dataset sid Hd Hs) as Hlook.
  unfold top_parameters.
  match goal with
  | |- ?X ≫= _ = _ =>
      replace X with (Some (g dataset sid)) by (symmetry; exact Hlook)
  end.
  simpl. unfold g.
  rewrite (foldl_insert_lookup
             (λ method, top_params key
                (filter (λ r, SampleID r = sid)
                   (filter (λ r, Dataset r = dataset) sorted_df)) method)).
  by destruct (decide (method ∈ methods)).
Qed.

Lemma Qsum_nonneg (l : list Q) : Forall (λ x, (0 <= x)%Q) l → (0 <= Qsum l)%Q.
Proof.
  induction 1 as [|x l Hx _ IH]; simpl; [apply Qle_refl|].
  rewrite <- (Qplus_0_l 0). by apply Qplus_le_compat.
Qed.

Lemma series_mad_nonneg (values : list number) (a : Q) :
  series_mad values = Some a → (0 <= a)%Q.
Proof.
  unfold series_mad. destruct (dropna values) as [|x xs]; [done|].
  remember (x :: xs) as ys eqn:Hys. intros Ha. apply (inj Some) in Ha.
  rewrite <- Ha. unfold Qmean at 1.
  apply Qle_shift_div_l.
  - apply Q_of_nat_pos. rewrite length_fmap, Hys. simpl. lia.
  - rewrite Qmult_0_l. apply Qsum_nonneg, Forall_fmap, Forall_forall.
    intros y _. apply Qabs_nonneg.
Qed.

Lemma series_mad_Some (values : list number) (m : Q) :
  series_max values = Some m → ∃ a, series_mad values = Some a.
Proof.
  unfold series_max, series_mad. destruct (dropna values); [done|]. by eexists.
Qed.

(** The parameters of a row with the maximum are among the top
    parameters. *)
Lemma top_params_best (key : Row → number) (rows : list Row) (method : string) (mx : Q) :
  series_max (key <$> filter (λ r, Method r = method) rows) = Some mx →
  ∃ best,
    best ∈ rows ∧ Method best = method ∧ key best = Some mx ∧
    Parameters best ∈ top_params key rows method.
Proof.
  intros Hmax. destruct (series_max_greatest _ _ Hmax) as [Hin _].
  apply list_elem_of_fmap in Hin as (best & Hkey & Hbest).
  pose proof Hbest as Hbest'. apply list_elem_of_filter in Hbest' as [Hm Hrows].
  exists best. split; [done|]. split; [done|]. split; [done|].
  unfold top_params. apply list_elem_of_fmap. exists best. split; [done|].
  apply list_elem_of_filter. split; [|done].
  rewrite Hmax, <- Hkey. destruct (series_mad_Some _ _ Hmax) as [a Ha].
  rewrite Ha. simpl. apply Qle_bool_iff.
  pose proof (series_mad_nonneg _ _ Ha). lra.
Qed.

(** X13. When a method has a row with a number (not NaN) for the metric
    in a dataset and sample, its list of top parameters is not empty: it
    contains the parameters of a row of the method, for that dataset and
    sample, whose metric is the maximum. *)
Theorem get_sample_to_top_params_best (df : list Row) (metric : string)
    (key : Row → number) (dataset sid method : string) :
  column metric = Ok key →
  (∃ r x, r ∈ method_rows df dataset sid method ∧ key r = Some x) →
  ∃ params best mx,
    top_parameters (get_sample_to_top_params df metric) dataset sid method
      = Some params ∧
    best ∈ method_rows df dataset sid method ∧
    key best = Some mx ∧
    (∀ r x, r ∈ method_rows df dataset sid method → key r = Some x → (x <= mx)%Q) ∧
    Parameters best ∈ params.
Proof.
  intros Hcol (r0 & x0 & Hr0 & Hx0).
  assert (Hr0' := Hr0). unfold method_rows in Hr0'.
  apply list_elem_of_filter in Hr0' as [Hm0 Hr0'].
  apply list_elem_of_filter in Hr0' as [Hs0 Hr0'].
  apply list_elem_of_filter in Hr0' as [Hd0 Hr0'].
  rewrite (get_sample_to_top_params_lookup df metric key dataset sid method Hcol);
    [|by exists r0|by exists r0].
  set (sorted_rows := filter (λ r, SampleID r = sid)
                        (filter (λ r, Dataset r = dataset) (sort_values key df))).
  assert (Hperm : filter (λ r, Method r = method) sorted_rows
                  ≡ₚ method_rows df dataset sid method).
  { unfold sorted_rows, method_rows. by rewrite sort_values_Permutation. }
  destruct (series_max (key <$> filter (λ r, Method r = method) sorted_rows))
    as [mx|] eqn:Hmax.
  - destruct (top_params_best key sorted_rows method mx Hmax)
      as (best & Hbest & Hbm & Hbk & Hbp).
    destruct (series_max_greatest _ _ Hmax) as [_ Hge].
    eexists _, best, mx. split; [reflexivity|]. split.
    { rewrite <- Hperm. by apply list_elem_of_filter. }
    split; [done|]. split; [|done].
    intros r x Hr Hx. apply Hge. apply list_elem_of_fmap. exists r.
    split; [done|]. by rewrite Hperm.
  - exfalso. apply series_max_None in Hmax.
    assert (Hin : x0 ∈ dropna (key <$> filter (λ r, Method r = method) sorted_rows)).
    { apply list_elem_of_omap. exists (Some x0). split; [|done].
      apply list_elem_of_fmap. exists r0. split; [done|]. by rewrite Hperm. }
    rewrite Hmax in Hin. by apply elem_of_nil in Hin.
Qed.

Lemma get_sample_to_top_params_best_witness :
  column "F-measure" = Ok F_measure ∧
  (∃ r x, r ∈ method_rows scores_df "mock-1" "S1" "rdp" ∧ F_measure r = Some x) ∧
  ∃ params best mx,
    top_parameters (get_sample_to_top_params scores_df "F-measure") "mock-1" "S1" "rdp"
      = Some params ∧
    best ∈ method_rows scores_df "mock-1" "S1" "rdp" ∧
    F_measure best = Some mx ∧
    (∀ r x, r ∈ method_rows scores_df "mock-1" "S1" "rdp" →
            F_measure r = Some x → (x <= mx)%Q) ∧
    Parameters best ∈ params.
Proof.
  assert (Hrow : ∃ r x, r ∈ method_rows scores_df "mock-1" "S1" "rdp"
                        ∧ F_measure r = Some x).
  { exists (scored_row "a" (85 # 100)%Q), (85 # 100)%Q. split; [|done]. by left. }
  split; [reflexivity|]. split; [exact Hrow|].
  exact (get_sample_to_top_params_best scores_df "F-measure" F_measure
           "mock-1" "S1" "rdp" eq_refl Hrow).
Defined.

(** X14. A method of the table that has no row for a dataset and sample
    of the table still gets a cell for them: the empty list. *)
Theorem get_sample_to_top_params_no_rows (df : list Row) (metric : string)
    (key : Row → number) (dataset sid method : string) :
  column metric = Ok key →
  (∃ r, r ∈ df ∧ Dataset r = dataset ∧ SampleID r = sid) →
  (∃ r, r ∈ df ∧ Method r = method) →
  method_rows df dataset sid method = [] →
  top_parameters (get_sample_to_top_params df metric) dataset sid method = Some [].
Proof.
  intros Hcol Hds Hm Hrows.
  rewrite (get_sample_to_top_params_lookup df metric key dataset sid method Hcol Hds Hm).
  f_equal. unfold top_params.
  assert (Hperm : filter (λ r, Method r = method)
                    (filter (λ r, SampleID r = sid)
                       (filter (λ r, Dataset r = dataset) (sort_values key df)))
                  ≡ₚ method_rows df dataset sid method).
  { unfold method_rows. by rewrite sort_values_Permutation. }
  rewrite Hrows in Hperm. apply Permutation_nil_r in Hperm. by rewrite Hperm.
Qed.

Lemma get_sample_to_top_params_no_rows_witness :
  column "Precision" = Ok Precision ∧
  (∃ r, r ∈ two_sample_df ∧ Dataset r = "mock-1" ∧ SampleID r = "S2") ∧
  (∃ r, r ∈ two_sample_df ∧ Method r = "rdp") ∧
  method_rows two_sample_df "mock-1" "S2" "rdp" = [] ∧
  top_parameters (get_sample_to_top_params two_sample_df "Precision") "mock-1" "S2" "rdp"
    = Some [].
Proof.
  assert (Hds : ∃ r, r ∈ two_sample_df ∧ Dataset r = "mock-1" ∧ SampleID r = "S2").
  { eexists. split; [right; left|]; done. }
  assert (Hm : ∃ r, r ∈ two_sample_df ∧ Method r = "rdp").
  { eexists. split; [left|]; done. }
  split; [reflexivity|]. split; [exact Hds|]. split; [exact Hm|].
  split; [reflexivity|].
  exact (get_sample_to_top_params_no_rows two_sample_df "Precision" Precision
           "mock-1" "S2" "rdp" eq_refl Hds Hm eq_refl).
Defined.

(** ** One row per method: [_is_first] and [method_by_dataset] *)

Lemma length_is_first_loop (observed : gset string) (values : list string) :
  length (is_first_loop observed values) = length values.
Proof.
  revert observed. induction values as [|e rest IH]; intros observed; simpl; [done|].
  by rewrite IH.
Qed.

Lemma is_first_loop_lookup (observed : gset string) (values : list string)
    (i : nat) (e : string) :
  values !! i = Some e →
  is_first_loop observed values !! i
  = Some (bool_decide ((e ∉ observed) ∧ (e ∉ take i values))).
Proof.
  revert observed i. induction values as [|a rest IH]; intros observed i; [done|].
  destruct i as [|i]; simpl.
  - intros [= ->]. f_equal. apply bool_decide_ext. split; [|by intros [? _]].
    intros Hnew. split; [done|]. apply not_elem_of_nil.
  - intros He. rewrite (IH _ _ He). f_equal. apply bool_decide_ext.
    rewrite not_elem_of_union, not_elem_of_singleton, not_elem_of_cons. tauto.
Qed.

(** X15. [_is_first] returns one flag for every row, and the flag of a
    row is set exactly when no earlier row has the same value in the
    tested column. *)
Theorem is_first_flags (df : list Row) (test_field : Row → string) (i : nat) (r : Row) :
  df !! i = Some r →
  length (_is_first df test_field) = length df ∧
  ∃ flag,
    _is_first df test_field !! i = Some flag ∧
    (flag = true ↔ ∀ j r', (j < i)%nat → df !! j = Some r' → test_field r' ≠ test_field r).
Proof.
  intros Hr. unfold _is_first. split.
  { by rewrite length_is_first_loop, length_fmap. }
  eexists. split.
  { apply is_first_loop_lookup. by rewrite list_lookup_fmap, Hr. }
  rewrite bool_decide_eq_true. split.
  - intros [_ Hnot] j r' Hj Hr' Heq. apply Hnot.
    rewrite <- fmap_take. apply list_elem_of_fmap. exists r'. split; [done|].
    apply (list_elem_of_lookup_2 _ j). by rewrite lookup_take_lt.
  - intros Hearlier. split; [apply not_elem_of_empty|].
    rewrite <- fmap_take. intros Hin.
    apply list_elem_of_fmap in Hin as (r' & Heq & Hin).
    apply list_elem_of_lookup_1 in Hin as [j Hj].
    pose proof (lookup_lt_Some _ _ _ Hj) as Hlt. rewrite length_take in Hlt.
    rewrite lookup_take_lt in Hj by lia.
    apply (Hearlier j r'); [lia|done|done].
Qed.

Lemma is_first_flags_witness :
  scores_df !! 2%nat = Some (scored_row "c" (9 # 10)%Q) ∧
  length (_is_first scores_df Method) = length scores_df ∧
  ∃ flag,
    _is_first scores_df Method !! 2%nat = Some flag ∧
    (flag = true ↔ ∀ j r', (j < 2)%nat → scores_df !! j = Some r' →
                           Method r' ≠ Method (scored_row "c" (9 # 10)%Q)).
Proof.
  split; [reflexivity|].
  exact (is_first_flags scores_df Method 2 (scored_row "c" (9 # 10)%Q) eq_refl).
Defined.

Lemma sorts_before_refl (a : number) : sorts_before a a = true.
Proof. destruct a as [x|]; simpl; [|done]. apply Qle_bool_iff, Qle_refl. Qed.

Lemma sorts_before_trans (a b c : number) :
  sorts_before a b = true → sorts_before b c = true → sorts_before a c = true.
Proof.
  destruct a as [x|], b as [y|], c as [z|]; simpl; try done.
  rewrite !Qle_bool_iff. intros Hyx Hzy. by apply Qle_trans with y.
Qed.

Lemma sorts_before_total (a b : number) :
  sorts_before a b = false → sorts_before b a = true.
Proof.
  destruct a as [x|], b as [y|]; simpl; try done.
  intros Hfalse. apply Qle_bool_iff. apply Qle_bool_false in Hfalse.
  by apply Qlt_le_weak.
Qed.

Lemma insert_sorted_StronglySorted (key : Row → number) (r : Row) (l : list Row) :
  StronglySorted (λ a b, sorts_before (key a) (key b) = true) l →
  StronglySorted (λ a b, sorts_before (key a) (key b) = true) (insert_sorted key r l).
Proof.
  induction 1 as [|r' rest Hrest IH Hall]; simpl.
  { constructor; [constructor|constructor]. }
  destruct (sorts_before (key r) (key r')) eqn:Hbefore.
  - constructor; [by constructor|]. constructor; [done|].
    eapply Forall_impl; [exact Hall|]. simpl. intros b Hb.
    by apply sorts_before_trans with (key r').
  - constructor; [done|]. rewrite insert_sorted_Permutation.
    constructor; [|done]. by apply sorts_before_total.
Qed.

Lemma sort_values_StronglySorted (key : Row → number) (df : list Row) :
  StronglySorted (λ a b, sorts_before (key a) (key b) = true) (sort_values key df).
Proof.
  unfold sort_values. induction df as [|r df IH]; simpl; [constructor|].
  by apply insert_sorted_StronglySorted.
Qed.

Lemma select_rows_first (f : Row → string) (R : Row → Row → Prop)
    (rows : list Row) (observed : gset string) :
  (∀ r, R r r) → StronglySorted R rows →
  select_rows rows (is_first_loop observed (f <$> rows)) `sublist_of` rows ∧
  NoDup (f <$> select_rows rows (is_first_loop observed (f <$> rows))) ∧
  (∀ s, s ∈ select_rows rows (is_first_loop observed (f <$> rows)) → f s ∉ observed) ∧
  (∀ r, r ∈ rows → f r ∉ observed →
     ∃ s, s ∈ select_rows rows (is_first_loop observed (f <$> rows)) ∧
          f s = f r ∧ R s r).
Proof.
  intros Hrefl Hsorted. revert observed.
  induction Hsorted as [|a rest Hrest IH Hall]; intros observed.
  { simpl. split; [constructor|]. split; [constructor|].
    split; intros ? Hin; by apply elem_of_nil in Hin. }
  destruct (IH ({[f a]} ∪ observed)) as (Hsub & Hnodup & Hnew & Hbest).
  cbn [fmap list_fmap is_first_loop select_rows].
  change (list_fmap Row string f rest) with (f <$> rest).
  set (selected := select_rows rest (is_first_loop ({[f a]} ∪ observed) (f <$> rest))) in *.
  destruct (decide (f a ∈ observed)) as [Hseen|Hfresh].
  - rewrite bool_decide_eq_false_2 by (intros Hn; by apply Hn).
    split; [by apply sublist_cons|]. split; [done|]. split.
    + intros s Hs Hin. apply (Hnew s Hs). apply elem_of_union. by right.
    + intros r Hr Hfr. apply elem_of_cons in Hr as [->|Hr]; [done|].
      apply Hbest; [done|]. rewrite not_elem_of_union, not_elem_of_singleton.
      split; [|done]. intros Heq. apply Hfr. by rewrite Heq.
  - rewrite bool_decide_eq_true_2 by done.
    split; [by apply sublist_skip|]. split; [|split].
    + rewrite fmap_cons. constructor; [|done]. intros Hin.
      apply list_elem_of_fmap in Hin as (s & Heq & Hs).
      apply (Hnew s Hs). apply elem_of_union. left.
      apply elem_of_singleton. by symmetry.
    + intros s Hs. apply elem_of_cons in Hs as [->|Hs]; [done|].
      intros Hin. apply (Hnew s Hs). apply elem_of_union. by right.
    + intros r Hr Hfr. apply elem_of_cons in Hr as [->|Hr].
      { exists a. split; [by left|]. by split. }
      destruct (decide (f r = f a)) as [Heq|Hne].
      { exists a. split; [by left|]. split; [done|].
        rewrite Forall_forall in Hall. by apply Hall. }
      destruct (Hbest r Hr) as (s & Hs & Hfs & HR).
      { rewrite not_elem_of_union, not_elem_of_singleton. by split. }
      exists s. split; [by right|]. by split.
Qed.

(** X16. [method_by_dataset] never fails, and the rows it shows are rows
    of the dataset, one for every method that has a row in the dataset:
    no two of them have the same method, and the row of a method has the
    greatest value of the sort field among the rows of that method in the
    dataset (a row without a number, NaN, is shown only for a method none
    of whose rows has one). *)
Theorem method_by_dataset_best {A} (df : list Row) (dataset : string)
    (sort_field : Row → number) (display_fields : Row → A)
    (group_by test_field : Row → string) :
  ∃ selected,
    method_by_dataset df dataset sort_field display_fields group_by test_field
      = Ok (display_fields <$> selected) ∧
    (∀ s, s ∈ selected → s ∈ df ∧ group_by s = dataset) ∧
    NoDup (test_field <$> selected) ∧
    (∀ r, r ∈ df → group_by r = dataset →
       ∃ s, s ∈ selected ∧ test_field s = test_field r ∧
            ∀ x, sort_field r = Some x →
                 ∃ y, sort_field s = Some y ∧ (x <= y)%Q).
Proof.
  unfold method_by_dataset, boolean_index, _is_first.
  set (sorted_dataset_df := sort_values sort_field (filter (λ r, group_by r = dataset) df)).
  assert (Hperm : sorted_dataset_df ≡ₚ filter (λ r, group_by r = dataset) df)
    by apply sort_values_Permutation.
  destruct (select_rows_first test_field
              (λ a b, sorts_before (sort_field a) (sort_field b) = true)
              sorted_dataset_df ∅)
    as (Hsub & Hnodup & _ & Hbest).
  { intros r. apply sorts_before_refl. }
  { apply sort_values_StronglySorted. }
  set (selected := select_rows sorted_dataset_df
                     (is_first_loop ∅ (test_field <$> sorted_dataset_df))) in *.
  exists selected. split.
  { cbv zeta. fold sorted_dataset_df.
    rewrite decide_True by (by rewrite length_is_first_loop, length_fmap).
    by rewrite bind_Ok. }
  split; [|split; [done|]].
  - intros s Hs. apply (λ H, elem_of_sublist _ _ _ H Hsub) in Hs.
    rewrite Hperm in Hs. by apply list_elem_of_filter in Hs as [? ?].
  - intros r Hr Hgroup.
    destruct (Hbest r) as (s & Hs & Hfs & Hbefore).
    { rewrite Hperm. by apply list_elem_of_filter. }
    { apply not_elem_of_empty. }
    exists s. split; [done|]. split; [done|].
    intros x Hx. rewrite Hx in Hbefore.
    destruct (sort_field s) as [y|]; simpl in Hbefore; [|done].
    exists y. split; [done|]. by apply Qle_bool_iff.
Qed.

(** ** The distance matrix of a table *)

Lemma matrix_wf_set {D} (n : nat) (dm : list (list D)) (i j : nat) (v : D) :
  matrix_wf n dm → matrix_wf n (matrix_set dm i j v).
Proof.
  intros [Hlen Hrows]. unfold matrix_set. split; [by rewrite length_alter|].
  apply Forall_forall. intros row Hrow.
  apply list_elem_of_lookup_1 in Hrow as [a Ha].
  rewrite Forall_forall in Hrows.
  destruct (decide (a = i)) as [->|Hne].
  - rewrite list_lookup_alter_eq in Ha.
    destruct (dm !! i) as [row'|] eqn:Hi; simpl in Ha; [|done].
    injection Ha as <-. rewrite length_insert.
    apply Hrows. by apply (list_elem_of_lookup_2 _ i).
  - rewrite list_lookup_alter_ne in Ha by done.
    apply Hrows. by apply (list_elem_of_lookup_2 _ a).
Qed.

Lemma matrix_get_set {D} (n : nat) (dm : list (list D)) (i j : nat) (v : D) (a b : nat) :
  matrix_wf n dm → (i < n)%nat → (j < n)%nat →
  matrix_get (matrix_set dm i j v) a b
  = if decide (a = i ∧ b = j) then Some v else matrix_get dm a b.
Proof.
  intros [Hlen Hrows] Hi Hj. unfold matrix_get, matrix_set.
  destruct (decide (a = i)) as [->|Hne].
  - rewrite list_lookup_alter_eq.
    destruct (lookup_lt_is_Some_2 dm i) as [row Hrow]; [lia|].
    rewrite Hrow. simpl.
    assert (Hlen' : length row = n).
    { rewrite Forall_forall in Hrows. apply Hrows.
      by apply (list_elem_of_lookup_2 _ i). }
    destruct (decide (b = j)) as [->|Hb].
    + rewrite decide_True by done. rewrite list_lookup_insert_eq; [done|lia].
    + rewrite decide_False by tauto. by rewrite list_lookup_insert_ne.
  - rewrite decide_False by tauto. by rewrite list_lookup_alter_ne.
Qed.

Lemma matrix_get_zeros {D} (zero : D) (n a b : nat) :
  matrix_get (zeros zero n n) a b
  = if decide ((a < n)%nat ∧ (b < n)%nat) then Some zero else None.
Proof.
  unfold matrix_get, zeros.
  destruct (decide (a < n)%nat) as [Ha|Ha].
  - rewrite lookup_replicate_2 by done. simpl.
    destruct (decide (b < n)%nat) as [Hb|Hb].
    + rewrite decide_True by done. by rewrite lookup_replicate_2.
    + rewrite decide_False by tauto. apply lookup_replicate_None; lia.
  - rewrite decide_False by tauto.
    rewrite (proj1 (lookup_replicate_None _ _ _)) by lia. done.
Qed.

Lemma matrix_wf_zeros {D} (zero : D) (n : nat) : matrix_wf n (zeros zero n n).
Proof.
  unfold zeros. split; [by rewrite length_replicate|].
  apply Forall_forall. intros row Hrow.
  apply elem_of_replicate in Hrow as [-> _]. by rewrite length_replicate.
Qed.

Section Distances_properties.
Context {D : Type} (zero : D).
Context (pdist : list Q → list Q → string → result D).
Context (table : Table) (metric : string).

Lemma distances_done_start :
  distances_done zero pdist table metric 0 0
    (zeros zero (length (sample_ids table)) (length (sample_ids table))).
Proof.
  split; [apply matrix_wf_zeros|]. split; [|split].
  - intros a Ha. rewrite matrix_get_zeros. by rewrite decide_True.
  - intros a b. rewrite !matrix_get_zeros.
    destruct (decide ((a < _)%nat ∧ (b < _)%nat)) as [[? ?]|Hn].
    + by rewrite decide_True.
    + rewrite decide_False; [done|]. tauto.
  - intros a b Hba [Ha|[_ Hb]]; lia.
Qed.

Lemma distances_done_step (i j : nat) (d : D) (dm : list (list D)) :
  (j < i)%nat → (i < length (sample_ids table))%nat →
  distance_of pdist table metric i j d →
  distances_done zero pdist table metric i j dm →
  distances_done zero pdist table metric i (S j)
    (matrix_set (matrix_set dm i j d) j i d).
Proof.
  intros Hji Hi Hd (Hwf & Hdiag & Hsym & Hdone).
  set (n := length (sample_ids table)) in *.
  assert (Hwf1 : matrix_wf n (matrix_set dm i j d)) by by apply matrix_wf_set.
  assert (Hget : ∀ a b,
    matrix_get (matrix_set (matrix_set dm i j d) j i d) a b
    = if decide (a = j ∧ b = i) then Some d
      else if decide (a = i ∧ b = j) then Some d
      else matrix_get dm a b).
  { intros a b. rewrite (matrix_get_set n) by (done || lia).
    destruct (decide (a = j ∧ b = i)); [done|].
    by rewrite (matrix_get_set n) by (done || lia). }
  split; [by apply matrix_wf_set|]. split; [|split].
  - intros a Ha. rewrite Hget.
    rewrite decide_False by lia. rewrite decide_False by lia. by apply Hdiag.
  - intros a b. rewrite !Hget.
    destruct (decide (a = j ∧ b = i)) as [[-> ->]|H1].
    + rewrite decide_False by lia. by rewrite decide_True.
    + destruct (decide (a = i ∧ b = j)) as [[-> ->]|H2].
      * by rewrite decide_True.
      * rewrite decide_False by tauto. rewrite decide_False by tauto. apply Hsym.
  - intros a b Hba Hfilled. rewrite Hget.
    rewrite decide_False by lia.
    destruct (decide (a = i ∧ b = j)) as [[-> ->]|H2].
    + by exists d.
    + apply Hdone; [done|]. destruct Hfilled as [?|[-> ?]]; [by left|].
      right. split; [done|]. destruct (decide (b = j)); [tauto|lia].
Qed.

Lemma distance_row_done (i : nat) (sid1 : string) (v1 : list Q)
    (l pre : list string) (dm dm' : list (list D)) :
  sample_ids table !! i = Some sid1 → table_data table sid1 = Ok v1 →
  take i (sample_ids table) = (pre ++ l)%list →
  distances_done zero pdist table metric i (length pre) dm →
  distance_row pdist table metric i v1 (zip (seq (length pre) (length l)) l) dm
    = Ok dm' →
  distances_done zero pdist table metric i i dm'.
Proof.
  intros Hsid1 Hv1. pose proof (lookup_lt_Some _ _ _ Hsid1) as Hi.
  revert pre dm. induction l as [|sid2 l IH]; intros pre dm Htake Hdone.
  - simpl. intros [= <-].
    assert (length pre = i) as <-; [|done].
    apply (f_equal length) in Htake.
    rewrite length_take, length_app in Htake. simpl in Htake. lia.
  - assert (Hlen : (length pre + S (length l))%nat = i).
    { apply (f_equal length) in Htake.
      rewrite length_take, length_app in Htake. simpl in Htake. lia. }
    assert (Hsid2 : sample_ids table !! length pre = Some sid2).
    { rewrite <- (lookup_take_lt _ i) by lia.
      rewrite Htake. by rewrite list_lookup_middle. }
    cbn [length seq zip zip_with distance_row].
    destruct (table_data table sid2) as [v2|e] eqn:Hv2;
      [rewrite bind_Ok|by rewrite bind_Raise].
    destruct (pdist v1 v2 metric) as [d|e] eqn:Hd;
      [rewrite bind_Ok|by rewrite bind_Raise].
    intros Hrun.
    apply (IH (pre ++ [sid2])%list (matrix_set (matrix_set dm i (length pre) d)
                                      (length pre) i d)).
    + by rewrite <- app_assoc.
    + rewrite length_app. simpl. rewrite Nat.add_1_r.
      apply distances_done_step; [lia|done| |done].
      by exists sid1, sid2, v1, v2.
    + rewrite length_app. simpl. by rewrite Nat.add_1_r.
Qed.

Lemma distance_rows_done (l pre : list string) (dm dm' : list (list D)) :
  sample_ids table = (pre ++ l)%list →
  distances_done zero pdist table metric (length pre) 0 dm →
  distance_rows pdist table metric (sample_ids table)
    (zip (seq (length pre) (length l)) l) dm = Ok dm' →
  distances_done zero pdist table metric (length (sample_ids table)) 0 dm'.
Proof.
  revert pre dm. induction l as [|sid1 l IH]; intros pre dm Hids Hdone.
  - simpl. intros [= <-]. rewrite Hids at 1. by rewrite app_nil_r.
  - assert (Hsid1 : sample_ids table !! length pre = Some sid1).
    { rewrite Hids. by rewrite list_lookup_middle. }
    cbn [length seq zip zip_with distance_rows].
    destruct (table_data table sid1) as [v1|e] eqn:Hv1;
      [rewrite bind_Ok|by rewrite bind_Raise].
    destruct (distance_row pdist table metric (length pre) v1
                (enumerate (take (length pre) (sample_ids table))) dm)
      as [dm1|e] eqn:Hrow; [rewrite bind_Ok|by rewrite bind_Raise].
    intros Hrun.
    apply (IH (pre ++ [sid1])%list dm1).
    + by rewrite <- app_assoc.
    + rewrite length_app. simpl. rewrite Nat.add_1_r.
      pose proof (distance_row_done (length pre) sid1 v1
                    (take (length pre) (sample_ids table)) [] dm dm1
                    Hsid1 Hv1 eq_refl Hdone Hrow)
        as (Hwf & Hdiag & Hsym & Hfilled).
      split; [done|]. split; [done|]. split; [done|].
      intros a b Hba [Ha|[_ Hb]]; [|lia].
      apply Hfilled; [done|]. lia.
    + rewrite length_app. simpl. by rewrite Nat.add_1_r.
Qed.

(** X17. The matrix that [distance_matrix_from_table] builds is square
    (one row and one column for every sample of the table, in the
    table's order), its diagonal is zero, it is symmetric, and its cell
    for two different samples is the distance that [pdist] gives for
    the counts of the later sample and of the earlier one, in this
    order. *)
Theorem distance_matrix_from_table_symmetric (dm : list (list D)) (ids : list string) :
  distance_matrix_from_table zero pdist table metric = Ok (dm, ids) →
  ids = sample_ids table ∧
  length dm = length ids ∧
  Forall (λ row, length row = length ids) dm ∧
  (∀ i, (i < length ids)%nat → matrix_get dm i i = Some zero) ∧
  (∀ i j, matrix_get dm i j = matrix_get dm j i) ∧
  (∀ i j sid1 sid2, (j < i)%nat → ids !! i = Some sid1 → ids !! j = Some sid2 →
     ∃ v1 v2 d,
       table_data table sid1 = Ok v1 ∧ table_data table sid2 = Ok v2 ∧
       pdist v1 v2 metric = Ok d ∧ matrix_get dm i j = Some d).
Proof.
  unfold distance_matrix_from_table. cbv zeta.
  destruct (distance_rows pdist table metric (sample_ids table)
              (enumerate (sample_ids table))
              (zeros zero (length (sample_ids table)) (length (sample_ids table))))
    as [dm'|e] eqn:Hrun; [rewrite bind_Ok|by rewrite bind_Raise].
  intros [= -> <-].
  destruct (distance_rows_done (sample_ids table) [] _ _ eq_refl
              distances_done_start Hrun)
    as ([Hlen Hrows] & Hdiag & Hsym & Hfilled).
  split; [done|]. split; [done|]. split; [done|]. split; [done|].
  split; [done|].
  intros i j sid1 sid2 Hji Hsid1 Hsid2.
  destruct (Hfilled i j Hji) as (d & (s1 & s2 & v1 & v2 & Hs1 & Hs2 & Hv1 & Hv2 & Hd) & Hget).
  { left. by apply lookup_lt_Some in Hsid1. }
  rewrite Hsid1 in Hs1. rewrite Hsid2 in Hs2.
  injection Hs1 as <-. injection Hs2 as <-.
  by exists v1, v2, d.
Qed.

End Distances_properties.

Lemma distance_matrix_from_table_symmetric_witness :
  distance_matrix_from_table 0%Q cityblock three_sample_table "cityblock"
    = Ok (three_sample_distances, ["S1"; "S2"; "S3"]) ∧
  ["S1"; "S2"; "S3"] = sample_ids three_sample_table ∧
  length three_sample_distances = 3%nat ∧
  Forall (λ row, length row = 3%nat) three_sample_distances ∧
  (∀ i, (i < 3)%nat → matrix_get three_sample_distances i i = Some 0%Q) ∧
  (∀ i j, matrix_get three_sample_distances i j = matrix_get three_sample_distances j i) ∧
  (∀ i j sid1 sid2, (j < i)%nat →
     ["S1"; "S2"; "S3"] !! i = Some sid1 → ["S1"; "S2"; "S3"] !! j = Some sid2 →
     ∃ v1 v2 d,
       table_data three_sample_table sid1 = Ok v1 ∧
       table_data three_sample_table sid2 = Ok v2 ∧
       cityblock v1 v2 "cityblock" = Ok d ∧
       matrix_get three_sample_distances i j = Some d).
Proof.
  split; [reflexivity|].
  exact (distance_matrix_from_table_symmetric 0%Q cityblock three_sample_table
           "cityblock" three_sample_distances ["S1"; "S2"; "S3"] eq_refl).
Defined.

(** ** The scores of chosen parameter sets: [get_sample_to_top_scores] *)


Lemma fold_result_Raise {S A} (body : S → A → result S) (l : list A) (s : S) (e : exn) :
  fold_result body l s = Raise e → ∃ s0 x, x ∈ l ∧ body s0 x = Raise e.
Proof.
  revert s. induction l as [|x l IH]; intros s; simpl; [done|].
  destruct (body s x) as [s1|e'] eqn:Hbody.
  - rewrite bind_Ok. intros Hrest. destruct (IH _ Hrest) as (s0 & y & Hy & Hraise).
    exists s0, y. split; [by right|done].
  - rewrite bind_Raise. intros [= ->]. exists s, x. split; [by left|done].
Qed.

Lemma dict_get_setitem {V} (d : list (string * V)) (k k' : string) (v : V) :
  dict_get (dict_setitem d k v) k' = if decide (k' = k) then Some v else dict_get d k'.
Proof.
  induction d as [|[k1 v1] d IH]; simpl.
  - destruct (decide (k = k')) as [->|Hne].
    + by rewrite decide_True.
    + by rewrite decide_False by done.
  - destruct (decide (k1 = k)) as [->|Hne]; simpl.
    + destruct (decide (k = k')) as [->|Hne'].
      * by rewrite decide_True.
      * by rewrite decide_False by done.
    + destruct (decide (k1 = k')) as [->|Hne'].
      * by rewrite decide_False by done.
      * apply IH.
Qed.

Lemma elem_of_dict_setitem {V} (d : list (string * V)) (k : string) (v : V)
    (p : string * V) :
  p ∈ dict_setitem d k v → p = (k, v) ∨ p ∈ d.
Proof.
  induction d as [|[k1 v1] d IH]; simpl.
  - intros Hin. apply list_elem_of_singleton in Hin. by left.
  - destruct (decide (k1 = k)) as [->|Hne]; intros Hin;
      apply elem_of_cons in Hin as [->|Hin].
    + by left.
    + right. by right.
    + right. by left.
    + destruct (IH Hin) as [?|?]; [by left|]. right. by right.
Qed.

Lemma dict_get_elem {V} (d : list (string * V)) (k : string) (v : V) :
  dict_get d k = Some v → (k, v) ∈ d.
Proof.
  induction d as [|[k1 v1] d IH]; simpl; [done|].
  destruct (decide (k1 = k)) as [->|Hne].
  - intros [= ->]. by left.
  - intros Hget. right. by apply IH.
Qed.

Lemma dict_getitem_Ok {V} (d : gmap string V) (k : string) (v : V) :
  dict_getitem d k = Ok v ↔ d !! k = Some v.
Proof.
  unfold dict_getitem. destruct (d !! k) as [v'|]; [|done].
  split; by intros [= ->].
Qed.

Lemma dict_getitem_Raise {V} (d : gmap string V) (k : string) (e : exn) :
  dict_getitem d k = Raise e ↔ d !! k = None ∧ e = KeyError k.
Proof.
  unfold dict_getitem. destruct (d !! k) as [v|].
  - split; [done|]. by intros [? _].
  - split; [by intros [= <-]|by intros [_ ->]].
Qed.




(** The loop over the methods: it needs the chosen parameters of every
    method, and binds every method to the score of its parameters. *)
Lemma method_scores_keep (key : Row → number) (rows : list Row)
    (method_param : gmap string string) (methods : list string)
    (acc current_results : list (string * number)) (m : string) :
  fold_result (λ current_results method,
      parameters ← dict_getitem method_param method;
      Ok (dict_setitem current_results method (method_score key rows method parameters)))
    methods acc = Ok current_results →
  m ∉ methods → dict_get current_results m = dict_get acc m.
Proof.
  revert acc. induction methods as [|m0 methods IH]; intros acc; simpl.
  { by intros [= <-]. }
  destruct (dict_getitem method_param m0) as [p|e]; [|by rewrite !bind_Raise].
  rewrite bind_Ok, bind_Ok. intros Hrun Hm. apply not_elem_of_cons in Hm as [Hne Hm].
  rewrite (IH _ Hrun Hm), dict_get_setitem. by rewrite decide_False.
Qed.

Lemma method_scores_spec (key : Row → number) (rows : list Row)
    (method_param : gmap string string) (methods : list string)
    (acc current_results : list (string * number)) :
  fold_result (λ current_results method,
      parameters ← dict_getitem method_param method;
      Ok (dict_setitem current_results method (method_score key rows method parameters)))
    methods acc = Ok current_results →
  (∀ m, m ∈ methods →
     ∃ p, method_param !! m = Some p ∧
          dict_get current_results m = Some (method_score key rows m p)) ∧
  (∀ m v, (m, v) ∈ current_results →
     (m, v) ∈ acc ∨
     ∃ p, m ∈ methods ∧ method_param !! m = Some p ∧ v = method_score key rows m p).
Proof.
  revert acc. induction methods as [|m0 methods IH]; intros acc Hrun.
  { simpl in Hrun. injection Hrun as <-. split.
    - intros m Hm. by apply elem_of_nil in Hm.
    - intros m v Hin. by left. }
  pose proof Hrun as Hrun'. simpl in Hrun.
  destruct (dict_getitem method_param m0) as [p0|e] eqn:Hp0;
    [|by rewrite !bind_Raise in Hrun].
  apply dict_getitem_Ok in Hp0. rewrite bind_Ok, bind_Ok in Hrun.
  destruct (IH _ Hrun) as [Hget Helem]. split.
  - intros m Hm. destruct (decide (m ∈ methods)) as [Hin|Hnotin]; [by apply Hget|].
    apply elem_of_cons in Hm as [->|Hm]; [|done].
    exists p0. split; [done|].
    rewrite (method_scores_keep _ _ _ _ _ _ _ Hrun Hnotin), dict_get_setitem.
    by rewrite decide_True.
  - intros m v Hin. destruct (Helem m v Hin) as [Hacc|(p & Hm & Hp & Hv)].
    + apply elem_of_dict_setitem in Hacc as [[= -> ->]|Hacc]; [|by left].
      right. exists p0. split; [by left|done].
    + right. exists p. split; [by right|done].
Qed.

Lemma method_scores_Raise (key : Row → number) (rows : list Row)
    (method_param : gmap string string) (methods : list string)
    (acc : list (string * number)) (e : exn) :
  fold_result (λ current_results method,
      parameters ← dict_getitem method_param method;
      Ok (dict_setitem current_results method (method_score key rows method parameters)))
    methods acc = Raise e →
  ∃ m, m ∈ methods ∧ method_param !! m = None ∧ e = KeyError m.
Proof.
  intros Hrun. apply fold_result_Raise in Hrun as (s0 & m & Hm & Hbody).
  exists m. split; [done|].
  destruct (dict_getitem method_param m) as [p|e'] eqn:Hp;
    [by rewrite bind_Ok in Hbody|].
  rewrite bind_Raise in Hbody. injection Hbody as ->.
  by apply dict_getitem_Raise in Hp.
Qed.




Lemma sample_scores_Raise (key : Row → number) (rows : list Row)
    (method_param : gmap string string) (methods : list string) (e : exn) :
  methods ≠ [] →
  sample_scores key rows method_param methods = Raise e →
  ∃ m, m ∈ methods ∧ method_param !! m = None ∧ e = KeyError m.
Proof.
  intros Hmethods. unfold sample_scores.
  destruct (fold_result _ methods []) as [current_results|e'] eqn:Hrun.
  - rewrite bind_Ok.
    destruct (method_scores_spec _ _ _ _ _ _ Hrun) as [Hget _].
    destruct methods as [|m methods]; [done|].
    destruct (Hget m) as (p & _ & Hv); [by left|].
    apply dict_get_elem in Hv.
    destruct current_results as [|item current_results];
      [by apply elem_of_nil in Hv|].
    by simpl.
  - rewrite bind_Raise. intros [= ->]. by apply method_scores_Raise in Hrun.
Qed.

Lemma sample_scores_missing (key : Row → number) (rows : list Row)
    (method_param : gmap string string) (methods : list string) (m : string) :
  m ∈ methods → method_param !! m = None →
  ∃ e, sample_scores key rows method_param methods = Raise e.
Proof.
  intros Hm Hnone.
  destruct (sample_scores key rows method_param methods) as [cell|e] eqn:Hrun;
    [|by exists e].
  unfold sample_scores in Hrun.
  destruct (fold_result _ methods []) as [current_results|e] eqn:Hfold;
    [|by rewrite bind_Raise in Hrun].
  destruct (method_scores_spec _ _ _ _ _ _ Hfold) as [Hget _].
  destruct (Hget m Hm) as (p & Hp & _). congruence.
Qed.

Lemma elem_of_methods (key : Row → number) (df : list Row) (m : string) :
  m ∈ unique (Method <$> sort_values key df) ↔ ∃ r, r ∈ df ∧ Method r = m.
Proof.
  rewrite elem_of_unique, list_elem_of_fmap. split.
  - intros (r & -> & Hr). exists r. split; [|done]. by rewrite <- (sort_values_Permutation key).
  - intros (r & Hr & <-). exists r. split; [done|]. by rewrite (sort_values_Permutation key).
Qed.

Lemma get_sample_to_top_scores_Raise (df : list Row) (metric : string)
    (key : Row → number) (method_param : gmap string string) (e : exn) :
  column metric = Ok key →
  get_sample_to_top_scores df metric method_param = Raise e →
  ∃ r, r ∈ df ∧ method_param !! Method r = None ∧ e = KeyError (Method r).
Proof.
  intros Hcol. unfold get_sample_to_top_scores. rewrite Hcol, bind_Ok. cbv zeta.
  intros Hrun. apply fold_result_Raise in Hrun as (results & dataset & Hdataset & Hrun).
  apply fold_result_Raise in Hrun as (results' & sid & Hsid & Hrun).
  destruct (sample_scores key _ method_param _) as [cell|e'] eqn:Hcell;
    [by rewrite bind_Ok in Hrun|].
  rewrite bind_Raise in Hrun. injection Hrun as ->.
  apply sample_scores_Raise in Hcell as (m & Hm & Hnone & ->).
  - apply (elem_of_methods key) in Hm as (r & Hr & <-). by exists r.
  - apply elem_of_unique, list_elem_of_fmap in Hdataset as (r & _ & Hr).
    intros Hnil. assert (Hin : Method r ∈ unique (Method <$> sort_values key df)).
    { apply elem_of_unique, list_elem_of_fmap. by exists r. }
    rewrite Hnil in Hin. by apply elem_of_nil in Hin.
Qed.

Lemma get_sample_to_top_scores_missing (df : list Row) (metric : string)
    (key : Row → number) (method_param : gmap string string) (r : Row) :
  column metric = Ok key → r ∈ df → method_param !! Method r = None →
  ∃ e, get_sample_to_top_scores df metric method_param = Raise e.
Proof.
  intros Hcol Hr Hnone. unfold get_sample_to_top_scores. rewrite Hcol, bind_Ok.
  cbv zeta. set (sorted_df := sort_values key df).
  assert (Hsorted : sorted_df ≡ₚ df) by apply sort_values_Permutation.
  assert (Hm : Method r ∈ unique (Method <$> sorted_df)).
  { apply (elem_of_methods key). by exists r. }
  destruct (unique (Dataset <$> sorted_df)) as [|dataset datasets] eqn:Hdatasets.
  { assert (Hin : Dataset r ∈ unique (Dataset <$> sorted_df)).
    { apply elem_of_unique, list_elem_of_fmap. exists r. by rewrite Hsorted. }
    rewrite Hdatasets in Hin. by apply elem_of_nil in Hin. }
  assert (Hdataset : dataset ∈ unique (Dataset <$> sorted_df)).
  { rewrite Hdatasets. by left. }
  apply elem_of_unique, list_elem_of_fmap in Hdataset as (r0 & Hd0 & Hr0).
  cbn [fold_result].
  destruct (unique (SampleID <$> filter (λ r, Dataset r = dataset) sorted_df))
    as [|sid sids] eqn:Hsids.
  { assert (Hin : SampleID r0 ∈ unique (SampleID <$>
                    filter (λ r, Dataset r = dataset) sorted_df)).
    { apply elem_of_unique, list_elem_of_fmap. exists r0. split; [done|].
      by apply list_elem_of_filter. }
    rewrite Hsids in Hin. by apply elem_of_nil in Hin. }
  cbn [fold_result].
  destruct (sample_scores_missing key
              (filter (λ r, SampleID r = sid)
                 (filter (λ r, Dataset r = dataset) sorted_df))
              method_param _ _ Hm Hnone) as [e ->].
  exists e. by rewrite !bind_Raise.
Qed.

(** X19. [get_sample_to_top_scores] needs the chosen parameters of every
    method of the table, also of a method without rows for a dataset or
    sample: it returns a table exactly when [method_param] has an entry
    for the method of every row, and otherwise it raises the [KeyError]
    of a method of the table that [method_param] lacks. *)
Theorem get_sample_to_top_scores_needs_parameters (df : list Row) (metric : string)
    (key : Row → number) (method_param : gmap string string) :
  column metric = Ok key →
  (is_Ok (get_sample_to_top_scores df metric method_param)
   ↔ ∀ r, r ∈ df → is_Some (method_param !! Method r)) ∧
  (∀ e, get_sample_to_top_scores df metric method_param = Raise e →
     ∃ r, r ∈ df ∧ method_param !! Method r = None ∧ e = KeyError (Method r)).
Proof.
  intros Hcol. split; [split|].
  - intros [table Htable] r Hr.
    destruct (method_param !! Method r) as [p|] eqn:Hp; [by eexists|].
    destruct (get_sample_to_top_scores_missing df metric key method_param r Hcol Hr Hp)
      as [e He].
    congruence.
  - intros Hall.
    destruct (get_sample_to_top_scores df metric method_param) as [table|e] eqn:Hrun;
      [by eexists|].
    destruct (get_sample_to_top_scores_Raise df metric key method_param e Hcol Hrun)
      as (r & Hr & Hnone & _).
    destruct (Hall r Hr) as [p Hp]. congruence.
  - intros e. by apply (get_sample_to_top_scores_Raise df metric key).
Qed.

Lemma get_sample_to_top_scores_needs_parameters_witness :
  column "F-measure" = Ok F_measure ∧
  (is_Ok (get_sample_to_top_scores two_sample_df "F-measure" chosen_parameters)
   ↔ ∀ r, r ∈ two_sample_df → is_Some (chosen_parameters !! Method r)) ∧
  (∀ e, get_sample_to_top_scores two_sample_df "F-measure" chosen_parameters = Raise e →
     ∃ r, r ∈ two_sample_df ∧ chosen_parameters !! Method r = None
          ∧ e = KeyError (Method r)).
Proof.
  split; [reflexivity|].
  exact (get_sample_to_top_scores_needs_parameters two_sample_df "F-measure"
           F_measure chosen_parameters eq_refl).
Defined.




